(** * AQI forecasting and health-risk scoring: a shallow embedding

    The development follows the Python sources module by module:
    [model.py] and [predict.py] (windowed autoregressive forecaster),
    [health_risk_classifier.py], [health_risk_model.py] and
    [health_risk_api.py] (risk classifier and its HTTP front end).

    Conventions.
    - Python floats are idealised as rationals ([Q]); equalities that
      involve arithmetic are stated with [==].
    - A raised exception is represented by the name of its class; a
      computation that may raise returns [exn + A].
    - The saved-model files form a finite map from paths to models; code
      that reads or writes them runs in the state-and-error monad [M].
    - Library objects (Keras networks, scikit-learn estimators) are not
      part of the repository.  A fitted network is a function from a window
      to the next value, fitting is a parameter of the development, and the
      scalers are written out from their defining formulas. *)

From Stdlib Require Import QArith Qminmax Qabs Lqa.
From stdpp Require Import base list strings gmap.

Close Scope Q_scope.

(* ===================================================================== *)
(** ** Python runtime: exceptions, slices, strings                        *)
(* ===================================================================== *)

Module Py.

(** An exception is identified by the name of its class. *)
Definition exn : Type := string.

Definition result (A : Type) : Type := exn + A.

Definition rbind {A B} (r : result A) (k : A -> result B) : result B :=
  match r with
  | inl e => inl e
  | inr a => k a
  end.

Declare Scope res_scope.
Delimit Scope res_scope with res.
Notation "'let*' x ':=' c 'in' k" := (rbind c (fun x => k))
  (at level 10, x name, c at level 100, k at level 200) : res_scope.
Notation "'let*' ' p ':=' c 'in' k" := (rbind c (fun x => let 'p := x in k))
  (at level 10, p pattern, c at level 100, k at level 200) : res_scope.

(** [l[i]] for a non-negative index. *)
Definition index {A} (l : list A) (i : nat) : result A :=
  match l !! i with
  | Some x => inr x
  | None => inl "IndexError"
  end.

(** [l[-1]]. *)
Definition index_last {A} (l : list A) : result A :=
  match last l with
  | Some x => inr x
  | None => inl "IndexError"
  end.

(** [l[i:j]] for non-negative bounds: out-of-range bounds are clipped. *)
Definition slice {A} (l : list A) (i j : nat) : list A :=
  take (j - i) (drop i l).

(** [l[-w:]]: the last [w] elements; [l[-0:]] is [l[0:]], the whole list,
    and a [w] larger than the length is clipped to the whole list. *)
Definition slice_last {A} (l : list A) (w : nat) : list A :=
  match w with
  | 0 => l
  | _ => drop (length l - w) l
  end.

Fixpoint string_drop (n : nat) (s : string) : string :=
  match n, s with
  | 0, _ => s
  | S n', String _ s' => string_drop n' s'
  | S _, EmptyString => EmptyString
  end.

Fixpoint replace_go (fuel : nat) (old new s : string) : string :=
  match fuel with
  | 0 => s
  | S fuel' =>
      if String.prefix old s
      then new +:+ replace_go fuel' old new (string_drop (String.length old) s)
      else match s with
           | EmptyString => EmptyString
           | String c s' => String c (replace_go fuel' old new s')
           end
  end.

(** [s.replace(old, new)] for a non-empty [old]: every non-overlapping
    occurrence, scanning from the left. *)
Definition replace (s old new : string) : string :=
  replace_go (S (String.length s)) old new s.

(** [sum(xs)]: a left fold starting at 0. *)
Definition py_sum (xs : list Q) : Q := fold_left Qplus xs 0%Q.

(** [max(xs)] / [np.max(xs)] on a non-empty sequence. *)
Definition py_max (xs : list Q) : result Q :=
  match xs with
  | [] => inl "ValueError"
  | x :: xs' => inr (fold_left Qmax xs' x)
  end.

Definition py_min (xs : list Q) : result Q :=
  match xs with
  | [] => inl "ValueError"
  | x :: xs' => inr (fold_left Qmin xs' x)
  end.

(** [np.argmax(xs)]: position of the first maximal entry. *)
Fixpoint argmax_from (best : Q) (besti i : nat) (xs : list Q) : nat :=
  match xs with
  | [] => besti
  | x :: xs' =>
      if Qlt_le_dec best x
      then argmax_from x i (S i) xs'
      else argmax_from best besti (S i) xs'
  end.

Definition argmax (xs : list Q) : result nat :=
  match xs with
  | [] => inl "ValueError"
  | x :: xs' => inr (argmax_from x 0 1 xs')
  end.

(** A [dict] keeps its keys in insertion order; assigning to a key that is
    present overwrites the value in place. *)
Definition dict (V : Type) : Type := list (string * V).

Fixpoint dict_set {V} (d : dict V) (k : string) (v : V) : dict V :=
  match d with
  | [] => [(k, v)]
  | (k', v') :: d' =>
      if decide (k' = k) then (k, v) :: d' else (k', v') :: dict_set d' k v
  end.

Fixpoint dict_get {V} (d : dict V) (k : string) : option V :=
  match d with
  | [] => None
  | (k', v') :: d' => if decide (k' = k) then Some v' else dict_get d' k
  end.

(** [dict(pairs)] and dict comprehensions: insert the pairs left to right. *)
Definition dict_of {V} (pairs : list (string * V)) : dict V :=
  foldl (fun d kv => dict_set d kv.1 kv.2) [] pairs.

Definition values {V} (d : dict V) : list V := map snd d.
Definition keys {V} (d : dict V) : list string := map fst d.

End Py.

Import Py.

(* ===================================================================== *)
(** ** sklearn.preprocessing.MinMaxScaler (feature range (0, 1))          *)
(* ===================================================================== *)

Module MinMaxScaler.

Record t : Type := Build {
  data_min_ : Q;
  data_max_ : Q;
  scale_ : Q;
  min_ : Q
}.

(** A zero range is replaced by 1 so that a constant column is not
    divided by zero (the library tests the range against ten machine
    epsilons; over the rationals that is a test against 0). *)
Definition handle_zeros_in_scale (r : Q) : Q :=
  if Qeq_bool r 0 then 1%Q else r.

(** [fit]: an empty column is rejected. *)
Definition fit (values : list Q) : result t :=
  (let* mn := py_min values in
   let* mx := py_max values in
   let sc := (1 / handle_zeros_in_scale (mx - mn))%Q in
   inr {| data_min_ := mn; data_max_ := mx;
          scale_ := sc; min_ := (0 - mn * sc)%Q |})%res.

Definition transform1 (s : t) (x : Q) : Q := (x * scale_ s + min_ s)%Q.
Definition inverse_transform1 (s : t) (x : Q) : Q := ((x - min_ s) / scale_ s)%Q.

Definition transform (s : t) (values : list Q) : result (list Q) :=
  match values with
  | [] => inl "ValueError"
  | _ => inr (map (transform1 s) values)
  end.

Definition inverse_transform (s : t) (values : list Q) : result (list Q) :=
  match values with
  | [] => inl "ValueError"
  | _ => inr (map (inverse_transform1 s) values)
  end.

Definition fit_transform (values : list Q) : result (t * list Q) :=
  (let* s := fit values in
   let* scaled := transform s values in
   inr (s, scaled))%res.

End MinMaxScaler.

(* ===================================================================== *)
(** ** Saved models and the state-and-error monad                         *)
(* ===================================================================== *)

(** A fitted network: the next scaled value as a function of the window. *)
Definition Model : Type := list Q -> Q.

(** What [model.fit] reports: the per-epoch training and validation loss. *)
Record History : Type := { loss : list Q; val_loss : list Q }.

(** The model files on disk, by path. *)
Abbreviation FS := (gmap string Model).

Definition M (A : Type) : Type := FS -> result A * FS.

Definition ret {A} (a : A) : M A := fun fs => (inr a, fs).
Definition lift {A} (r : result A) : M A := fun fs => (r, fs).
Definition bind {A B} (m : M A) (k : A -> M B) : M B :=
  fun fs =>
    match m fs with
    | (inl e, fs') => (inl e, fs')
    | (inr a, fs') => k a fs'
    end.

Declare Scope M_scope.
Delimit Scope M_scope with M.
Notation "'let*' x ':=' c 'in' k" := (bind c (fun x => k))
  (at level 10, x name, c at level 100, k at level 200) : M_scope.
Notation "'let*' ' p ':=' c 'in' k" := (bind c (fun x => let 'p := x in k))
  (at level 10, p pattern, c at level 100, k at level 200) : M_scope.

(** [os.path.exists(path)] *)
Definition path_exists (path : string) : M bool :=
  fun fs => (inr (bool_decide (is_Some (fs !! path))), fs).

(** [load_model(path)] of Keras: the file must exist. *)
Definition load_model (path : string) : M Model :=
  fun fs =>
    match fs !! path with
    | Some m => (inr m, fs)
    | None => (inl "OSError", fs)
    end.

(** [model.save(path)] *)
Definition save (m : Model) (path : string) : M unit :=
  fun fs => (inr tt, <[path := m]> fs).

(* ===================================================================== *)
(** ** model.py                                                           *)
(* ===================================================================== *)

Module model.
Section WithKeras.

(** [build_model] followed by [model.fit] with the early-stopping and
    learning-rate callbacks: training set, validation set, epochs and
    window size in, the fitted network and its history out (or an
    exception of the library). *)
Variable keras_fit :
  list (list Q) -> list Q -> list (list Q) -> list Q -> nat -> nat ->
  result (Model * History).

(** One iteration of the loop of [create_sequences]. *)
Definition create_sequences_step (data : list Q) (window_size : nat)
    (acc : result (list (list Q) * list Q)) (i : nat)
  : result (list (list Q) * list Q) :=
  (let* '(X, y) := acc in
   let* target := Py.index data (i + window_size) in
   inr (X ++ [Py.slice data i (i + window_size)], y ++ [target]))%res.

(** [range(len(data) - window_size)] is empty when the difference is
    negative, which is what the truncated subtraction gives. *)
Definition create_sequences (data : list Q) (window_size : nat)
  : result (list (list Q) * list Q) :=
  foldl (create_sequences_step data window_size) (inr ([], []))
        (seq 0 (length data - window_size)).

(** [int(0.85 * n)]: the float product truncated toward zero, which is
    the integer quotient of [85 * n] by 100 for every [n] below two
    million. *)
Definition split_index (n : nat) : nat := (85 * n) `div` 100.

Definition train_model (df : list Q) (model_path : string)
    (window_size epochs : nat) : M (Model * MinMaxScaler.t * History) :=
  (let* '(scaler, scaled) := lift (MinMaxScaler.fit_transform df) in
   let* '(X, y) := lift (create_sequences scaled window_size) in
   let split_idx := split_index (length X) in
   let X_train := take split_idx X in
   let X_val := drop split_idx X in
   let y_train := take split_idx y in
   let y_val := drop split_idx y in
   let* '(model, history) :=
      lift (keras_fit X_train y_train X_val y_val epochs window_size) in
   let* _ := save model (Py.replace model_path ".h5" ".keras") in
   ret (model, scaler, history))%M.

Definition load_existing_model (model_path : string) : M (option Model) :=
  (let keras_path := Py.replace model_path ".h5" ".keras" in
   let* e1 := path_exists keras_path in
   if e1 : bool then (let* m := load_model keras_path in ret (Some m))
   else
     let* e2 := path_exists model_path in
     if e2 : bool then (let* m := load_model model_path in ret (Some m))
     else ret None)%M.

End WithKeras.
End model.

(* ===================================================================== *)
(** ** predict.py                                                         *)
(* ===================================================================== *)

Module predict.
Section WithKeras.

Variable keras_fit :
  list (list Q) -> list Q -> list (list Q) -> list Q -> nat -> nat ->
  result (Model * History).

(** [last_seq.reshape(1, window_size, 1)]: the number of elements must
    be [window_size]. *)
Definition reshape (last_seq : list Q) (window_size : nat) : result (list Q) :=
  if decide (length last_seq = window_size) then inr last_seq
  else inl "ValueError".

(** Lines 24-29: the window the first prediction is made from. *)
Definition initial_window (scaled : list Q) (window_size : nat)
  : result (list Q) :=
  if decide (length scaled < window_size) then
    (let* first := Py.index scaled 0 in
     let padding := replicate (window_size - length scaled) first in
     inr (padding ++ scaled))%res
  else inr (Py.slice_last scaled window_size).

(** The loop state: [last_seq] and [predictions_scaled]. *)
Definition loop_state : Type := list Q * list Q.

(** One iteration of the loop of lines 34-38. *)
Definition forecast_step (model : Model) (window_size : nat)
    (st : loop_state) : result loop_state :=
  (let '(last_seq, predictions_scaled) := st in
   let* window := reshape last_seq window_size in
   let pred := model window in
   inr (drop 1 last_seq ++ [pred], predictions_scaled ++ [pred]))%res.

Fixpoint forecast_loop (model : Model) (window_size hours : nat)
    (st : loop_state) : result loop_state :=
  match hours with
  | 0 => inr st
  | S hours' =>
      (let* st' := forecast_step model window_size st in
       forecast_loop model window_size hours' st')%res
  end.

Definition forecast_next_hours (df : list Q) (model_path : string)
    (hours window_size epochs : nat) : M (list Q) :=
  (let* cached := model.load_existing_model model_path in
   let* '(scaler, scaled) := lift (MinMaxScaler.fit_transform df) in
   let* '(model, scaler) :=
     match cached with
     | Some m => ret (m, scaler)
     | None =>
         let* '(m, scaler', history) :=
           model.train_model keras_fit df model_path window_size epochs in
         let* final_loss := lift (Py.index_last (loss history)) in
         let* final_val_loss := lift (Py.index_last (val_loss history)) in
         ret (m, scaler')
     end in
   let* last_seq := lift (initial_window scaled window_size) in
   let* '(_, predictions_scaled) :=
     lift (forecast_loop model window_size hours (last_seq, [])) in
   lift (MinMaxScaler.inverse_transform scaler predictions_scaled))%M.

End WithKeras.
End predict.

(* ===================================================================== *)
(** ** scikit-learn estimators used by the risk classifiers               *)
(* ===================================================================== *)

Module sklearn.

(** [StandardScaler] after [fit]: per-feature mean and scale. *)
Record StandardScaler : Type := { mean_ : list Q; scale_ : list Q }.

(** [scaler.transform([row])[0]]: the row must have the fitted number of
    features. *)
Definition transform (s : StandardScaler) (row : list Q) : result (list Q) :=
  if decide (length row = length (mean_ s)) then
    inr (zip_with (fun xm sc => ((xm.1 - xm.2) / sc)%Q)
                  (zip row (mean_ s)) (scale_ s))
  else inl "ValueError".

(** A fitted [RandomForestClassifier] over labels of type [L]:
    [predict_proba] has one column per entry of [classes_], in that
    order. *)
Record RandomForestClassifier (L : Type) : Type := {
  classes_ : list L;
  predict_proba : list Q -> list Q
}.
Arguments classes_ {L} _.
Arguments predict_proba {L} _ _.

(** [model.predict(X)[0]]: [classes_.take(argmax(predict_proba(X)))]. *)
Definition predict {L} (m : RandomForestClassifier L) (x : list Q) : result L :=
  (let* i := Py.argmax (predict_proba m x) in
   Py.index (classes_ m) i)%res.

(** [np.unique] on strings: sorted, without duplicates. *)
Fixpoint insert_unique (s : string) (l : list string) : list string :=
  match l with
  | [] => [s]
  | x :: l' =>
      match String.compare s x with
      | Lt => s :: l
      | Eq => l
      | Gt => x :: insert_unique s l'
      end
  end.

Definition unique (l : list string) : list string :=
  foldr insert_unique [] l.

(** [LabelEncoder] after [fit]. *)
Record LabelEncoder : Type := { le_classes_ : list string }.

Definition LabelEncoder_fit (y : list string) : LabelEncoder :=
  {| le_classes_ := unique y |}.

(** [label_encoder.inverse_transform([i])[0]] *)
Definition inverse_transform (le : LabelEncoder) (i : nat) : result string :=
  match le_classes_ le !! i with
  | Some s => inr s
  | None => inl "ValueError"
  end.

End sklearn.

(* ===================================================================== *)
(** ** health_risk_classifier.py                                          *)
(* ===================================================================== *)

Module health_risk_classifier.

Definition Shap : Type := list (list Q).

Record Persona : Type := { sensitivity : Q; baseline_risk : Q }.

(** The attributes of a [HealthRiskClassifier] instance.  [scaler] is
    [None] while the [StandardScaler] is not fitted; [explainer] is [None]
    while the attribute does not exist. *)
Record HealthRiskClassifier : Type := {
  model : option (sklearn.RandomForestClassifier string);
  scaler : option sklearn.StandardScaler;
  explainer : option (list Q -> Shap);
  feature_names : list string;
  risk_categories : list string;
  personas : dict Persona
}.

(** [__init__] *)
Definition init : HealthRiskClassifier :=
  {| model := None;
     scaler := None;
     explainer := None;
     feature_names := [];
     risk_categories := ["Low"; "Moderate"; "High"; "Hazardous"];
     personas :=
       [("children_elderly", {| sensitivity := 1.5; baseline_risk := 0.3 |});
        ("outdoor_workers", {| sensitivity := 1.2; baseline_risk := 0.2 |});
        ("general_public", {| sensitivity := 1.0; baseline_risk := 0.1 |})] |}.

(** The dictionary [predict_risk] returns. *)
Record RiskResult : Type := {
  risk_category : string;
  risk_probabilities : dict Q;
  shap_values : Shap;
  features : list Q;
  result_feature_names : list string
}.

(** [forecast_data.get(key, default)] *)
Definition get (forecast_data : gmap string Q) (key : string) (dflt : Q) : Q :=
  default dflt (forecast_data !! key).

Definition one_hot (persona_type expected : string) : Q :=
  if decide (persona_type = expected) then 1%Q else 0%Q.

Definition build_features (forecast_data : gmap string Q)
    (persona_type : string) (exposure_duration : Q) : list Q :=
  [ get forecast_data "aqi" 100;
    get forecast_data "pm25" 50;
    get forecast_data "pm10" 75;
    get forecast_data "temperature" 25;
    get forecast_data "humidity" 60;
    get forecast_data "wind_speed" 5;
    get forecast_data "pressure" 1013;
    get forecast_data "visibility" 8;
    exposure_duration;
    one_hot persona_type "children_elderly";
    one_hot persona_type "outdoor_workers";
    one_hot persona_type "general_public" ].

Definition predict_risk (self : HealthRiskClassifier)
    (forecast_data : gmap string Q) (persona_type : string)
    (exposure_duration : Q) : result RiskResult :=
  (let features := build_features forecast_data persona_type exposure_duration in
   let* sc := match scaler self with
              | Some sc => inr sc
              | None => inl "NotFittedError"
              end in
   let* features_scaled := sklearn.transform sc features in
   let* m := match model self with
             | Some m => inr m
             | None => inl "AttributeError"
             end in
   let risk_prediction := sklearn.predict_proba m features_scaled in
   let* risk_category := sklearn.predict m features_scaled in
   let* ex := match explainer self with
              | Some ex => inr ex
              | None => inl "AttributeError"
              end in
   let shap_values := ex features_scaled in
   inr {| risk_category := risk_category;
          risk_probabilities :=
            Py.dict_of (zip (risk_categories self) risk_prediction);
          shap_values := shap_values;
          features := features;
          result_feature_names := feature_names self |})%res.

Definition advice_templates : dict (dict string) :=
  [("Low",
    [("children_elderly", "Air quality is safe for outdoor activities. Children and elderly can enjoy normal outdoor play and exercise.");
     ("outdoor_workers", "Working conditions are safe. No special precautions needed for outdoor work.");
     ("general_public", "Air quality is good. Enjoy your normal outdoor activities!")]);
   ("Moderate",
    [("children_elderly", "Children and elderly may consider reducing prolonged outdoor exertion. Take breaks during outdoor activities.");
     ("outdoor_workers", "Monitor your health during long outdoor shifts. Consider more frequent breaks in shaded areas.");
     ("general_public", "Unusually sensitive people should consider reducing prolonged outdoor exertion.")]);
   ("High",
    [("children_elderly", "Children and elderly should avoid prolonged outdoor exertion. Keep outdoor activities short and take frequent breaks.");
     ("outdoor_workers", "Reduce prolonged outdoor work. Use protective masks if available and monitor for health symptoms.");
     ("general_public", "Avoid prolonged outdoor exertion. Sensitive groups should stay indoors as much as possible.")]);
   ("Hazardous",
    [("children_elderly", "Children and elderly should remain indoors. Keep all outdoor activities to an absolute minimum.");
     ("outdoor_workers", "Avoid outdoor work if possible. If unavoidable, use proper respiratory protection and limit exposure time.");
     ("general_public", "Avoid all outdoor activities. Stay indoors and keep windows closed. Use air purifiers if available.")])].

(** [d[k]] *)
Definition getitem {V} (d : dict V) (k : string) : result V :=
  match Py.dict_get d k with
  | Some v => inr v
  | None => inl "KeyError"
  end.

Definition generate_health_advice (risk_category persona_type : string)
  : result string :=
  (let* by_persona := getitem advice_templates risk_category in
   getitem by_persona persona_type)%res.

End health_risk_classifier.

(* ===================================================================== *)
(** ** health_risk_api.py: the /health-risk endpoint                      *)
(* ===================================================================== *)

Module health_risk_api.
Import health_risk_classifier.

(** The JSON body of a request: its numeric members, the persona and the
    exposure duration when present. *)
Record Request : Type := {
  numbers : gmap string Q;
  persona : option string;
  exposure_duration : option Q
}.

Record HealthRisk : Type := {
  category : string;
  confidence : Q;
  probabilities : dict Q;
  explanation : string;
  health_advice : string;
  resp_persona : string;
  resp_exposure_duration : Q;
  forecast_data : gmap string Q
}.

(** A response: the JSON body with status 200, or an error message with
    its status code.  For status 500 the message is [str(e)], of which
    the class of [e] is kept. *)
Inductive Response : Type :=
| Success (body : HealthRisk)
| Failure (status : nat) (error : string).

Definition extract_forecast_data (data : Request) : gmap string Q :=
  let g := get (numbers data) in
  <["visibility" := g "visibility" 8%Q]>
  (<["pressure" := g "pressure" 1013%Q]>
  (<["wind_speed" := g "wind_speed" 5%Q]>
  (<["humidity" := g "humidity" 60%Q]>
  (<["temperature" := g "temperature" 25%Q]>
  (<["pm10" := g "pm10" 75%Q]>
  (<["pm25" := g "pm25" 50%Q]>
  (<["aqi" := g "aqi" 100%Q]> ∅))))))).

Definition known_personas : list string :=
  ["children_elderly"; "outdoor_workers"; "general_public"].

(** [0 <= x <= 24] *)
Definition exposure_in_range (x : Q) : bool :=
  Qle_bool 0 x && Qle_bool x 24.

Definition predict_health_risk (classifier : HealthRiskClassifier)
    (data : Request) : Response :=
  let forecast_data := extract_forecast_data data in
  let persona_type := default "general_public" (persona data) in
  let exposure_duration := default 2%Q (exposure_duration data) in
  if negb (bool_decide (persona_type ∈ known_personas)) then
    Failure 400 "Invalid persona type"
  else if negb (exposure_in_range exposure_duration) then
    Failure 400 "Exposure duration must be between 0 and 24 hours"
  else
    let attempt : result HealthRisk :=
      (let* result :=
         predict_risk classifier forecast_data persona_type exposure_duration in
       let* advice :=
         generate_health_advice (risk_category result) persona_type in
       let explanation :=
         "Risk classified as " +:+ risk_category result +:+
         " based on current environmental conditions and " +:+
         Py.replace persona_type "_" " " +:+ " profile." in
       let* conf := py_max (Py.values (risk_probabilities result)) in
       inr {| category := risk_category result;
              confidence := conf;
              probabilities := risk_probabilities result;
              explanation := explanation;
              health_advice := advice;
              resp_persona := persona_type;
              resp_exposure_duration := exposure_duration;
              forecast_data := forecast_data |})%res in
    match attempt with
    | inr body => Success body
    | inl e => Failure 500 e
    end.

End health_risk_api.

(* ===================================================================== *)
(** ** health_risk_model.py                                               *)
(* ===================================================================== *)

Module health_risk_model.

(** The estimator is fitted on the encoded labels, so its classes are
    positions in the label encoder. *)
Record HealthRiskModel : Type := {
  model : option (sklearn.RandomForestClassifier nat);
  label_encoder : option sklearn.LabelEncoder;
  scaler : option sklearn.StandardScaler
}.

Definition init : HealthRiskModel :=
  {| model := None; label_encoder := None; scaler := None |}.

Definition feature_columns : list string :=
  [ "forecasted_pm25"; "forecasted_aqi"; "aqi_trend"; "wind_speed";
    "humidity"; "exposure_hours"; "persona_code"; "who_exceedance_ratio" ].

Definition calculate_who_exceedance_ratio (pm25_forecast : Q) : Q :=
  (pm25_forecast / 15)%Q.

(** The three pickle files under [models/]. *)
Record Disk : Type := {
  health_risk_model_pkl : option (sklearn.RandomForestClassifier nat);
  risk_label_encoder_pkl : option sklearn.LabelEncoder;
  feature_scaler_pkl : option sklearn.StandardScaler
}.

(** [load_model]: the files are read one after the other; a missing file
    raises after the attributes read so far have been assigned. *)
Definition load_model (disk : Disk) (self : HealthRiskModel)
  : result unit * HealthRiskModel :=
  match health_risk_model_pkl disk with
  | None => (inl "FileNotFoundError", self)
  | Some m =>
      let self1 := {| model := Some m; label_encoder := label_encoder self;
                      scaler := scaler self |} in
      match risk_label_encoder_pkl disk with
      | None => (inl "FileNotFoundError", self1)
      | Some le =>
          let self2 := {| model := Some m; label_encoder := Some le;
                          scaler := scaler self |} in
          match feature_scaler_pkl disk with
          | None => (inl "FileNotFoundError", self2)
          | Some sc =>
              (inr tt, {| model := Some m; label_encoder := Some le;
                          scaler := Some sc |})
          end
      end
  end.

Record RiskResult : Type := {
  risk_category : string;
  confidence : Q;
  color : string;
  risk_score : Q;
  all_probabilities : dict Q
}.

Definition color_mapping : dict string :=
  [("Low", "#00e400"); ("Moderate", "#ffff00");
   ("High", "#ff0000"); ("Hazardous", "#7e0023")].

(** An attribute that is still [None] has no methods. *)
Definition attr {A} (o : option A) : result A :=
  match o with
  | Some a => inr a
  | None => inl "AttributeError"
  end.

(** The columns of [input_df]: the members of [forecast_data], with the
    exceedance ratio added when it is not supplied. *)
Definition input_columns (forecast_data : gmap string Q)
  : result (gmap string Q) :=
  match forecast_data !! "who_exceedance_ratio" with
  | Some _ => inr forecast_data
  | None =>
      match forecast_data !! "forecasted_pm25" with
      | Some pm25 =>
          inr (<["who_exceedance_ratio" :=
                   calculate_who_exceedance_ratio pm25]> forecast_data)
      | None => inl "KeyError"
      end
  end.

(** The check of the required features, then [input_df[feature_columns]]. *)
Fixpoint select_features (input_df : gmap string Q) (cols : list string)
  : result (list Q) :=
  match cols with
  | [] => inr []
  | c :: cols' =>
      match input_df !! c with
      | None => inl "ValueError"
      | Some v =>
          (let* rest := select_features input_df cols' in inr (v :: rest))%res
      end
  end.

(** The dict comprehension over [enumerate(prediction_proba)]. *)
Definition all_probabilities_of (le : sklearn.LabelEncoder)
    (prediction_proba : list Q) : result (dict Q) :=
  foldl (fun acc ip =>
           (let* d := acc in
            let* label := sklearn.inverse_transform le ip.1 in
            inr (Py.dict_set d label ip.2))%res)
        (inr [])
        (zip (seq 0 (length prediction_proba)) prediction_proba).

(** The body of [predict_health_risk] once the model is in memory. *)
Definition predict_loaded (self : HealthRiskModel)
    (forecast_data : gmap string Q) : result RiskResult :=
  (let* input_df := input_columns forecast_data in
   let* row := select_features input_df feature_columns in
   let* sc := attr (scaler self) in
   let* X_scaled := sklearn.transform sc row in
   let* m := attr (model self) in
   let prediction_proba := sklearn.predict_proba m X_scaled in
   let* prediction_index := sklearn.predict m X_scaled in
   let* le := attr (label_encoder self) in
   let* risk_category := sklearn.inverse_transform le prediction_index in
   let* confidence := py_max prediction_proba in
   let color := default "#808080" (Py.dict_get color_mapping risk_category) in
   let* risk_score := Py.index prediction_proba prediction_index in
   let* all_probabilities := all_probabilities_of le prediction_proba in
   inr {| risk_category := risk_category;
          confidence := confidence;
          color := color;
          risk_score := risk_score;
          all_probabilities := all_probabilities |})%res.

Definition predict_health_risk (disk : Disk) (self : HealthRiskModel)
    (forecast_data : gmap string Q) : result RiskResult * HealthRiskModel :=
  let '(loaded, self') :=
    match model self with
    | None => load_model disk self
    | Some _ => (inr tt, self)
    end in
  match loaded with
  | inl e => (inl e, self')
  | inr _ => (predict_loaded self' forecast_data, self')
  end.

End health_risk_model.


(** What [load_existing_model] finds in a store: the [.keras] file first. *)
Definition cached (fs : FS) (model_path : string) : option Model :=
  match fs !! Py.replace model_path ".h5" ".keras" with
  | Some m => Some m
  | None => fs !! model_path
  end.

(** A trained model is at hand for a forecast call: either one is cached
    (and the store stays as it is), or none is and training in the call
    succeeds and reports a loss for at least one epoch. *)
Definition model_ready
    (keras_fit : list (list Q) -> list Q -> list (list Q) -> list Q ->
                 nat -> nat -> result (Model * History))
    (fs : FS) (df : list Q) (model_path : string) (window_size epochs : nat)
    (m : Model) (fs' : FS) : Prop :=
  (cached fs model_path = Some m ∧ fs' = fs) ∨
  (cached fs model_path = None ∧
   ∃ sc h, model.train_model keras_fit df model_path window_size epochs fs
           = (inr (m, sc, h), fs') ∧ loss h ≠ [] ∧ val_loss h ≠ []).

(* ===================================================================== *)
(** ** health_risk_api.py: the /batch-health-risk endpoint                *)
(* ===================================================================== *)

Module health_risk_api_batch.
Import health_risk_classifier.

(** The JSON body: the list under [forecasts] (empty when the member is
    absent), each forecast with its numeric members, and the persona when
    present. *)
Record Request : Type := {
  forecasts : list (gmap string Q);
  persona : option string
}.

Record TimelineEntry : Type := {
  hour : nat;
  entry_risk_category : string;
  entry_confidence : Q;
  entry_health_advice : string;
  entry_forecast_data : gmap string Q
}.

Inductive Response : Type :=
| Success (persona : string) (risk_timeline : list TimelineEntry)
| Failure (status : nat) (error : string).

Definition extract_forecast_data (forecast : gmap string Q) : gmap string Q :=
  let g := get forecast in
  <["visibility" := g "visibility" 8%Q]>
  (<["pressure" := g "pressure" 1013%Q]>
  (<["wind_speed" := g "wind_speed" 5%Q]>
  (<["humidity" := g "humidity" 60%Q]>
  (<["temperature" := g "temperature" 25%Q]>
  (<["pm10" := g "pm10" 75%Q]>
  (<["pm25" := g "pm25" 50%Q]>
  (<["aqi" := g "aqi" 100%Q]> ∅))))))).

(** One iteration of the loop over [enumerate(forecasts)]. *)
Definition timeline_step (classifier : HealthRiskClassifier)
    (persona_type : string) (acc : result (list TimelineEntry))
    (item : nat * gmap string Q) : result (list TimelineEntry) :=
  (let* results := acc in
   let '(i, forecast) := item in
   let forecast_data := extract_forecast_data forecast in
   let exposure_duration := get forecast "exposure_duration" 2%Q in
   let* result :=
     predict_risk classifier forecast_data persona_type exposure_duration in
   let* advice :=
     generate_health_advice (risk_category result) persona_type in
   let* conf := py_max (Py.values (risk_probabilities result)) in
   inr (results ++ [{| hour := i + 1;
                       entry_risk_category := risk_category result;
                       entry_confidence := conf;
                       entry_health_advice := advice;
                       entry_forecast_data := forecast_data |}]))%res.

Definition predict_batch_health_risk (classifier : HealthRiskClassifier)
    (data : Request) : Response :=
  let persona_type := default "general_public" (persona data) in
  match forecasts data with
  | [] => Failure 400 "No forecast data provided"
  | _ =>
      match foldl (timeline_step classifier persona_type) (inr [])
                  (zip (seq 0 (length (forecasts data))) (forecasts data)) with
      | inr results => Success persona_type results
      | inl e => Failure 500 e
      end
  end.

End health_risk_api_batch.

(* ===================================================================== *)
(** ** forecast_health_analyzer.py                                        *)
(* ===================================================================== *)

Module forecast_health_analyzer.
Import health_risk_classifier.
Section WithFormat.

(** [str(x)] of a number and the format [{x:.1f}], as used in the
    f-strings of [analyze_risk_factors]. *)
Variable str_of : Q -> string.
Variable format_1f : Q -> string.

(** A row of the forecast table after the renaming of its columns. *)
Record Row : Type := {
  pm25 : Q;
  aqi : Q;
  aqi_trend : Z;
  wind_speed : Q;
  humidity : Q;
  exposure_hours : Z;
  who_exceedance_ratio : Q;
  persona_code : Z;
  risk_level : string
}.

(** [self.persona_mapping.get(code, 'general_public')] *)
Definition persona_mapping (code : Z) : string :=
  match code with
  | 0%Z => "general_public"
  | 1%Z => "children_elderly"
  | 2%Z => "children_elderly"
  | 3%Z => "outdoor_workers"
  | _ => "general_public"
  end.

Definition persona_names : dict string :=
  [("general_public", "General Public");
   ("children_elderly", "Children / Elderly");
   ("outdoor_workers", "Outdoor Workers / Athletes")].

(** The [value] member of a factor is a number or a text. *)
Inductive FactorValue : Type :=
| Number (x : Q)
| Text (s : string).

Record Factor : Type := {
  factor : string;
  level : string;
  value : FactorValue;
  impact : string
}.

Definition analyze_risk_factors (row : Row) (exceedance_ratio : Q)
  : list Factor :=
  let factors : list Factor := [] in
  let factors :=
    if Qlt_le_dec 150 (pm25 row) then
      factors ++ [{| factor := "PM2.5"; level := "Hazardous";
                     value := Number (pm25 row);
                     impact := "Severe health impact" |}]
    else if Qlt_le_dec 75 (pm25 row) then
      factors ++ [{| factor := "PM2.5"; level := "High";
                     value := Number (pm25 row);
                     impact := "Significant health impact" |}]
    else if Qlt_le_dec 35 (pm25 row) then
      factors ++ [{| factor := "PM2.5"; level := "Moderate";
                     value := Number (pm25 row);
                     impact := "Moderate health impact" |}]
    else factors in
  let factors :=
    if decide (2 < aqi_trend row)%Z then
      factors ++ [{| factor := "AQI Trend"; level := "Worsening";
                     value := Text ("Trend " +:+ str_of (inject_Z (aqi_trend row)));
                     impact := "Air quality deteriorating" |}]
    else if decide (aqi_trend row < -2)%Z then
      factors ++ [{| factor := "AQI Trend"; level := "Improving";
                     value := Text ("Trend " +:+ str_of (inject_Z (aqi_trend row)));
                     impact := "Air quality improving" |}]
    else factors in
  let factors :=
    if Qlt_le_dec (wind_speed row) 3 then
      factors ++ [{| factor := "Wind Speed"; level := "Poor";
                     value := Text (str_of (wind_speed row) +:+ " km/h");
                     impact := "Poor pollutant dispersion" |}]
    else factors in
  let factors :=
    if Qlt_le_dec 80 (humidity row) then
      factors ++ [{| factor := "Humidity"; level := "High";
                     value := Text (str_of (humidity row) +:+ "%");
                     impact := "Increases pollutant impact" |}]
    else factors in
  let factors :=
    if Qlt_le_dec 2 exceedance_ratio then
      factors ++ [{| factor := "WHO Guideline"; level := "Critical";
                     value := Text (format_1f exceedance_ratio +:+ "x exceedance");
                     impact := "Far above safe levels" |}]
    else if Qlt_le_dec 1 exceedance_ratio then
      factors ++ [{| factor := "WHO Guideline"; level := "Warning";
                     value := Text (format_1f exceedance_ratio +:+ "x exceedance");
                     impact := "Above safe levels" |}]
    else factors in
  factors.

Record Analysis : Type := {
  forecast_hour : nat;
  forecast_data : Row;
  persona_type : string;
  persona_name : string;
  result_exposure_hours : Z;
  predicted_risk : string;
  confidence : Q;
  health_advice : string;
  result_who_exceedance_ratio : Q;
  who_status : string;
  risk_factors : list Factor
}.

Definition forecast_params (row : Row) : gmap string Q :=
  <["visibility" := 8%Q]>
  (<["pressure" := 1013%Q]>
  (<["wind_speed" := wind_speed row]>
  (<["humidity" := humidity row]>
  (<["temperature" := 25%Q]>
  (<["pm10" := (pm25 row * 1.5)%Q]>
  (<["pm25" := pm25 row]>
  (<["aqi" := aqi row]> ∅))))))).

(** One iteration of the loop over the rows. *)
Definition analyze_row (classifier : HealthRiskClassifier)
    (acc : result (list Analysis)) (row : Row) : result (list Analysis) :=
  (let* results := acc in
   let persona_type := persona_mapping (persona_code row) in
   let* risk_result :=
     predict_risk classifier (forecast_params row) persona_type
                  (inject_Z (exposure_hours row)) in
   let* advice :=
     generate_health_advice (risk_category risk_result) persona_type in
   let who_guideline := 15%Q in
   let exceedance_ratio := (pm25 row / who_guideline)%Q in
   let* name := getitem persona_names persona_type in
   let* conf := py_max (Py.values (risk_probabilities risk_result)) in
   inr (results ++
        [{| forecast_hour := length results + 1;
            forecast_data := row;
            persona_type := persona_type;
            persona_name := name;
            result_exposure_hours := exposure_hours row;
            predicted_risk := risk_category risk_result;
            confidence := conf;
            health_advice := advice;
            result_who_exceedance_ratio := exceedance_ratio;
            who_status :=
              if Qlt_le_dec 1 exceedance_ratio then "Exceeds WHO guideline"
              else "Within WHO guideline";
            risk_factors := analyze_risk_factors row exceedance_ratio |}]))%res.

Definition analyze_forecast_health_risks (classifier : HealthRiskClassifier)
    (forecast_data : list Row) : result (list Analysis) :=
  foldl (analyze_row classifier) (inr []) forecast_data.

End WithFormat.
End forecast_health_analyzer.

(* ===================================================================== *)
(** ** health_risk_classifier.py: saving and loading a classifier         *)
(* ===================================================================== *)

Module classifier_storage.
Import health_risk_classifier.
Section WithShap.

(** [shap.TreeExplainer(model)]: the explainer of an estimator, or the
    exception the library raises for what it is given. *)
Variable tree_explainer :
  option (sklearn.RandomForestClassifier string) -> result (list Q -> Shap).

(** The dictionary that is pickled. *)
Record ModelData : Type := {
  md_model : option (sklearn.RandomForestClassifier string);
  md_scaler : option sklearn.StandardScaler;
  md_feature_names : list string;
  md_risk_categories : list string;
  md_personas : dict Persona
}.

(** The pickle files, by path. *)
Abbreviation Pickles := (gmap string ModelData).

Definition setup_explainability (self : HealthRiskClassifier)
  : result unit * HealthRiskClassifier :=
  match tree_explainer (model self) with
  | inl e => (inl e, self)
  | inr ex =>
      (inr tt,
       {| model := model self; scaler := scaler self; explainer := Some ex;
          feature_names := feature_names self;
          risk_categories := risk_categories self;
          personas := personas self |})
  end.

Definition save_model (self : HealthRiskClassifier) (filepath : string)
    (files : Pickles) : Pickles :=
  <[filepath := {| md_model := model self;
                   md_scaler := scaler self;
                   md_feature_names := feature_names self;
                   md_risk_categories := risk_categories self;
                   md_personas := personas self |}]> files.

Definition load_model (self : HealthRiskClassifier) (filepath : string)
    (files : Pickles) : result unit * HealthRiskClassifier :=
  match files !! filepath with
  | None => (inl "FileNotFoundError", self)
  | Some model_data =>
      setup_explainability
        {| model := md_model model_data;
           scaler := md_scaler model_data;
           explainer := explainer self;
           feature_names := md_feature_names model_data;
           risk_categories := md_risk_categories model_data;
           personas := md_personas model_data |}
  end.

End WithShap.
End classifier_storage.

(* ===================================================================== *)
(** ** aqi_health_integration.py                                          *)
(* ===================================================================== *)

Module aqi_health_integration.
Import health_risk_classifier.
Section WithFeed.

(** What the AQI service returns for a location: the [data] member of a
    successful answer, or nothing when the request fails, is not answered
    with status 200, or does not report success. *)
Variable current_aqi : string -> option (gmap string Q).

Definition fallback_data : gmap string Q :=
  <["visibility" := 8%Q]>
  (<["pressure" := 1013%Q]>
  (<["wind_speed" := 5%Q]>
  (<["humidity" := 60%Q]>
  (<["temperature" := 25%Q]>
  (<["pm10" := 75%Q]>
  (<["pm25" := 50%Q]>
  (<["aqi" := 100%Q]> ∅))))))).

Definition get_current_aqi_data (location : string) : gmap string Q :=
  default fallback_data (current_aqi location).

Record PersonaInfo : Type := {
  name : string;
  icon : string;
  exposure_scenarios : list Q
}.

Definition personas : dict PersonaInfo :=
  [("children_elderly",
    {| name := "Children / Elderly"; icon := "👶👴";
       exposure_scenarios := [2; 4; 6]%Q |});
   ("outdoor_workers",
    {| name := "Outdoor Workers / Athletes"; icon := "👷🏃";
       exposure_scenarios := [4; 6; 8]%Q |});
   ("general_public",
    {| name := "General Public"; icon := "👥";
       exposure_scenarios := [1; 3; 6]%Q |})].

Record Scenario : Type := {
  exposure_hours : Q;
  scenario_risk_category : string;
  confidence : Q;
  health_advice : string;
  probabilities : dict Q
}.

Record PersonaRisks : Type := {
  persona_name : string;
  persona_icon : string;
  scenarios : list Scenario
}.

Record Analysis : Type := {
  location : string;
  analysis_current_aqi : gmap string Q;
  health_risks : dict PersonaRisks
}.

(** One iteration of the inner loop, over the exposure scenarios. *)
Definition scenario_step (classifier : HealthRiskClassifier)
    (aqi_data : gmap string Q) (persona_key : string)
    (acc : result (list Scenario)) (hours : Q) : result (list Scenario) :=
  (let* persona_results := acc in
   let* risk_result := predict_risk classifier aqi_data persona_key hours in
   let* advice :=
     generate_health_advice (risk_category risk_result) persona_key in
   let* conf := py_max (Py.values (risk_probabilities risk_result)) in
   inr (persona_results ++
        [{| exposure_hours := hours;
            scenario_risk_category := risk_category risk_result;
            confidence := conf;
            health_advice := advice;
            probabilities := risk_probabilities risk_result |}]))%res.

(** One iteration of the outer loop, over the personas. *)
Definition persona_step (classifier : HealthRiskClassifier)
    (aqi_data : gmap string Q) (acc : result (dict PersonaRisks))
    (item : string * PersonaInfo) : result (dict PersonaRisks) :=
  (let* risks := acc in
   let '(persona_key, persona_info) := item in
   let* persona_results :=
     foldl (scenario_step classifier aqi_data persona_key) (inr [])
           (exposure_scenarios persona_info) in
   inr (Py.dict_set risks persona_key
          {| persona_name := name persona_info;
             persona_icon := icon persona_info;
             scenarios := persona_results |}))%res.

Definition analyze_health_risks (classifier : HealthRiskClassifier)
    (loc : string) : result Analysis :=
  (let aqi_data := get_current_aqi_data loc in
   let* risks := foldl (persona_step classifier aqi_data) (inr []) personas in
   inr {| location := loc;
          analysis_current_aqi := aqi_data;
          health_risks := risks |})%res.

End WithFeed.
End aqi_health_integration.

(* ===================================================================== *)
(** ** Stand-ins for the fitting routine, used in the worked examples     *)
(* ===================================================================== *)

Module Fixture.

(** A network that answers one half whatever the window. *)
Definition half : Model := fun _ => (1 # 2)%Q.

(** A fitting routine in the manner of Keras: an empty training set is
    rejected, anything else yields [half] and one epoch of history. *)
Definition fit_half (X_train : list (list Q)) (y_train : list Q)
    (X_val : list (list Q)) (y_val : list Q) (epochs window_size : nat)
  : result (Model * History) :=
  match X_train with
  | [] => inl "ValueError"
  | _ => inr (half, {| loss := [0%Q]; val_loss := [0%Q] |})
  end.

(** A store in which [half] is cached for the path [delhi.h5]. *)
Definition store : FS := <["delhi.keras" := half]> ∅.

End Fixture.


(** ** Fitted classifiers, used in the worked examples                     *)

Module RiskFixture.

(** The four labels as the training data name them. *)
Definition labels : list string := ["Low"; "Moderate"; "High"; "Hazardous"].

(** A scaler that leaves [n] features as they are. *)
Definition identity_scaler (n : nat) : sklearn.StandardScaler :=
  {| sklearn.mean_ := replicate n 0%Q; sklearn.scale_ := replicate n 1%Q |}.

(** An estimator fitted on the label strings: its classes are the sorted
    labels; it gives 0.7 to its first class whatever the sample. *)
Definition forest : sklearn.RandomForestClassifier string :=
  {| sklearn.classes_ := sklearn.unique labels;
     sklearn.predict_proba := fun _ => [0.7; 0.1; 0.1; 0.1]%Q |}.

(** A classifier as [load_model] leaves it. *)
Definition classifier : health_risk_classifier.HealthRiskClassifier :=
  {| health_risk_classifier.model := Some forest;
     health_risk_classifier.scaler := Some (identity_scaler 12);
     health_risk_classifier.explainer := Some (fun _ => []);
     health_risk_classifier.feature_names :=
       ["aqi"; "pm25"; "pm10"; "temperature"; "humidity"; "wind_speed";
        "pressure"; "visibility"; "exposure_duration";
        "persona_children"; "persona_workers"; "persona_general"];
     health_risk_classifier.risk_categories :=
       health_risk_classifier.risk_categories health_risk_classifier.init;
     health_risk_classifier.personas :=
       health_risk_classifier.personas health_risk_classifier.init |}.

Definition encoder : sklearn.LabelEncoder := sklearn.LabelEncoder_fit labels.

(** An estimator fitted on the encoded labels, undecided between its
    third and fourth class. *)
Definition tied_forest : sklearn.RandomForestClassifier nat :=
  {| sklearn.classes_ := [0; 1; 2; 3];
     sklearn.predict_proba := fun _ => [0.1; 0.1; 0.4; 0.4]%Q |}.

Definition tied_model : health_risk_model.HealthRiskModel :=
  {| health_risk_model.model := Some tied_forest;
     health_risk_model.label_encoder := Some encoder;
     health_risk_model.scaler := Some (identity_scaler 8) |}.

Definition no_files : health_risk_model.Disk :=
  {| health_risk_model.health_risk_model_pkl := None;
     health_risk_model.risk_label_encoder_pkl := None;
     health_risk_model.feature_scaler_pkl := None |}.

(** The example forecast of [health_risk_model.py]. *)
Definition example_forecast : gmap string Q :=
  <["forecasted_pm25" := 35.5%Q]>
  (<["forecasted_aqi" := 125%Q]>
  (<["aqi_trend" := 1%Q]>
  (<["wind_speed" := 2.1%Q]>
  (<["humidity" := 65%Q]>
  (<["exposure_hours" := 4%Q]>
  (<["persona_code" := 1%Q]> ∅)))))).

(** A request to the endpoint with nothing but the defaults. *)
Definition default_request : health_risk_api.Request :=
  {| health_risk_api.numbers := ∅;
     health_risk_api.persona := None;
     health_risk_api.exposure_duration := None |}.

End RiskFixture.

(* ===================================================================== *)
(** ** Definitions that follow the wording of the interface description   *)
(* ===================================================================== *)

Module Spec.

(** Severity order of the documented tie-break:
    Hazardous > High > Moderate > Low. *)
Definition severity (label : string) : nat :=
  if decide (label = "Hazardous") then 3
  else if decide (label = "High") then 2
  else if decide (label = "Moderate") then 1
  else 0.

(** [better p c q d]: entry [(c, p)] wins over [(d, q)]. *)
Definition better (c : string) (p : Q) (d : string) (q : Q) : bool :=
  if Qlt_le_dec q p then true
  else if Qlt_le_dec p q then false
  else bool_decide (severity d < severity c).

(** The label of largest probability, ties going to the higher severity. *)
Definition argmax_severity (probabilities : dict Q) : option string :=
  match probabilities with
  | [] => None
  | (c0, p0) :: rest =>
      Some (foldl (fun best cp =>
                     if better cp.1 cp.2 best.1 best.2 then cp else best)
                  (c0, p0) rest).1
  end.

(** The probabilities sum to 1 within 1e-6. *)
Definition sums_to_one (probabilities : list Q) : Prop :=
  (Qabs (py_sum probabilities - 1) <= 1 # 1000000)%Q.

(** [p] is the maximum of [xs]. *)
Definition is_max (p : Q) (xs : list Q) : Prop :=
  p ∈ xs ∧ ∀ q, q ∈ xs → (q <= p)%Q.

(** What scikit-learn guarantees of a fitted estimator: one probability
    per class, and the probabilities of a sample sum to 1. *)
Definition well_formed {L} (m : sklearn.RandomForestClassifier L) : Prop :=
  ∀ x, length (sklearn.predict_proba m x) = length (sklearn.classes_ m) ∧
       sums_to_one (sklearn.predict_proba m x).

(** The prediction contract [forecast(model, scaling, series, horizon)]:
    scale the series with the given scaling, take the (padded) last
    window, iterate the model, and map the predictions back. *)
Definition forecast (m : Model) (scaling : MinMaxScaler.t)
    (series : list Q) (horizon window_size : nat) : result (list Q) :=
  (let* scaled := MinMaxScaler.transform scaling series in
   let* w0 := predict.initial_window scaled window_size in
   let* st := predict.forecast_loop m window_size horizon (w0, []) in
   MinMaxScaler.inverse_transform scaling st.2)%res.

End Spec.

(* ===================================================================== *)
(** * Properties                                                          *)
(* ===================================================================== *)

(** ** The scaler *)

Section ScalerFacts.
Import MinMaxScaler.

Lemma fit_nonempty (x : Q) (xs : list Q) :
  ∃ sc, fit (x :: xs) = inr sc.
Proof. unfold fit; simpl. eauto. Qed.

Lemma fit_inv (values : list Q) (sc : t) :
  fit values = inr sc →
  values ≠ [] ∧
  scale_ sc = (1 / handle_zeros_in_scale (data_max_ sc - data_min_ sc))%Q ∧
  min_ sc = (0 - data_min_ sc * scale_ sc)%Q.
Proof.
  destruct values as [|x xs]; unfold fit; simpl; [discriminate|].
  intros [= <-]; simpl. split; [discriminate | split; reflexivity].
Qed.

Lemma handle_zeros_nonzero (r : Q) : ¬ (handle_zeros_in_scale r == 0)%Q.
Proof.
  unfold handle_zeros_in_scale.
  destruct (Qeq_bool r 0) eqn:E.
  - intros H. discriminate H.
  - intros H. apply Qeq_bool_neq in E. contradiction.
Qed.

Lemma fit_scale_nonzero (values : list Q) (sc : t) :
  fit values = inr sc → ¬ (scale_ sc == 0)%Q.
Proof.
  intros H. apply fit_inv in H as (_ & Hs & _). rewrite Hs.
  pose proof (handle_zeros_nonzero (data_max_ sc - data_min_ sc)) as Hz.
  intros H0.
  pose proof (Qmult_div_r 1 _ Hz) as H1.
  rewrite H0, Qmult_0_r in H1. discriminate H1.
Qed.

Lemma fit_transform_inv (values : list Q) (sc : t) (scaled : list Q) :
  fit_transform values = inr (sc, scaled) →
  fit values = inr sc ∧ scaled = map (transform1 sc) values ∧ values ≠ [].
Proof.
  unfold fit_transform. destruct (fit values) as [e|s] eqn:Hf; simpl; [discriminate|].
  destruct values as [|x xs]; simpl; [discriminate|].
  intros [= <- <-]. repeat split; discriminate.
Qed.

Lemma fit_transform_nonempty (values : list Q) :
  values ≠ [] →
  ∃ sc, fit values = inr sc ∧
        fit_transform values = inr (sc, map (transform1 sc) values).
Proof.
  destruct values as [|x xs]; [congruence|]. intros _.
  destruct (fit_nonempty x xs) as [sc Hsc]. exists sc. split; [assumption|].
  unfold fit_transform. rewrite Hsc. reflexivity.
Qed.

End ScalerFacts.

(** ** The saved-model store *)

Section StoreFacts.

Lemma load_existing_model_run (fs : FS) (model_path : string) :
  model.load_existing_model model_path fs = (inr (cached fs model_path), fs).
Proof.
  unfold model.load_existing_model, cached, bind, path_exists, load_model, ret.
  destruct (fs !! Py.replace model_path ".h5" ".keras") as [m|] eqn:Hk.
  - rewrite bool_decide_true by eauto. rewrite Hk. reflexivity.
  - rewrite bool_decide_false by (intros [? ?]; discriminate).
    destruct (fs !! model_path) as [m|] eqn:Hp.
    + rewrite bool_decide_true by eauto. rewrite Hp. reflexivity.
    + rewrite bool_decide_false by (intros [? ?]; discriminate). reflexivity.
Qed.

End StoreFacts.

(** ** The prediction loop *)

Section LoopFacts.
Import predict.

Variable m : Model.
Variable window_size : nat.
Hypothesis window_pos : 1 ≤ window_size.

Lemma forecast_step_ok (last_seq preds : list Q) :
  length last_seq = window_size →
  forecast_step m window_size (last_seq, preds)
  = inr (drop 1 last_seq ++ [m last_seq], preds ++ [m last_seq]).
Proof.
  intros Hlen. unfold forecast_step, reshape.
  destruct (decide (length last_seq = window_size)); [reflexivity | contradiction].
Qed.

Lemma forecast_loop_S (k : nat) (st : loop_state) :
  forecast_loop m window_size (S k) st
  = rbind (forecast_step m window_size st) (forecast_loop m window_size k).
Proof. reflexivity. Qed.

Lemma forecast_loop_snoc (k : nat) (st : loop_state) :
  forecast_loop m window_size (S k) st
  = rbind (forecast_loop m window_size k st) (forecast_step m window_size).
Proof.
  revert st. induction k as [|k IH]; intros st.
  - simpl. destruct (forecast_step m window_size st); reflexivity.
  - rewrite (forecast_loop_S (S k) st), (forecast_loop_S k st).
    destruct (forecast_step m window_size st) as [e|st']; [reflexivity|].
    unfold rbind at 1 3. apply IH.
Qed.

Lemma forecast_loop_plus (a b : nat) (st : loop_state) :
  forecast_loop m window_size (a + b) st
  = rbind (forecast_loop m window_size a st) (forecast_loop m window_size b).
Proof.
  revert st. induction a as [|a IH]; intros st; [reflexivity|].
  simpl. destruct (forecast_step m window_size st) as [e|st']; simpl;
    [reflexivity | apply IH].
Qed.

(** After [k] iterations the window is what is left of the initial
    window followed by the predictions made so far. *)
Lemma forecast_loop_window (w0 : list Q) (k : nat) :
  length w0 = window_size →
  ∃ preds,
    forecast_loop m window_size k (w0, [])
    = inr (drop k (w0 ++ preds), preds) ∧ length preds = k.
Proof.
  intros Hw0. induction k as [|k (preds & Hrun & Hlen)].
  - exists []. rewrite app_nil_r. split; reflexivity.
  - set (win := drop k (w0 ++ preds)).
    assert (length win = window_size) as Hwin.
    { unfold win. rewrite length_drop, length_app. lia. }
    exists (preds ++ [m win]). split.
    + rewrite forecast_loop_snoc, Hrun. unfold rbind. fold win.
      rewrite (forecast_step_ok win preds Hwin). do 2 f_equal.
      unfold win. rewrite drop_drop, app_assoc.
      rewrite (drop_app_le (w0 ++ preds)) by (rewrite length_app; lia).
      f_equal. f_equal. lia.
    + rewrite length_app. simpl. lia.
Qed.

(** A run from any state only appends to the predictions. *)
Lemma forecast_loop_extends (k : nat) (st st' : loop_state) :
  forecast_loop m window_size k st = inr st' →
  ∃ more, st'.2 = st.2 ++ more ∧ length more = k.
Proof.
  clear window_pos. revert st. induction k as [|k IH]; intros [ls ps]; simpl.
  - intros [= <-]. exists []. rewrite app_nil_r. split; reflexivity.
  - unfold reshape. destruct (decide (length ls = window_size)); simpl; [|discriminate].
    intros H. apply IH in H as (more & Hmore & Hlen). simpl in Hmore.
    exists (m ls :: more). rewrite Hmore, <- app_assoc. split; [reflexivity|].
    simpl. lia.
Qed.

End LoopFacts.

Section WindowFacts.
Import predict.

Lemma initial_window_short (scaled : list Q) (x : Q) (window_size : nat) :
  scaled !! 0 = Some x → length scaled < window_size →
  initial_window scaled window_size
  = inr (replicate (window_size - length scaled) x ++ scaled).
Proof.
  intros Hx Hlt. unfold initial_window, Py.index.
  destruct (decide (length scaled < window_size)); [|contradiction].
  rewrite Hx. reflexivity.
Qed.

Lemma initial_window_long (scaled : list Q) (window_size : nat) :
  1 ≤ window_size → window_size ≤ length scaled →
  initial_window scaled window_size
  = inr (drop (length scaled - window_size) scaled).
Proof.
  intros Hpos Hle. unfold initial_window, Py.slice_last.
  destruct (decide (length scaled < window_size)); [lia|].
  destruct window_size; [lia | reflexivity].
Qed.

Lemma initial_window_ok (scaled : list Q) (window_size : nat) :
  scaled ≠ [] → 1 ≤ window_size →
  ∃ w0, initial_window scaled window_size = inr w0 ∧ length w0 = window_size.
Proof.
  intros Hne Hpos.
  destruct (decide (length scaled < window_size)) as [Hlt|Hge].
  - destruct scaled as [|x scaled']; [congruence|].
    eexists. split; [apply (initial_window_short _ x); [reflexivity | exact Hlt]|].
    rewrite length_app, length_replicate. lia.
  - eexists. split; [apply initial_window_long; lia|].
    rewrite length_drop. lia.
Qed.

End WindowFacts.

(** ** Training and forecasting as runs of the monad *)

Section RunFacts.
Import predict.

Variable keras_fit :
  list (list Q) -> list Q -> list (list Q) -> list Q -> nat -> nat ->
  result (Model * History).

Lemma train_model_inv (df : list Q) (model_path : string)
    (window_size epochs : nat) (fs fs' : FS)
    (m : Model) (sc : MinMaxScaler.t) (h : History) :
  model.train_model keras_fit df model_path window_size epochs fs
  = (inr (m, sc, h), fs') →
  MinMaxScaler.fit df = inr sc ∧
  fs' = <[Py.replace model_path ".h5" ".keras" := m]> fs.
Proof.
  unfold model.train_model, bind, lift, save, ret.
  destruct (MinMaxScaler.fit_transform df) as [e|[sc0 scaled]] eqn:Hft;
    [discriminate|].
  destruct (model.create_sequences scaled window_size) as [e|[X y]];
    [discriminate|].
  destruct (keras_fit _ _ _ _ _ _) as [e|[m0 h0]]; [discriminate|].
  intros [= <- <- <- <-].
  apply fit_transform_inv in Hft as (Hft & _). split; [exact Hft | reflexivity].
Qed.

Lemma last_nonempty {A} (l : list A) : l ≠ [] → ∃ x, Py.index_last l = inr x.
Proof.
  intros Hne. unfold Py.index_last.
  destruct (last l) as [x|] eqn:Hl; [eauto|].
  apply last_None in Hl. contradiction.
Qed.

(** With a model at hand, the call is the prediction contract run with
    the scaling fitted on the series passed to the call. *)
Lemma forecast_next_hours_ready (fs fs' : FS) (df : list Q)
    (model_path : string) (hours window_size epochs : nat)
    (m : Model) (sc : MinMaxScaler.t) :
  model_ready keras_fit fs df model_path window_size epochs m fs' →
  MinMaxScaler.fit df = inr sc →
  forecast_next_hours keras_fit df model_path hours window_size epochs fs
  = (Spec.forecast m sc df hours window_size, fs').
Proof.
  intros Hready Hfit.
  assert (df ≠ []) as Hne.
  { destruct df; [discriminate Hfit | discriminate]. }
  destruct (fit_transform_nonempty df Hne) as (sc1 & Hfit1 & Hft).
  assert (sc1 = sc) as -> by congruence.
  assert (MinMaxScaler.transform sc df
          = inr (map (MinMaxScaler.transform1 sc) df)) as Htr.
  { destruct df; [congruence | reflexivity]. }
  unfold forecast_next_hours, Spec.forecast, bind.
  rewrite load_existing_model_run. unfold lift at 1. rewrite Hft, Htr.
  destruct Hready as [[Hc ->] | (Hc & sc' & h & Htrain & Hl & Hv)]; rewrite Hc.
  - unfold ret, lift, rbind.
    destruct (initial_window _ _) as [e|w0]; [reflexivity|].
    destruct (forecast_loop _ _ _ _) as [e|[ls ps]]; reflexivity.
  - rewrite Htrain.
    apply train_model_inv in Htrain as [Hfit' _].
    assert (sc' = sc) as -> by congruence.
    destruct (last_nonempty _ Hl) as [x Hx].
    destruct (last_nonempty _ Hv) as [x' Hx'].
    unfold lift at 1. rewrite Hx. unfold lift at 1. rewrite Hx'.
    unfold ret, lift, rbind.
    destruct (initial_window _ _) as [e|w0]; [reflexivity|].
    destruct (forecast_loop _ _ _ _) as [e|[ls ps]]; reflexivity.
Qed.

(** The prediction contract returns [horizon] values. *)
Lemma spec_forecast_ok (m : Model) (sc : MinMaxScaler.t) (df : list Q)
    (hours window_size : nat) :
  df ≠ [] → 1 ≤ window_size → 1 ≤ hours →
  ∃ w0 st,
    initial_window (map (MinMaxScaler.transform1 sc) df) window_size = inr w0 ∧
    length w0 = window_size ∧
    forecast_loop m window_size hours (w0, []) = inr st ∧
    length st.2 = hours ∧
    Spec.forecast m sc df hours window_size
    = inr (map (MinMaxScaler.inverse_transform1 sc) st.2).
Proof.
  intros Hne Hw Hh.
  destruct (initial_window_ok (map (MinMaxScaler.transform1 sc) df) window_size)
    as (w0 & Hw0 & Hlen); [destruct df; [congruence | discriminate] | exact Hw |].
  destruct (forecast_loop_window m window_size Hw w0 hours Hlen)
    as (preds & Hrun & Hp).
  exists w0, (drop hours (w0 ++ preds), preds).
  repeat split; try assumption.
  unfold Spec.forecast.
  assert (MinMaxScaler.transform sc df
          = inr (map (MinMaxScaler.transform1 sc) df)) as ->.
  { destruct df; [congruence | reflexivity]. }
  unfold rbind. rewrite Hw0, Hrun. simpl.
  destruct preds; [simpl in Hp; lia | reflexivity].
Qed.

End RunFacts.

(** ** Supervised pairs *)

Section SequenceFacts.

Lemma slice_window {A} (data : list A) (i w : nat) :
  Py.slice data i (i + w) = take w (drop i data).
Proof. unfold Py.slice. f_equal. lia. Qed.

(** The loop of [create_sequences] after [n] iterations. *)
Lemma create_sequences_prefix (data : list Q) (w n : nat) :
  n ≤ length data - w →
  foldl (model.create_sequences_step data w) (inr ([], [])) (seq 0 n)
  = inr ((λ i, take w (drop i data)) <$> seq 0 n, take n (drop w data)).
Proof.
  induction n as [|n IH]; intros Hn.
  - simpl. rewrite take_0. reflexivity.
  - rewrite seq_S, foldl_app, IH by lia. simpl.
    destruct (lookup_lt_is_Some_2 data (n + w)) as [x Hx]; [lia|].
    unfold model.create_sequences_step, rbind, Py.index. rewrite Hx.
    rewrite slice_window, fmap_app. simpl. do 2 f_equal.
    symmetry. apply take_S_r. rewrite lookup_drop, <- Hx. f_equal. lia.
Qed.

Lemma create_sequences_run (data : list Q) (w : nat) :
  model.create_sequences data w
  = inr ((λ i, take w (drop i data)) <$> seq 0 (length data - w),
         drop w data).
Proof.
  unfold model.create_sequences.
  rewrite create_sequences_prefix by lia. do 2 f_equal.
  apply take_ge. rewrite length_drop. lia.
Qed.

Lemma create_sequences_short (data : list Q) (w : nat) :
  length data ≤ w → model.create_sequences data w = inr ([], []).
Proof.
  intros Hle. rewrite create_sequences_run.
  replace (length data - w) with 0 by lia.
  rewrite drop_ge by lia. reflexivity.
Qed.

Lemma split_index_floor (n : nat) :
  100 * model.split_index n ≤ 85 * n < 100 * (model.split_index n + 1).
Proof.
  unfold model.split_index.
  pose proof (Nat.div_mod_eq (85 * n) 100) as Hdm.
  pose proof (Nat.mod_upper_bound (85 * n) 100) as Hub.
  lia.
Qed.

End SequenceFacts.

Section TrainFacts.

Variable keras_fit :
  list (list Q) -> list Q -> list (list Q) -> list Q -> nat -> nat ->
  result (Model * History).

(** [train_model] on a non-empty series, step by step. *)
Lemma train_model_run (df : list Q) (model_path : string)
    (window_size epochs : nat) (fs : FS) (sc : MinMaxScaler.t) :
  MinMaxScaler.fit df = inr sc →
  let scaled := map (MinMaxScaler.transform1 sc) df in
  let X := (λ i, take window_size (drop i scaled))
             <$> seq 0 (length scaled - window_size) in
  let y := drop window_size scaled in
  let k := model.split_index (length X) in
  model.train_model keras_fit df model_path window_size epochs fs
  = match keras_fit (take k X) (take k y) (drop k X) (drop k y)
                    epochs window_size with
    | inl e => (inl e, fs)
    | inr (m, h) =>
        (inr (m, sc, h), <[Py.replace model_path ".h5" ".keras" := m]> fs)
    end.
Proof.
  intros Hfit scaled X y k.
  assert (df ≠ []) as Hne by (destruct df; [discriminate Hfit | discriminate]).
  destruct (fit_transform_nonempty df Hne) as (sc1 & Hfit1 & Hft).
  assert (sc1 = sc) as -> by congruence.
  unfold model.train_model, bind. unfold lift at 1. rewrite Hft.
  unfold lift at 1. fold scaled. rewrite create_sequences_run.
  fold X y k. unfold lift.
  destruct (keras_fit _ _ _ _ _ _) as [e|[m h]]; reflexivity.
Qed.

Lemma train_model_empty (model_path : string) (window_size epochs : nat)
    (fs : FS) :
  model.train_model keras_fit [] model_path window_size epochs fs
  = (inl "ValueError", fs).
Proof. reflexivity. Qed.

End TrainFacts.

(** ** The forecaster *)

Section ForecasterTheorems.
Import predict.

Variable keras_fit :
  list (list Q) -> list Q -> list (list Q) -> list Q -> nat -> nat ->
  result (Model * History).

(** The state after [k] of the iterations of a complete run. *)
Lemma forecast_loop_partial (m : Model) (window_size : nat) (w0 : list Q)
    (hours k : nat) (st : loop_state) :
  1 ≤ window_size → length w0 = window_size → k ≤ hours →
  forecast_loop m window_size hours (w0, []) = inr st →
  forecast_loop m window_size k (w0, [])
  = inr (drop k (w0 ++ take k st.2), take k st.2).
Proof.
  intros Hw Hlen Hk Hrun.
  destruct (forecast_loop_window m window_size Hw w0 k Hlen)
    as (preds & Hpart & Hp).
  replace hours with (k + (hours - k)) in Hrun by lia.
  rewrite forecast_loop_plus, Hpart in Hrun. simpl in Hrun.
  apply forecast_loop_extends in Hrun as (more & Hmore & _).
  simpl in Hmore. rewrite Hmore.
  rewrite take_app_length' by (symmetry; exact Hp). exact Hpart.
Qed.

(** Whatever the store and the arguments, a call that returns has made
    [hours] predictions. *)
Lemma forecast_next_hours_returns (fs fs' : FS) (df : list Q)
    (model_path : string) (hours window_size epochs : nat)
    (predictions : list Q) :
  forecast_next_hours keras_fit df model_path hours window_size epochs fs
  = (inr predictions, fs') →
  length predictions = hours.
Proof.
  unfold forecast_next_hours, bind.
  rewrite load_existing_model_run. unfold lift at 1.
  destruct (MinMaxScaler.fit_transform df) as [e|[sc scaled]]; [discriminate|].
  assert (∀ (mdl : Model) (sc' : MinMaxScaler.t) (fs1 : FS),
            (let* last_seq := lift (initial_window scaled window_size) in
             let* '(_, predictions_scaled) :=
               lift (forecast_loop mdl window_size hours (last_seq, [])) in
             lift (MinMaxScaler.inverse_transform sc' predictions_scaled))%M fs1
            = (inr predictions, fs') →
            length predictions = hours) as Htail.
  { intros mdl sc' fs1. unfold bind, lift.
    destruct (initial_window scaled window_size) as [e|w0]; [discriminate|].
    destruct (forecast_loop mdl window_size hours (w0, [])) as [e|[ls ps]] eqn:Hrun;
      [discriminate|].
    apply forecast_loop_extends in Hrun as (more & Hmore & Hlen).
    simpl in Hmore. subst ps.
    destruct more as [|p more]; simpl; [discriminate|].
    intros [= <- _]. simpl in *. rewrite length_map. exact Hlen. }
  destruct (cached fs model_path) as [mdl|].
  - unfold ret at 1. apply Htail.
  - destruct (model.train_model keras_fit df model_path window_size epochs fs)
      as [[e|[[mdl sc'] h]] fs1]; [discriminate|].
    unfold lift at 1.
    destruct (Py.index_last (loss h)) as [e|x]; [discriminate|].
    unfold lift at 1.
    destruct (Py.index_last (val_loss h)) as [e|x']; [discriminate|].
    unfold ret at 1. apply Htail.
Qed.

(** C2: a forecast call that returns, returns exactly [hours] values; and
    with a trained model at hand (cached, or fitted in the call), a
    non-empty series and a window of at least one value, a call for a
    horizon between 1 and 24 does return. *)
Theorem forecast_length_is_horizon (fs fs' : FS) (df : list Q)
    (model_path : string) (hours window_size epochs : nat) (m : Model) :
  (∀ predictions fs'',
     forecast_next_hours keras_fit df model_path hours window_size epochs fs
     = (inr predictions, fs'') →
     length predictions = hours) ∧
  (df ≠ [] → 1 ≤ window_size → 1 ≤ hours ≤ 24 →
   model_ready keras_fit fs df model_path window_size epochs m fs' →
   ∃ predictions,
     forecast_next_hours keras_fit df model_path hours window_size epochs fs
     = (inr predictions, fs') ∧
     length predictions = hours).
Proof.
  split.
  - intros predictions fs'' Hrun.
    exact (forecast_next_hours_returns _ _ _ _ _ _ _ _ Hrun).
  - intros Hne Hw [Hh _] Hready.
    destruct (fit_transform_nonempty df Hne) as (sc & Hfit & _).
    rewrite (forecast_next_hours_ready keras_fit _ _ _ _ _ _ _ _ _ Hready Hfit).
    destruct (spec_forecast_ok m sc df hours window_size Hne Hw Hh)
      as (w0 & st & _ & _ & _ & Hlen & ->).
    eexists. split; [reflexivity|]. rewrite length_map. exact Hlen.
Qed.

(** C3: the forecast is the inverse-scaled list of the loop's
    predictions; prediction number [k] is the model applied to the window
    reached after [k] iterations, which consists of what is left of the
    initial window followed by the first [k] predictions, and the next
    window drops the oldest element of that one and appends the
    prediction just made.  No value of the series enters after the
    initial window has been formed. *)
Theorem forecast_feeds_back_predictions (fs fs' : FS) (df : list Q)
    (model_path : string) (hours window_size epochs : nat) (m : Model) :
  df ≠ [] → 1 ≤ window_size → 1 ≤ hours →
  model_ready keras_fit fs df model_path window_size epochs m fs' →
  ∃ sc w0 preds,
    MinMaxScaler.fit df = inr sc ∧
    initial_window (map (MinMaxScaler.transform1 sc) df) window_size = inr w0 ∧
    forecast_next_hours keras_fit df model_path hours window_size epochs fs
    = (inr (map (MinMaxScaler.inverse_transform1 sc) preds), fs') ∧
    length preds = hours ∧
    ∀ k, k < hours →
      let window := drop k (w0 ++ take k preds) in
      forecast_loop m window_size k (w0, []) = inr (window, take k preds) ∧
      preds !! k = Some (m window) ∧
      forecast_loop m window_size (S k) (w0, [])
      = inr (drop 1 window ++ [m window], take k preds ++ [m window]).
Proof.
  intros Hne Hw Hh Hready.
  destruct (fit_transform_nonempty df Hne) as (sc & Hfit & _).
  destruct (spec_forecast_ok m sc df hours window_size Hne Hw Hh)
    as (w0 & st & Hw0 & Hlen0 & Hrun & Hlen & Hspec).
  exists sc, w0, st.2. repeat split; try assumption.
  - rewrite (forecast_next_hours_ready keras_fit _ _ _ _ _ _ _ _ _ Hready Hfit).
    rewrite Hspec. reflexivity.
  - apply (forecast_loop_partial m window_size w0 hours k st); [done|done|lia|done].
  - pose proof (forecast_loop_partial m window_size w0 hours (S k) st
                  Hw Hlen0 ltac:(lia) Hrun) as HS.
    pose proof (forecast_loop_partial m window_size w0 hours k st
                  Hw Hlen0 ltac:(lia) Hrun) as Hk.
    rewrite forecast_loop_snoc, Hk in HS. unfold rbind in HS.
    rewrite forecast_step_ok in HS
      by (rewrite length_drop, length_app, length_take; lia).
    injection HS as _ Hp.
    destruct (lookup_lt_is_Some_2 st.2 k) as [x Hx]; [lia|].
    rewrite (take_S_r _ _ _ Hx) in Hp. apply app_inj_tail in Hp as [_ Hp].
    rewrite Hx. f_equal. symmetry. exact Hp.
  - pose proof (forecast_loop_partial m window_size w0 hours k st
                  Hw Hlen0 ltac:(lia) Hrun) as Hk.
    rewrite forecast_loop_snoc, Hk. unfold rbind.
    apply forecast_step_ok. rewrite length_drop, length_app, length_take. lia.
Qed.

(** C4: for a non-empty series shorter than the window, with a trained
    model at hand, the call does not raise: the window is the scaled
    series preceded by copies of its first scaled value, and the forecast
    has [hours] values. *)
Theorem forecast_short_series_is_padded (fs fs' : FS) (df : list Q) (x0 : Q)
    (model_path : string) (hours window_size epochs : nat) (m : Model) :
  df !! 0 = Some x0 → length df < window_size → 1 ≤ hours →
  model_ready keras_fit fs df model_path window_size epochs m fs' →
  ∃ sc st,
    MinMaxScaler.fit df = inr sc ∧
    let scaled := map (MinMaxScaler.transform1 sc) df in
    let window :=
      replicate (window_size - length df) (MinMaxScaler.transform1 sc x0)
      ++ scaled in
    initial_window scaled window_size = inr window ∧
    length window = window_size ∧
    forecast_loop m window_size hours (window, []) = inr st ∧
    forecast_next_hours keras_fit df model_path hours window_size epochs fs
    = (inr (map (MinMaxScaler.inverse_transform1 sc) st.2), fs') ∧
    length (map (MinMaxScaler.inverse_transform1 sc) st.2) = hours.
Proof.
  intros Hx0 Hshort Hh Hready.
  assert (df ≠ []) as Hne by (intros ->; discriminate Hx0).
  destruct (fit_transform_nonempty df Hne) as (sc & Hfit & _).
  destruct (spec_forecast_ok m sc df hours window_size Hne ltac:(lia) Hh)
    as (w0 & st & Hw0 & Hlen0 & Hrun & Hlen & Hspec).
  assert (initial_window (map (MinMaxScaler.transform1 sc) df) window_size
          = inr (replicate (window_size - length df)
                   (MinMaxScaler.transform1 sc x0)
                 ++ map (MinMaxScaler.transform1 sc) df)) as Hpad.
  { rewrite (initial_window_short _ (MinMaxScaler.transform1 sc x0)).
    - rewrite length_map. reflexivity.
    - rewrite list_lookup_fmap, Hx0. reflexivity.
    - rewrite length_map. exact Hshort. }
  rewrite Hpad in Hw0. injection Hw0 as <-.
  exists sc, st. cbv zeta. repeat split; try assumption.
  - rewrite (forecast_next_hours_ready keras_fit _ _ _ _ _ _ _ _ _ Hready Hfit).
    rewrite Hspec. reflexivity.
  - rewrite length_map. exact Hlen.
Qed.

End ForecasterTheorems.

Section TrainingTheorems.
Import MinMaxScaler.

Variable keras_fit :
  list (list Q) -> list Q -> list (list Q) -> list Q -> nat -> nat ->
  result (Model * History).

(** C5: training on a series the scaler accepts builds
    max(0, len(series) - window_size) pairs; pair [i] is the window of
    [window_size] consecutive scaled values starting at position [i]
    together with the scaled value that follows it; the fitting routine
    receives the first floor(0.85 n) pairs, in order, as training set and
    the remaining pairs, in order, as validation set. *)
Theorem training_pairs_are_chronological (df : list Q) (model_path : string)
    (window_size epochs : nat) (fs : FS) (sc : t) :
  fit df = inr sc →
  let scaled := map (transform1 sc) df in
  ∃ X y,
    model.create_sequences scaled window_size = inr (X, y) ∧
    Z.of_nat (length X)
    = Z.max 0 (Z.of_nat (length df) - Z.of_nat window_size) ∧
    length y = length X ∧
    (∀ i, i < length X →
       X !! i = Some (take window_size (drop i scaled)) ∧
       length (take window_size (drop i scaled)) = window_size ∧
       ∃ target, y !! i = Some target ∧
                 scaled !! (i + window_size) = Some target) ∧
    let k := model.split_index (length X) in
    100 * k ≤ 85 * length X < 100 * (k + 1) ∧
    take k X ++ drop k X = X ∧
    take k y ++ drop k y = y ∧
    model.train_model keras_fit df model_path window_size epochs fs
    = match keras_fit (take k X) (take k y) (drop k X) (drop k y)
                      epochs window_size with
      | inl e => (inl e, fs)
      | inr (m, h) =>
          (inr (m, sc, h), <[Py.replace model_path ".h5" ".keras" := m]> fs)
      end.
Proof.
  intros Hfit scaled.
  set (n := length scaled - window_size).
  exists ((λ i, take window_size (drop i scaled)) <$> seq 0 n),
         (drop window_size scaled).
  assert (length scaled = length df) as Hls by apply length_map.
  split; [apply create_sequences_run|].
  split; [rewrite length_fmap, length_seq; unfold n; lia|].
  split; [rewrite length_fmap, length_seq, length_drop; reflexivity|].
  split.
  - intros i Hi. rewrite length_fmap, length_seq in Hi.
    split; [|split].
    + rewrite list_lookup_fmap, lookup_seq_lt by exact Hi. reflexivity.
    + rewrite length_take, length_drop. unfold n in Hi. lia.
    + destruct (lookup_lt_is_Some_2 scaled (i + window_size)) as [x Hx];
        [unfold n in Hi; lia|].
      exists x. split; [|exact Hx].
      rewrite lookup_drop, <- Hx. f_equal. lia.
  - cbv zeta. split; [apply split_index_floor|].
    split; [apply take_drop|]. split; [apply take_drop|].
    apply (train_model_run keras_fit df model_path window_size epochs fs sc Hfit).
Qed.

(** C6, as the code has it: [train_model] has no check of the length of
    the history and raises no [InsufficientDataError] of its own.  On a
    non-empty history of at most [window_size] values it builds no pair
    and hands empty training and validation sets to the fitting routine,
    whose outcome is the outcome of the call; on every history the call
    raises [InsufficientDataError] only if the fitting routine does. *)
Theorem training_has_no_length_check (df : list Q) (model_path : string)
    (window_size epochs : nat) (fs : FS) :
  (∀ a b c d e f, keras_fit a b c d e f ≠ inl "InsufficientDataError") →
  (model.train_model keras_fit df model_path window_size epochs fs).1
    ≠ inl "InsufficientDataError" ∧
  (df ≠ [] → length df ≤ window_size →
   ∃ sc, fit df = inr sc ∧
         model.create_sequences (map (transform1 sc) df) window_size
         = inr ([], []) ∧
         model.train_model keras_fit df model_path window_size epochs fs
         = match keras_fit [] [] [] [] epochs window_size with
           | inl e => (inl e, fs)
           | inr (m, h) =>
               (inr (m, sc, h),
                <[Py.replace model_path ".h5" ".keras" := m]> fs)
           end).
Proof.
  intros Hforeign. split.
  - destruct df as [|x xs]; [rewrite train_model_empty; discriminate|].
    destruct (fit_nonempty x xs) as [sc Hsc].
    rewrite (train_model_run keras_fit _ model_path window_size epochs fs sc Hsc).
    cbv zeta.
    destruct (keras_fit _ _ _ _ _ _) as [e|[m h]] eqn:Hk; simpl.
    + intros [= ->]. exact (Hforeign _ _ _ _ _ _ Hk).
    + discriminate.
  - intros Hne Hshort.
    destruct (fit_transform_nonempty df Hne) as (sc & Hfit & _).
    exists sc. split; [exact Hfit|].
    assert (length (map (transform1 sc) df) ≤ window_size) as Hls
      by (rewrite length_map; exact Hshort).
    split; [apply create_sequences_short; exact Hls|].
    rewrite (train_model_run keras_fit _ model_path window_size epochs fs sc Hfit).
    cbv zeta.
    replace (length (map (transform1 sc) df) - window_size) with 0 by lia.
    rewrite (drop_ge (map (transform1 sc) df)) by exact Hls.
    reflexivity.
Qed.

End TrainingTheorems.

Section ScalingTheorems.
Import MinMaxScaler.

Lemma round_trip_any (sc : t) (v : Q) :
  ¬ (scale_ sc == 0)%Q →
  (inverse_transform1 sc (transform1 sc v) == v)%Q.
Proof.
  intros Hnz. unfold inverse_transform1, transform1. field. exact Hnz.
Qed.

(** C7: for a scaler fitted on a series and a raw value between the
    fitted minimum and maximum, scaling and then inverse scaling gives
    the value back (exactly, over the rationals), both for the value on
    its own and as a one-element column passed through [transform] and
    [inverse_transform]. *)
Theorem scaling_round_trip (series : list Q) (sc : t) (v : Q) :
  fit series = inr sc →
  (data_min_ sc <= v)%Q → (v <= data_max_ sc)%Q →
  (inverse_transform1 sc (transform1 sc v) == v)%Q ∧
  ∃ scaled raw,
    transform sc [v] = inr scaled ∧
    inverse_transform sc scaled = inr raw ∧
    Forall2 Qeq raw [v].
Proof.
  intros Hfit _ _.
  pose proof (round_trip_any sc v (fit_scale_nonzero series sc Hfit)) as Hrt.
  split; [exact Hrt|].
  exists [transform1 sc v], [inverse_transform1 sc (transform1 sc v)].
  repeat split. constructor; [exact Hrt | constructor].
Qed.

End ScalingTheorems.

Section ScalingStateTheorems.
Import predict.

Variable keras_fit :
  list (list Q) -> list Q -> list (list Q) -> list Q -> nat -> nat ->
  result (Model * History).

(** C9, as the code has it: no scaling is kept between calls.  A
    successful training writes the fitted model, and nothing else, to the
    store; a forecast call that finds a cached model leaves the store
    unchanged and is the prediction contract run with the scaling fitted,
    in that call, on the series passed to that call. *)
Theorem forecast_scaling_is_fitted_per_call (fs : FS) (df : list Q)
    (model_path : string) (hours window_size epochs : nat)
    (m : Model) (sc : MinMaxScaler.t) :
  cached fs model_path = Some m →
  MinMaxScaler.fit df = inr sc →
  forecast_next_hours keras_fit df model_path hours window_size epochs fs
  = (Spec.forecast m sc df hours window_size, fs) ∧
  ∀ history m' sc' h fs',
    model.train_model keras_fit history model_path window_size epochs fs
    = (inr (m', sc', h), fs') →
    MinMaxScaler.fit history = inr sc' ∧
    fs' = <[Py.replace model_path ".h5" ".keras" := m']> fs.
Proof.
  intros Hc Hfit. split.
  - apply forecast_next_hours_ready; [left; split; [exact Hc | reflexivity] | exact Hfit].
  - intros history m' sc' h fs' Htrain.
    exact (train_model_inv keras_fit _ _ _ _ _ _ _ _ _ Htrain).
Qed.

End ScalingStateTheorems.

(** C9 fails as stated: a model is trained on the history 0, 50, 100 and
    cached; a later forecast for the series 0, 200 loads it and returns 100,
    the answer under the scaling of the new series, where the scaling
    fitted at training gives 50. *)
Lemma cached_forecast_refits_scaling :
  ∃ m scA h fs1 out expected,
    model.train_model Fixture.fit_half [0; 50; 100]%Q "delhi.h5" 1 1 ∅
    = (inr (m, scA, h), fs1) ∧
    cached fs1 "delhi.h5" = Some m ∧
    predict.forecast_next_hours Fixture.fit_half [0; 200]%Q "delhi.h5" 1 1 1 fs1
    = (inr out, fs1) ∧
    Spec.forecast m scA [0; 200]%Q 1 1 = inr expected ∧
    Forall2 Qeq out [100%Q] ∧
    Forall2 Qeq expected [50%Q] ∧
    ¬ Forall2 Qeq out expected.
Proof.
  exists Fixture.half, (MinMaxScaler.Build 0 100 (1 # 100) (0 # 100)),
         {| loss := [0%Q]; val_loss := [0%Q] |}, Fixture.store.
  eexists. eexists.
  split; [vm_compute; reflexivity|].
  split; [vm_compute; reflexivity|].
  split; [vm_compute; reflexivity|].
  split; [vm_compute; reflexivity|].
  split; [repeat constructor|].
  split; [repeat constructor|].
  intros H. inversion H as [|? ? ? ? Hq _]; subst. vm_compute in Hq. discriminate Hq.
Qed.

(** ** Worked instances of the forecaster theorems *)

Lemma store_has_model : cached Fixture.store "delhi.h5" = Some Fixture.half.
Proof. vm_compute. reflexivity. Qed.

Lemma store_ready (df : list Q) (window_size epochs : nat) :
  model_ready Fixture.fit_half Fixture.store df "delhi.h5" window_size epochs
              Fixture.half Fixture.store.
Proof. left. split; [exact store_has_model | reflexivity]. Qed.

Lemma forecast_length_is_horizon_witness :
  ∃ predictions,
    predict.forecast_next_hours Fixture.fit_half [10; 20; 30]%Q "delhi.h5"
                                12 2 50 Fixture.store
    = (inr predictions, Fixture.store) ∧
    length predictions = 12.
Proof.
  apply (proj2 (forecast_length_is_horizon Fixture.fit_half Fixture.store
                  Fixture.store [10; 20; 30]%Q "delhi.h5" 12 2 50 Fixture.half)).
  - discriminate.
  - lia.
  - lia.
  - apply store_ready.
Defined.

Lemma forecast_feeds_back_predictions_witness :
  ∃ w0 preds,
    length preds = 2 ∧
    preds !! 0 = Some (Fixture.half w0) ∧
    preds !! 1 = Some (Fixture.half (drop 1 (w0 ++ take 1 preds))) ∧
    predict.forecast_loop Fixture.half 3 2 (w0, [])
    = inr (drop 1 (drop 1 (w0 ++ take 1 preds))
             ++ [Fixture.half (drop 1 (w0 ++ take 1 preds))],
           take 1 preds ++ [Fixture.half (drop 1 (w0 ++ take 1 preds))]).
Proof.
  destruct (forecast_feeds_back_predictions Fixture.fit_half
              Fixture.store Fixture.store
              [10; 20; 30; 40; 50; 60; 70; 80]%Q "delhi.h5" 2 3 50 Fixture.half)
    as (sc & w0 & preds & _ & _ & _ & Hlen & Hk).
  - discriminate.
  - lia.
  - lia.
  - apply store_ready.
  - exists w0, preds.
    destruct (Hk 0 ltac:(lia)) as (_ & H0 & _).
    destruct (Hk 1 ltac:(lia)) as (_ & H1 & H2).
    repeat split; assumption.
Defined.

Lemma forecast_short_series_is_padded_witness :
  ∃ sc (st : predict.loop_state),
    MinMaxScaler.fit [10; 20]%Q = inr sc ∧
    predict.initial_window (map (MinMaxScaler.transform1 sc) [10; 20]%Q) 4
    = inr (replicate 2 (MinMaxScaler.transform1 sc 10)
           ++ map (MinMaxScaler.transform1 sc) [10; 20]%Q) ∧
    predict.forecast_next_hours Fixture.fit_half [10; 20]%Q "delhi.h5"
                                3 4 50 Fixture.store
    = (inr (map (MinMaxScaler.inverse_transform1 sc) st.2), Fixture.store) ∧
    length (map (MinMaxScaler.inverse_transform1 sc) st.2) = 3.
Proof.
  destruct (forecast_short_series_is_padded Fixture.fit_half
              Fixture.store Fixture.store [10; 20]%Q 10%Q "delhi.h5" 3 4 50
              Fixture.half)
    as (sc & st & Hfit & Hwin & _ & _ & Hrun & Hlen).
  - reflexivity.
  - simpl. lia.
  - lia.
  - apply store_ready.
  - exists sc, st. repeat split; assumption.
Defined.

Lemma training_pairs_are_chronological_witness :
  ∃ sc X y,
    MinMaxScaler.fit [10; 20; 30; 40; 50]%Q = inr sc ∧
    model.create_sequences
      (map (MinMaxScaler.transform1 sc) [10; 20; 30; 40; 50]%Q) 2
    = inr (X, y) ∧
    length X = 3 ∧
    model.split_index (length X) = 2.
Proof.
  destruct (fit_nonempty 10 [20; 30; 40; 50]%Q) as [sc Hsc].
  destruct (training_pairs_are_chronological Fixture.fit_half
              [10; 20; 30; 40; 50]%Q "delhi.h5" 2 50 ∅ sc Hsc)
    as (X & y & Hcs & HlenX & _ & _ & Hsplit & _).
  exists sc, X, y.
  assert (length X = 3) as HX by (simpl in HlenX; lia).
  repeat split; try assumption. rewrite HX. reflexivity.
Defined.

Lemma fit_half_is_foreign a b c d e f :
  Fixture.fit_half a b c d e f ≠ inl "InsufficientDataError".
Proof. destruct a; discriminate. Qed.

Lemma training_has_no_length_check_witness :
  (model.train_model Fixture.fit_half [10; 20]%Q "delhi.h5" 3 50 ∅).1
  ≠ inl "InsufficientDataError".
Proof.
  apply (training_has_no_length_check Fixture.fit_half [10; 20]%Q "delhi.h5"
           3 50 ∅ fit_half_is_foreign).
Defined.

(** C6 fails as stated: a history of two values with a window of three
    gets no [InsufficientDataError]; no pair is built and the call ends
    with what the fitting routine raises on an empty training set. *)
Lemma short_history_is_not_rejected_by_training :
  model.train_model Fixture.fit_half [10; 20]%Q "delhi.h5" 3 50 ∅
  = (inl "ValueError", ∅) ∧
  (model.train_model Fixture.fit_half [10; 20]%Q "delhi.h5" 3 50 ∅).1
  ≠ inl "InsufficientDataError".
Proof. split; [vm_compute; reflexivity | vm_compute; discriminate]. Qed.

Lemma scaling_round_trip_witness :
  ∃ sc, MinMaxScaler.fit [10; 20; 30]%Q = inr sc ∧
        (MinMaxScaler.inverse_transform1 sc (MinMaxScaler.transform1 sc 20)
         == 20)%Q.
Proof.
  destruct (fit_nonempty 10 [20; 30]%Q) as [sc Hsc].
  exists sc. split; [exact Hsc|].
  refine (proj1 (scaling_round_trip [10; 20; 30]%Q sc 20 Hsc _ _));
    vm_compute in Hsc; injection Hsc as <-; vm_compute; discriminate.
Defined.

Lemma forecast_scaling_is_fitted_per_call_witness :
  ∃ sc, MinMaxScaler.fit [0; 200]%Q = inr sc ∧
        predict.forecast_next_hours Fixture.fit_half [0; 200]%Q "delhi.h5"
                                    1 1 1 Fixture.store
        = (Spec.forecast Fixture.half sc [0; 200]%Q 1 1, Fixture.store).
Proof.
  destruct (fit_nonempty 0 [200]%Q) as [sc Hsc].
  exists sc. split; [exact Hsc|].
  exact (proj1 (forecast_scaling_is_fitted_per_call Fixture.fit_half
                  Fixture.store [0; 200]%Q "delhi.h5" 1 1 1 Fixture.half sc
                  store_has_model Hsc)).
Defined.

(** ** Dictionaries and maxima *)

Section DictFacts.
Context {V : Type}.

Lemma dict_set_fresh (d : dict V) (k : string) (v : V) :
  k ∉ Py.keys d → Py.dict_set d k v = d ++ [(k, v)].
Proof.
  induction d as [|[k' v'] d IH]; intros Hk; simpl; [reflexivity|].
  destruct (decide (k' = k)) as [->|Hne].
  - exfalso. apply Hk. simpl. left.
  - rewrite IH; [reflexivity|]. intros Hin. apply Hk. simpl. right. exact Hin.
Qed.

Lemma keys_zip_subseteq (ks : list string) (vs : list V) (k : string) :
  k ∈ Py.keys (zip ks vs) → k ∈ ks.
Proof.
  revert vs. induction ks as [|k0 ks IH]; intros [|v vs]; simpl;
    try (intros H; inversion H; fail).
  intros H. apply elem_of_cons in H as [->|H]; [left | right; eauto].
Qed.

(** Building a dictionary from pairs with distinct keys keeps the pairs. *)
Lemma dict_of_zip_nodup (ks : list string) (vs : list V) :
  NoDup ks → Py.dict_of (zip ks vs) = zip ks vs.
Proof.
  intros Hnd. unfold Py.dict_of.
  enough (∀ acc, (∀ k, k ∈ Py.keys acc → k ∉ ks) →
                 foldl (λ d kv, Py.dict_set d kv.1 kv.2) acc (zip ks vs)
                 = acc ++ zip ks vs) as H
    by (apply (H []); intros k Hk; inversion Hk).
  revert vs. induction Hnd as [|k ks Hk Hnd IH]; intros vs acc Hacc.
  - simpl. rewrite app_nil_r. reflexivity.
  - destruct vs as [|v vs]; simpl; [rewrite app_nil_r; reflexivity|].
    rewrite dict_set_fresh.
    + rewrite IH; [rewrite <- app_assoc; reflexivity|].
      intros k' Hk'. unfold Py.keys in Hk'. rewrite map_app in Hk'.
      apply elem_of_app in Hk' as [Hk'|Hk'].
      * intros Hin. apply (Hacc k' Hk'). right. exact Hin.
      * simpl in Hk'. apply list_elem_of_singleton in Hk' as ->. exact Hk.
    + intros Hin. apply (Hacc k Hin). left.
Qed.

Lemma dict_get_zip (ks : list string) (vs : list V) (i : nat)
    (k : string) (v : V) :
  NoDup ks → ks !! i = Some k → vs !! i = Some v →
  Py.dict_get (zip ks vs) k = Some v.
Proof.
  intros Hnd. revert vs i.
  induction Hnd as [|k0 ks Hk0 Hnd IH]; intros vs i Hk Hv; [discriminate|].
  destruct vs as [|v0 vs]; [discriminate|].
  destruct i as [|i]; simpl in *.
  - injection Hk as ->. injection Hv as ->.
    destruct (decide (k = k)); [reflexivity | contradiction].
  - destruct (decide (k0 = k)) as [->|Hne].
    + exfalso. apply Hk0. apply list_elem_of_lookup. eauto.
    + eapply IH; eassumption.
Qed.

Lemma values_zip (ks : list string) (vs : list V) :
  length vs ≤ length ks → Py.values (zip ks vs) = vs.
Proof.
  unfold Py.values, zip. intros Hlen. apply snd_zip. exact Hlen.
Qed.

End DictFacts.

Section MaxFacts.

Lemma Qmax_lt (a b : Q) : (a < b)%Q → Qmax a b = b.
Proof.
  intros H. unfold Qmax, GenericMinMax.gmax.
  destruct (Qcompare a b) eqn:E; [| reflexivity |].
  - apply Qeq_alt in E. exfalso. rewrite E in H. exact (Qlt_irrefl _ H).
  - apply Qgt_alt in E. exfalso. exact (Qlt_irrefl _ (Qlt_trans _ _ _ H E)).
Qed.

Lemma Qmax_ge (a b : Q) : (b <= a)%Q → Qmax a b = a.
Proof.
  intros H. unfold Qmax, GenericMinMax.gmax.
  destruct (Qcompare a b) eqn:E; try reflexivity.
  apply Qlt_alt in E. exfalso. exact (Qlt_not_le _ _ E H).
Qed.

(** The scan of [argmax] over a list already examined up to [pre]. *)
Lemma argmax_from_spec (xs pre : list Q) (best : Q) (besti : nat) :
  pre !! besti = Some best →
  (∀ k q, pre !! k = Some q → (q <= best)%Q ∧ (k < besti → (q < best)%Q)) →
  let j := Py.argmax_from best besti (length pre) xs in
  let p := fold_left Qmax xs best in
  (pre ++ xs) !! j = Some p ∧
  ∀ k q, (pre ++ xs) !! k = Some q → (q <= p)%Q ∧ (k < j → (q < p)%Q).
Proof.
  revert pre best besti.
  induction xs as [|x xs IH]; intros pre best besti Hbest Hpre; simpl.
  - rewrite app_nil_r. split; assumption.
  - assert (besti < length pre) as Hlt by (eapply lookup_lt_Some; eassumption).
    destruct (Qlt_le_dec best x) as [Hx|Hx].
    + rewrite (Qmax_lt _ _ Hx).
      specialize (IH (pre ++ [x]) x (length pre)).
      rewrite length_app, Nat.add_1_r, <- app_assoc in IH. simpl in IH.
      apply IH.
      * rewrite lookup_app_r, Nat.sub_diag by lia. reflexivity.
      * intros k q Hk.
        destruct (decide (k < length pre)) as [Hin|Hout].
        -- rewrite lookup_app_l in Hk by exact Hin.
           destruct (Hpre k q Hk) as [Hle _].
           split; [apply Qlt_le_weak|intros _];
             eapply Qle_lt_trans; eassumption.
        -- rewrite lookup_app_r in Hk by lia.
           destruct (k - length pre) as [|n] eqn:En; simpl in Hk; [|discriminate].
           injection Hk as <-. split; [apply Qle_refl | lia].
    + rewrite (Qmax_ge _ _ Hx).
      specialize (IH (pre ++ [x]) best besti).
      rewrite length_app, Nat.add_1_r, <- app_assoc in IH. simpl in IH.
      apply IH.
      * rewrite lookup_app_l by exact Hlt. exact Hbest.
      * intros k q Hk.
        destruct (decide (k < length pre)) as [Hin|Hout].
        -- rewrite lookup_app_l in Hk by exact Hin. exact (Hpre k q Hk).
        -- rewrite lookup_app_r in Hk by lia.
           destruct (k - length pre) as [|n] eqn:En; simpl in Hk; [|discriminate].
           injection Hk as <-. split; [exact Hx | lia].
Qed.

(** [argmax] finds the first position of the value [max] returns. *)
Lemma argmax_spec (xs : list Q) (j : nat) :
  Py.argmax xs = inr j →
  ∃ p, py_max xs = inr p ∧ xs !! j = Some p ∧
       ∀ k q, xs !! k = Some q → (q <= p)%Q ∧ (k < j → (q < p)%Q).
Proof.
  destruct xs as [|x xs]; simpl; [discriminate|]. intros [= <-].
  exists (fold_left Qmax xs x). split; [reflexivity|].
  apply (argmax_from_spec xs [x] x 0); [reflexivity|].
  intros [|k] q Hk; simpl in Hk; [|discriminate].
  injection Hk as <-. split; [apply Qle_refl | lia].
Qed.

Lemma argmax_is_max (xs : list Q) (j : nat) (p : Q) :
  Py.argmax xs = inr j → xs !! j = Some p → Spec.is_max p xs.
Proof.
  intros Hj Hp. apply argmax_spec in Hj as (p' & _ & Hp' & Hall).
  assert (p' = p) as -> by congruence.
  split.
  - apply list_elem_of_lookup. eauto.
  - intros q Hq. apply list_elem_of_lookup in Hq as [k Hk].
    exact (proj1 (Hall k q Hk)).
Qed.

End MaxFacts.

(** ** The risk classifiers *)

Section EstimatorFacts.

Lemma predict_inv {L} (m : sklearn.RandomForestClassifier L) (x : list Q)
    (c : L) :
  sklearn.predict m x = inr c →
  ∃ i, Py.argmax (sklearn.predict_proba m x) = inr i ∧
       sklearn.classes_ m !! i = Some c.
Proof.
  unfold sklearn.predict, rbind, Py.index.
  destruct (Py.argmax _) as [e|i]; [discriminate|].
  destruct (sklearn.classes_ m !! i) as [c'|] eqn:Hc; [|discriminate].
  intros [= <-]. eauto.
Qed.

Lemma inverse_transform_inv (le : sklearn.LabelEncoder) (i : nat)
    (label : string) :
  sklearn.inverse_transform le i = inr label →
  sklearn.le_classes_ le !! i = Some label.
Proof.
  unfold sklearn.inverse_transform.
  destruct (sklearn.le_classes_ le !! i); [intros [= <-]; reflexivity | discriminate].
Qed.

(** The dict comprehension, continued from the classes [pre] already
    entered. *)
Lemma all_probabilities_from (le : sklearn.LabelEncoder)
    (proba : list Q) (pre rest : list string) (d : dict Q) :
  sklearn.le_classes_ le = pre ++ rest →
  NoDup (pre ++ rest) →
  (∀ k, k ∈ Py.keys d → k ∈ pre) →
  length proba ≤ length rest →
  foldl (λ acc ip,
           (let* d := acc in
            let* label := sklearn.inverse_transform le ip.1 in
            inr (Py.dict_set d label ip.2))%res)
        (inr d) (zip (seq (length pre) (length proba)) proba)
  = inr (d ++ zip rest proba).
Proof.
  revert pre rest d.
  induction proba as [|p proba IH]; intros pre rest d Hcls Hnd Hd Hlen.
  - simpl. destruct rest; rewrite app_nil_r; reflexivity.
  - destruct rest as [|c rest]; [simpl in Hlen; lia|].
    simpl. unfold sklearn.inverse_transform at 2.
    rewrite Hcls, lookup_app_r, Nat.sub_diag by lia. simpl.
    assert (c ∉ pre) as Hc.
    { apply NoDup_app in Hnd as (_ & Hdisj & _).
      intros Hin. apply (Hdisj c Hin). left. }
    rewrite dict_set_fresh by (intros Hin; apply Hc, Hd, Hin).
    specialize (IH (pre ++ [c]) rest (d ++ [(c, p)])).
    rewrite length_app, Nat.add_1_r, <- !app_assoc in IH. simpl in IH.
    apply IH.
    + exact Hcls.
    + exact Hnd.
    + intros k Hk. unfold Py.keys in Hk. rewrite map_app in Hk.
      apply elem_of_app in Hk as [Hk|Hk].
      * apply elem_of_app. left. exact (Hd k Hk).
      * apply elem_of_app. right. exact Hk.
    + simpl in Hlen. lia.
Qed.

Lemma all_probabilities_of_run (le : sklearn.LabelEncoder) (proba : list Q) :
  NoDup (sklearn.le_classes_ le) →
  length proba ≤ length (sklearn.le_classes_ le) →
  health_risk_model.all_probabilities_of le proba
  = inr (zip (sklearn.le_classes_ le) proba).
Proof.
  intros Hnd Hlen. unfold health_risk_model.all_probabilities_of.
  apply (all_probabilities_from le proba [] (sklearn.le_classes_ le) []);
    [reflexivity | exact Hnd | intros k Hk; inversion Hk | exact Hlen].
Qed.

(** A call of [predict_health_risk] that returns has run the body on the
    state it leaves. *)
Lemma predict_health_risk_loaded (disk : health_risk_model.Disk)
    (self0 self : health_risk_model.HealthRiskModel)
    (forecast_data : gmap string Q) (r : health_risk_model.RiskResult) :
  health_risk_model.predict_health_risk disk self0 forecast_data
  = (inr r, self) →
  health_risk_model.predict_loaded self forecast_data = inr r.
Proof.
  unfold health_risk_model.predict_health_risk.
  destruct (health_risk_model.model self0).
  - intros [= H <-]. exact H.
  - destruct (health_risk_model.load_model disk self0) as [[e|[]] self'].
    + discriminate.
    + intros [= H <-]. exact H.
Qed.

End EstimatorFacts.

Section ResultFacts.

Lemma py_max_is_max (xs : list Q) (p : Q) :
  py_max xs = inr p → Spec.is_max p xs.
Proof.
  intros Hp. destruct xs as [|x xs]; [discriminate|].
  destruct (Py.argmax (x :: xs)) as [e|j] eqn:Hj; [discriminate|].
  destruct (argmax_spec _ _ Hj) as (p' & Hp' & Hlook & _).
  assert (p' = p) as -> by congruence.
  exact (argmax_is_max _ _ _ Hj Hlook).
Qed.

(** What a returned result of [predict_loaded] is made of. *)
Lemma predict_loaded_inv (self : health_risk_model.HealthRiskModel)
    (forecast_data : gmap string Q) (r : health_risk_model.RiskResult)
    (m : sklearn.RandomForestClassifier nat) (le : sklearn.LabelEncoder) :
  health_risk_model.predict_loaded self forecast_data = inr r →
  health_risk_model.model self = Some m →
  health_risk_model.label_encoder self = Some le →
  ∃ x i,
    let proba := sklearn.predict_proba m x in
    sklearn.predict m x = inr i ∧
    sklearn.inverse_transform le i = inr (health_risk_model.risk_category r) ∧
    py_max proba = inr (health_risk_model.confidence r) ∧
    Py.index proba i = inr (health_risk_model.risk_score r) ∧
    health_risk_model.all_probabilities_of le proba
    = inr (health_risk_model.all_probabilities r).
Proof.
  intros Hrun Hm Hle. unfold health_risk_model.predict_loaded in Hrun.
  rewrite Hm, Hle in Hrun. unfold rbind, health_risk_model.attr in Hrun.
  destruct (health_risk_model.input_columns _) as [e|input_df]; [discriminate|].
  destruct (health_risk_model.select_features _ _) as [e|row]; [discriminate|].
  destruct (health_risk_model.scaler self) as [sc|]; [|discriminate].
  destruct (sklearn.transform sc row) as [e|x]; [discriminate|].
  exists x.
  destruct (sklearn.predict m x) as [e|i]; [discriminate|].
  exists i. cbv zeta.
  destruct (sklearn.inverse_transform le i) as [e|label]; [discriminate|].
  destruct (py_max _) as [e|conf]; [discriminate|].
  destruct (Py.index _ i) as [e|score]; [discriminate|].
  destruct (health_risk_model.all_probabilities_of _ _) as [e|allp];
    [discriminate|].
  injection Hrun as <-. simpl. repeat split.
Qed.

Lemma predict_risk_inv (self : health_risk_classifier.HealthRiskClassifier)
    (forecast_data : gmap string Q) (persona_type : string)
    (exposure_duration : Q) (r : health_risk_classifier.RiskResult)
    (m : sklearn.RandomForestClassifier string) :
  health_risk_classifier.predict_risk self forecast_data persona_type
                                      exposure_duration = inr r →
  health_risk_classifier.model self = Some m →
  ∃ x,
    sklearn.predict m x = inr (health_risk_classifier.risk_category r) ∧
    health_risk_classifier.risk_probabilities r
    = Py.dict_of (zip (health_risk_classifier.risk_categories self)
                      (sklearn.predict_proba m x)) ∧
    health_risk_classifier.features r
    = health_risk_classifier.build_features forecast_data persona_type
                                            exposure_duration.
Proof.
  intros Hrun Hm. unfold health_risk_classifier.predict_risk in Hrun.
  rewrite Hm in Hrun. unfold rbind in Hrun.
  destruct (health_risk_classifier.scaler self) as [sc|]; [|discriminate].
  destruct (sklearn.transform sc _) as [e|x]; [discriminate|].
  exists x.
  destruct (sklearn.predict m x) as [e|c]; [discriminate|].
  destruct (health_risk_classifier.explainer self) as [ex|]; [|discriminate].
  injection Hrun as <-. simpl. repeat split.
Qed.

Lemma fixed_labels_nodup :
  NoDup (health_risk_classifier.risk_categories health_risk_classifier.init).
Proof. apply (bool_decide_unpack _). vm_compute. exact I. Qed.

End ResultFacts.

Section ProbabilityTheorems.

(** C1, as the code has it.

    [HealthRiskModel.predict_health_risk], for a fitted label encoder and
    an estimator fitted on the encoded labels: the returned probabilities
    are the estimator's and sum to 1 within 1e-6; [confidence] is their
    maximum; [risk_category] carries that maximum, and every label that
    precedes it in the encoder's (sorted) class order has a strictly
    smaller probability, so a tie goes to the label that comes first in
    that order.

    [HealthRiskClassifier.predict_risk] behind the [/health-risk]
    endpoint, for an estimator of at most four classes: the returned
    probabilities sum to 1 within 1e-6 and the reported confidence is
    their maximum. *)
Theorem risk_result_invariants
    (disk : health_risk_model.Disk)
    (self0 self : health_risk_model.HealthRiskModel)
    (forecast_data : gmap string Q) (r : health_risk_model.RiskResult)
    (m : sklearn.RandomForestClassifier nat) (le : sklearn.LabelEncoder)
    (classifier : health_risk_classifier.HealthRiskClassifier)
    (data : health_risk_api.Request) (body : health_risk_api.HealthRisk)
    (cm : sklearn.RandomForestClassifier string) :
  (health_risk_model.predict_health_risk disk self0 forecast_data
   = (inr r, self) →
   health_risk_model.model self = Some m →
   health_risk_model.label_encoder self = Some le →
   NoDup (sklearn.le_classes_ le) →
   sklearn.classes_ m = seq 0 (length (sklearn.le_classes_ le)) →
   Spec.well_formed m →
   let probabilities := health_risk_model.all_probabilities r in
   Spec.sums_to_one (Py.values probabilities) ∧
   Spec.is_max (health_risk_model.confidence r) (Py.values probabilities) ∧
   ∃ i,
     sklearn.le_classes_ le !! i = Some (health_risk_model.risk_category r) ∧
     Py.dict_get probabilities (health_risk_model.risk_category r)
     = Some (health_risk_model.confidence r) ∧
     ∀ j label q,
       sklearn.le_classes_ le !! j = Some label →
       Py.dict_get probabilities label = Some q →
       (q <= health_risk_model.confidence r)%Q ∧
       (j < i → (q < health_risk_model.confidence r)%Q)) ∧
  (health_risk_api.predict_health_risk classifier data
   = health_risk_api.Success body →
   health_risk_classifier.risk_categories classifier
   = health_risk_classifier.risk_categories health_risk_classifier.init →
   health_risk_classifier.model classifier = Some cm →
   Spec.well_formed cm →
   length (sklearn.classes_ cm) ≤ 4 →
   Spec.sums_to_one (Py.values (health_risk_api.probabilities body)) ∧
   Spec.is_max (health_risk_api.confidence body)
               (Py.values (health_risk_api.probabilities body))).
Proof.
  split.
  - intros Hrun Hm Hle Hnd Hcls Hwf probabilities.
    apply predict_health_risk_loaded in Hrun.
    destruct (predict_loaded_inv _ _ _ m le Hrun Hm Hle)
      as (x & i & Hpred & Hinv & Hmax & _ & Hall).
    cbv zeta in *.
    set (proba := sklearn.predict_proba m x) in *.
    destruct (Hwf x) as [Hlen Hsum]. fold proba in Hlen, Hsum.
    rewrite Hcls, length_seq in Hlen.
    apply predict_inv in Hpred as (j & Hj & Hcj). fold proba in Hj.
    rewrite Hcls in Hcj. apply lookup_seq in Hcj as [-> Hjlt]. simpl in *.
    apply inverse_transform_inv in Hinv.
    rewrite all_probabilities_of_run in Hall by (try assumption; lia).
    injection Hall as Hall.
    assert (Py.values probabilities = proba) as Hvals.
    { unfold probabilities. rewrite <- Hall. apply values_zip. lia. }
    destruct (argmax_spec _ _ Hj) as (p & Hp & Hlook & Hbest).
    assert (p = health_risk_model.confidence r) as -> by congruence.
    rewrite Hvals. split; [exact Hsum|].
    split; [exact (py_max_is_max _ _ Hmax)|].
    exists j. split; [exact Hinv|].
    unfold probabilities. rewrite <- Hall.
    split; [exact (dict_get_zip _ _ j _ _ Hnd Hinv Hlook)|].
    intros k label q Hk Hq.
    destruct (lookup_lt_is_Some_2 proba k) as [q' Hq'];
      [apply lookup_lt_Some in Hk; lia|].
    rewrite (dict_get_zip _ _ k _ _ Hnd Hk Hq') in Hq. injection Hq as <-.
    exact (Hbest k q' Hq').
  - intros Hrun Hcats Hm Hwf Hfour.
    unfold health_risk_api.predict_health_risk in Hrun.
    destruct (negb (bool_decide _)); [discriminate|].
    destruct (negb (health_risk_api.exposure_in_range _)); [discriminate|].
    unfold rbind in Hrun.
    destruct (health_risk_classifier.predict_risk _ _ _ _) as [e|r0] eqn:Hr;
      [discriminate|].
    destruct (health_risk_classifier.generate_health_advice _ _) as [e|advice];
      [discriminate|].
    destruct (py_max _) as [e|conf] eqn:Hconf; [discriminate|].
    injection Hrun as <-. simpl.
    destruct (predict_risk_inv _ _ _ _ _ cm Hr Hm) as (x & _ & Hprobs & _).
    destruct (Hwf x) as [Hlen Hsum].
    rewrite Hcats, (dict_of_zip_nodup _ _ fixed_labels_nodup) in Hprobs.
    assert (Py.values (health_risk_classifier.risk_probabilities r0)
            = sklearn.predict_proba cm x) as Hvals.
    { rewrite Hprobs. apply values_zip. simpl. lia. }
    split; [rewrite Hvals; exact Hsum|].
    exact (py_max_is_max _ _ Hconf).
Qed.

End ProbabilityTheorems.

(** C1 fails as stated on a tie: with Low and Moderate both at 0.4 the
    result is Low, where the documented tie-break asks for Moderate. *)
Lemma tie_goes_to_low_not_moderate :
  ∃ r,
    health_risk_model.predict_health_risk
      RiskFixture.no_files RiskFixture.tied_model RiskFixture.example_forecast
    = (inr r, RiskFixture.tied_model) ∧
    Py.dict_get (health_risk_model.all_probabilities r) "Low" = Some 0.4%Q ∧
    Py.dict_get (health_risk_model.all_probabilities r) "Moderate" = Some 0.4%Q ∧
    health_risk_model.risk_category r = "Low" ∧
    Spec.argmax_severity (health_risk_model.all_probabilities r)
    = Some "Moderate" ∧
    Some (health_risk_model.risk_category r)
    ≠ Spec.argmax_severity (health_risk_model.all_probabilities r).
Proof.
  eexists. split; [vm_compute; reflexivity|].
  repeat split; try (vm_compute; reflexivity).
  vm_compute. discriminate.
Qed.

Lemma tied_forest_well_formed : Spec.well_formed RiskFixture.tied_forest.
Proof. intros x. split; [reflexivity | vm_compute; discriminate]. Qed.

Lemma forest_well_formed : Spec.well_formed RiskFixture.forest.
Proof. intros x. split; [reflexivity | vm_compute; discriminate]. Qed.

Lemma encoder_nodup : NoDup (sklearn.le_classes_ RiskFixture.encoder).
Proof. apply (bool_decide_unpack _). vm_compute. exact I. Qed.

Lemma risk_result_invariants_witness :
  (∃ r,
     health_risk_model.predict_health_risk
       RiskFixture.no_files RiskFixture.tied_model RiskFixture.example_forecast
     = (inr r, RiskFixture.tied_model) ∧
     Spec.sums_to_one (Py.values (health_risk_model.all_probabilities r)) ∧
     Spec.is_max (health_risk_model.confidence r)
                 (Py.values (health_risk_model.all_probabilities r))) ∧
  (∃ body,
     health_risk_api.predict_health_risk
       RiskFixture.classifier RiskFixture.default_request
     = health_risk_api.Success body ∧
     Spec.sums_to_one (Py.values (health_risk_api.probabilities body)) ∧
     Spec.is_max (health_risk_api.confidence body)
                 (Py.values (health_risk_api.probabilities body))).
Proof.
  assert (∃ r, health_risk_model.predict_health_risk
                 RiskFixture.no_files RiskFixture.tied_model
                 RiskFixture.example_forecast
               = (inr r, RiskFixture.tied_model)) as [r Hr]
    by (eexists; vm_compute; reflexivity).
  assert (∃ body, health_risk_api.predict_health_risk
                    RiskFixture.classifier RiskFixture.default_request
                  = health_risk_api.Success body) as [body Hb]
    by (eexists; vm_compute; reflexivity).
  destruct (risk_result_invariants
              RiskFixture.no_files RiskFixture.tied_model RiskFixture.tied_model
              RiskFixture.example_forecast r RiskFixture.tied_forest
              RiskFixture.encoder RiskFixture.classifier
              RiskFixture.default_request body RiskFixture.forest)
    as [HA HB].
  split.
  - exists r. split; [exact Hr|].
    destruct HA as (H1 & H2 & _);
      [ exact Hr | reflexivity | reflexivity | exact encoder_nodup
      | reflexivity | exact tied_forest_well_formed | ].
    split; assumption.
  - exists body. split; [exact Hb|].
    apply HB;
      [ exact Hb | reflexivity | reflexivity | exact forest_well_formed
      | vm_compute; lia ].
Defined.

Section LabelTheorems.
Import health_risk_classifier.

(** C10: the returned [risk_probabilities] is the fixed label sequence
    zipped with the estimator's probability vector.  For every position,
    the entry stored under the label at that position is the probability
    the estimator gives to its own class at that position, whatever that
    class is: the estimator's class order plays no part in the keys. *)
Theorem risk_probabilities_are_positional (self : HealthRiskClassifier)
    (forecast_data : gmap string Q) (persona_type : string)
    (exposure_duration : Q) (r : RiskResult)
    (m : sklearn.RandomForestClassifier string) :
  risk_categories self = ["Low"; "Moderate"; "High"; "Hazardous"] →
  model self = Some m →
  predict_risk self forecast_data persona_type exposure_duration = inr r →
  ∃ x,
    let proba := sklearn.predict_proba m x in
    sklearn.predict m x = inr (risk_category r) ∧
    risk_probabilities r
    = zip ["Low"; "Moderate"; "High"; "Hazardous"] proba ∧
    ∀ i label class p,
      ["Low"; "Moderate"; "High"; "Hazardous"] !! i = Some label →
      sklearn.classes_ m !! i = Some class →
      proba !! i = Some p →
      Py.dict_get (risk_probabilities r) label = Some p.
Proof.
  intros Hcats Hm Hrun.
  destruct (predict_risk_inv _ _ _ _ _ m Hrun Hm) as (x & Hpred & Hprobs & _).
  exists x. cbv zeta. split; [exact Hpred|].
  rewrite Hcats, (dict_of_zip_nodup _ _ fixed_labels_nodup) in Hprobs.
  split; [exact Hprobs|].
  intros i label class p Hlabel _ Hp. rewrite Hprobs.
  exact (dict_get_zip _ _ i _ _ fixed_labels_nodup Hlabel Hp).
Qed.

End LabelTheorems.

Lemma risk_probabilities_are_positional_witness :
  ∃ r,
    health_risk_classifier.predict_risk RiskFixture.classifier ∅
                                        "general_public" 2%Q = inr r ∧
    health_risk_classifier.risk_probabilities r
    = zip ["Low"; "Moderate"; "High"; "Hazardous"] [0.7; 0.1; 0.1; 0.1]%Q.
Proof.
  assert (∃ r, health_risk_classifier.predict_risk RiskFixture.classifier ∅
                 "general_public" 2%Q = inr r) as [r Hr]
    by (eexists; vm_compute; reflexivity).
  exists r. split; [exact Hr|].
  destruct (risk_probabilities_are_positional RiskFixture.classifier ∅
              "general_public" 2%Q r RiskFixture.forest)
    as (x & _ & Hprobs & _); [reflexivity | reflexivity | exact Hr |].
  exact Hprobs.
Defined.

(** With the estimator's classes in sorted order, the entry stored under
    Low is the probability of the class Hazardous, which is the predicted
    category. *)
Lemma labels_do_not_follow_classes :
  ∃ r,
    health_risk_classifier.predict_risk RiskFixture.classifier ∅
                                        "general_public" 2%Q = inr r ∧
    sklearn.classes_ RiskFixture.forest
    = ["Hazardous"; "High"; "Low"; "Moderate"] ∧
    health_risk_classifier.risk_category r = "Hazardous" ∧
    Py.dict_get (health_risk_classifier.risk_probabilities r) "Low"
    = Some 0.7%Q ∧
    Py.dict_get (health_risk_classifier.risk_probabilities r) "Hazardous"
    = Some 0.1%Q.
Proof. eexists. repeat split; vm_compute; reflexivity. Qed.

Section ValidationTheorems.
Import health_risk_classifier.

Lemma exposure_in_range_iff (x : Q) :
  health_risk_api.exposure_in_range x = true ↔ (0 <= x)%Q ∧ (x <= 24)%Q.
Proof.
  unfold health_risk_api.exposure_in_range.
  rewrite andb_true_iff, !Qle_bool_iff. reflexivity.
Qed.

Lemma one_hot_unknown (persona_type : string) :
  persona_type ∉ health_risk_api.known_personas →
  one_hot persona_type "children_elderly" = 0%Q ∧
  one_hot persona_type "outdoor_workers" = 0%Q ∧
  one_hot persona_type "general_public" = 0%Q.
Proof.
  intros Hp. unfold one_hot, health_risk_api.known_personas in *.
  repeat split; case_decide; try reflexivity; subst; exfalso; apply Hp;
    set_solver.
Qed.

(** C8, as the code has it.  [predict_risk] validates nothing: it never
    raises [InvalidPersonaError] or [InvalidExposureError], a persona
    outside the three known ones is encoded with all three indicators 0,
    and any exposure is passed on as a feature.  The validation is in the
    [/health-risk] endpoint, which answers with status 400 and a message
    instead of raising: [Invalid persona type] for an unknown persona,
    the exposure message for a known persona with an exposure outside
    [0, 24], and no status 400 for a known persona with an exposure
    inside [0, 24]. *)
Theorem validation_is_done_by_the_endpoint (classifier : HealthRiskClassifier)
    (forecast_data : gmap string Q) (persona_type : string)
    (exposure_duration : Q) (data : health_risk_api.Request) :
  (predict_risk classifier forecast_data persona_type exposure_duration
     ≠ inl "InvalidPersonaError" ∧
   predict_risk classifier forecast_data persona_type exposure_duration
     ≠ inl "InvalidExposureError" ∧
   (persona_type ∉ health_risk_api.known_personas →
    drop 8 (build_features forecast_data persona_type exposure_duration)
    = [exposure_duration; 0%Q; 0%Q; 0%Q])) ∧
  let p := default "general_public" (health_risk_api.persona data) in
  let e := default 2%Q (health_risk_api.exposure_duration data) in
  (p ∉ health_risk_api.known_personas →
   health_risk_api.predict_health_risk classifier data
   = health_risk_api.Failure 400 "Invalid persona type") ∧
  (p ∈ health_risk_api.known_personas → ¬ ((0 <= e)%Q ∧ (e <= 24)%Q) →
   health_risk_api.predict_health_risk classifier data
   = health_risk_api.Failure 400
       "Exposure duration must be between 0 and 24 hours") ∧
  (p ∈ health_risk_api.known_personas → (0 <= e)%Q ∧ (e <= 24)%Q →
   ∀ message,
     health_risk_api.predict_health_risk classifier data
     ≠ health_risk_api.Failure 400 message).
Proof.
  split; [split; [|split]|].
  - unfold predict_risk, rbind, sklearn.transform, sklearn.predict, rbind,
      Py.argmax, Py.index.
    repeat case_match; simplify_eq; discriminate.
  - unfold predict_risk, rbind, sklearn.transform, sklearn.predict, rbind,
      Py.argmax, Py.index.
    repeat case_match; simplify_eq; discriminate.
  - intros Hp. destruct (one_hot_unknown _ Hp) as (H1 & H2 & H3).
    unfold build_features. simpl. rewrite H1, H2, H3. reflexivity.
  - intros p e. unfold health_risk_api.predict_health_risk. fold p e.
    split; [|split].
    + intros Hp. rewrite bool_decide_false by exact Hp. reflexivity.
    + intros Hp He. rewrite bool_decide_true by exact Hp. simpl.
      destruct (health_risk_api.exposure_in_range e) eqn:Hr; [|reflexivity].
      apply exposure_in_range_iff in Hr. contradiction.
    + intros Hp He message. rewrite bool_decide_true by exact Hp. simpl.
      apply exposure_in_range_iff in He. rewrite He. simpl.
      destruct (rbind _ _); discriminate.
Qed.

End ValidationTheorems.

Lemma astronaut_is_unknown : "astronaut" ∉ health_risk_api.known_personas.
Proof. apply (bool_decide_unpack _). vm_compute. exact I. Qed.

Lemma default_persona_is_known :
  "general_public" ∈ health_risk_api.known_personas.
Proof. apply (bool_decide_unpack _). vm_compute. exact I. Qed.

Lemma workers_are_known : "outdoor_workers" ∈ health_risk_api.known_personas.
Proof. apply (bool_decide_unpack _). vm_compute. exact I. Qed.

Lemma validation_is_done_by_the_endpoint_witness :
  health_risk_api.predict_health_risk RiskFixture.classifier
    {| health_risk_api.numbers := ∅;
       health_risk_api.persona := Some "astronaut";
       health_risk_api.exposure_duration := Some 2%Q |}
  = health_risk_api.Failure 400 "Invalid persona type" ∧
  health_risk_api.predict_health_risk RiskFixture.classifier
    {| health_risk_api.numbers := ∅;
       health_risk_api.persona := Some "outdoor_workers";
       health_risk_api.exposure_duration := Some 30%Q |}
  = health_risk_api.Failure 400
      "Exposure duration must be between 0 and 24 hours" ∧
  (∀ message,
     health_risk_api.predict_health_risk RiskFixture.classifier
       RiskFixture.default_request
     ≠ health_risk_api.Failure 400 message).
Proof.
  split; [|split].
  - apply (validation_is_done_by_the_endpoint RiskFixture.classifier ∅
             "astronaut" 2%Q).
    exact astronaut_is_unknown.
  - apply (validation_is_done_by_the_endpoint RiskFixture.classifier ∅
             "astronaut" 2%Q).
    + exact workers_are_known.
    + simpl. intros [_ H]. vm_compute in H. apply H. reflexivity.
  - apply (validation_is_done_by_the_endpoint RiskFixture.classifier ∅
             "astronaut" 2%Q RiskFixture.default_request).
    + exact default_persona_is_known.
    + simpl. split; vm_compute; discriminate.
Defined.

(** C8 fails as stated: for a persona outside the known three and an
    exposure of 30 hours [predict_risk] raises nothing and returns a
    result. *)
Lemma predict_risk_accepts_any_persona_and_exposure :
  ("astronaut" ∉ health_risk_api.known_personas) ∧
  (¬ ((0 <= 30)%Q ∧ (30 <= 24)%Q)) ∧
  ∃ r,
    health_risk_classifier.predict_risk RiskFixture.classifier ∅
                                        "astronaut" 30%Q = inr r ∧
    health_risk_classifier.risk_category r = "Hazardous" ∧
    drop 8 (health_risk_classifier.features r) = [30%Q; 0%Q; 0%Q; 0%Q].
Proof.
  split; [|split].
  - exact astronaut_is_unknown.
  - intros [_ H]. vm_compute in H. apply H. reflexivity.
  - eexists. repeat split; vm_compute; reflexivity.
Qed.

(* ===================================================================== *)
(** * Further properties of the forecaster                                *)
(* ===================================================================== *)

Section ScalerRange.
Import MinMaxScaler.









End ScalerRange.



Section TrainingExtras.

Variable keras_fit :
  list (list Q) -> list Q -> list (list Q) -> list Q -> nat -> nat ->
  result (Model * History).

(** X3: the supervised pairs slide by one position: each window after the
    first is the previous window without its oldest value, followed by
    the previous target. *)
Theorem training_windows_slide (data : list Q) (window_size i : nat)
    (X : list (list Q)) (y : list Q) :
  1 ≤ window_size →
  model.create_sequences data window_size = inr (X, y) →
  S i < length X →
  ∃ win target,
    X !! i = Some win ∧ y !! i = Some target ∧
    X !! S i = Some (drop 1 win ++ [target]).
Proof.
  intros Hw Hrun Hi. rewrite create_sequences_run in Hrun.
  injection Hrun as <- <-.
  rewrite length_fmap, length_seq in Hi.
  destruct (lookup_lt_is_Some_2 data (i + window_size)) as [t Ht]; [lia|].
  exists (take window_size (drop i data)), t.
  split; [rewrite list_lookup_fmap, lookup_seq_lt by lia; reflexivity|].
  split; [rewrite lookup_drop, <- Ht; f_equal; lia|].
  rewrite list_lookup_fmap, lookup_seq_lt by lia. simpl. f_equal.
  destruct window_size as [|w]; [lia|].
  destruct (drop i data) as [|a d'] eqn:Hd.
  { apply (f_equal length) in Hd. rewrite length_drop in Hd. simpl in Hd. lia. }
  assert (drop (S i) data = d') as Hd'.
  { replace (S i) with (i + 1) by lia. rewrite <- drop_drop, Hd. reflexivity. }
  rewrite Hd'. simpl. rewrite drop_0.
  apply take_S_r.
  rewrite <- Hd', lookup_drop, <- Ht. f_equal. lia.
Qed.

(** X4: the split never leaves the validation set empty when there is a
    pair, and leaves the training set empty exactly when there is at most
    one pair; so a history of [window_size + 1] values reaches the fitting
    routine with no training pair and its single pair as validation set. *)
Theorem split_edge_cases (df : list Q) (model_path : string)
    (window_size epochs n : nat) (fs : FS) (sc : MinMaxScaler.t) :
  (1 ≤ n → model.split_index n < n) ∧
  (model.split_index n = 0 ↔ n ≤ 1) ∧
  (MinMaxScaler.fit df = inr sc → length df = window_size + 1 →
   let scaled := map (MinMaxScaler.transform1 sc) df in
   ∃ target,
     scaled !! window_size = Some target ∧
     model.train_model keras_fit df model_path window_size epochs fs
     = match keras_fit [] [] [take window_size scaled] [target]
                       epochs window_size with
       | inl e => (inl e, fs)
       | inr (m, h) =>
           (inr (m, sc, h), <[Py.replace model_path ".h5" ".keras" := m]> fs)
       end).
Proof.
  pose proof (split_index_floor n) as Hfloor.
  split; [intros Hn; lia|]. split.
  - split; intros H; [lia|].
    unfold model.split_index. apply Nat.div_small. lia.
  - intros Hfit Hlen scaled.
    assert (length scaled = window_size + 1) as Hls
      by (unfold scaled; rewrite length_map; exact Hlen).
    destruct (lookup_lt_is_Some_2 scaled window_size) as [t Ht]; [lia|].
    exists t. split; [exact Ht|].
    rewrite (train_model_run keras_fit df model_path window_size epochs fs sc Hfit).
    cbv zeta. fold scaled.
    replace (length scaled - window_size) with 1 by lia. simpl.
    assert (drop window_size scaled = [t]) as ->.
    { rewrite (drop_S _ _ _ Ht), drop_ge by lia. reflexivity. }
    reflexivity.
Qed.

(** X5: a training call that fails writes nothing, and a training call
    that succeeds writes one file only, the [.keras] path of the model;
    every other file of the store is left as it was. *)
Theorem training_writes_only_its_model (df : list Q) (model_path : string)
    (window_size epochs : nat) (fs fs' : FS)
    (outcome : result (Model * MinMaxScaler.t * History)) :
  model.train_model keras_fit df model_path window_size epochs fs
  = (outcome, fs') →
  (∀ e, outcome = inl e → fs' = fs) ∧
  (∀ path, path ≠ Py.replace model_path ".h5" ".keras" →
           fs' !! path = fs !! path).
Proof.
  unfold model.train_model, bind, lift, save, ret.
  destruct (MinMaxScaler.fit_transform df) as [e|[sc scaled]].
  { intros [= <- <-]. split; [reflexivity.. | ]. intros; reflexivity. }
  destruct (model.create_sequences scaled window_size) as [e|[X y]].
  { intros [= <- <-]. split; intros; reflexivity. }
  destruct (keras_fit _ _ _ _ _ _) as [e|[m h]].
  { intros [= <- <-]. split; intros; reflexivity. }
  intros [= <- <-]. split.
  - intros e [=].
  - intros path Hne. rewrite lookup_insert_ne by congruence. reflexivity.
Qed.

(** X6: saving and loading agree.  After a successful training for a
    path, [load_existing_model] for that path returns the model just
    trained, whatever the store held before (an older [.h5] file
    included), and loading changes nothing. *)
Theorem trained_model_is_loaded_back (df : list Q) (model_path : string)
    (window_size epochs : nat) (fs fs' : FS)
    (m : Model) (sc : MinMaxScaler.t) (h : History) :
  model.train_model keras_fit df model_path window_size epochs fs
  = (inr (m, sc, h), fs') →
  model.load_existing_model model_path fs' = (inr (Some m), fs').
Proof.
  intros Htrain. apply train_model_inv in Htrain as [_ ->].
  rewrite load_existing_model_run. unfold cached.
  rewrite lookup_insert_eq. reflexivity.
Qed.

End TrainingExtras.

Lemma training_windows_slide_witness :
  ∃ win target,
    (win, target) = ([1; 2]%Q, 3%Q) ∧
    ∃ X y, model.create_sequences [1; 2; 3; 4; 5]%Q 2 = inr (X, y) ∧
           X !! 0 = Some win ∧ y !! 0 = Some target ∧
           X !! 1 = Some (drop 1 win ++ [target]).
Proof.
  destruct (training_windows_slide [1; 2; 3; 4; 5]%Q 2 0
              [[1; 2]; [2; 3]; [3; 4]]%Q [3; 4; 5]%Q)
    as (win & target & H0 & Hy & H1);
    [lia | reflexivity | simpl; lia |].
  exists win, target. split.
  - simpl in H0, Hy. congruence.
  - exists [[1; 2]; [2; 3]; [3; 4]]%Q, [3; 4; 5]%Q. repeat split; assumption.
Defined.

Lemma split_edge_cases_witness :
  ∃ sc target,
    MinMaxScaler.fit [10; 20; 30]%Q = inr sc ∧
    map (MinMaxScaler.transform1 sc) [10; 20; 30]%Q !! 2 = Some target ∧
    model.train_model Fixture.fit_half [10; 20; 30]%Q "delhi.h5" 2 50 ∅
    = (inl "ValueError", ∅).
Proof.
  destruct (fit_nonempty 10 [20; 30]%Q) as [sc Hsc].
  destruct (split_edge_cases Fixture.fit_half [10; 20; 30]%Q "delhi.h5" 2 50 1 ∅ sc)
    as (_ & _ & H).
  destruct (H Hsc eq_refl) as (target & Ht & Hrun).
  exists sc, target. repeat split; assumption.
Defined.

Lemma training_writes_only_its_model_witness :
  Fixture.store !! "vashi.keras" = (∅ : FS) !! "vashi.keras".
Proof.
  apply (training_writes_only_its_model Fixture.fit_half [0; 50; 100]%Q
           "delhi.h5" 1 1 ∅ Fixture.store
           (inr (Fixture.half, MinMaxScaler.Build 0 100 (1 # 100) (0 # 100),
                 {| loss := [0%Q]; val_loss := [0%Q] |}))).
  - vm_compute. reflexivity.
  - vm_compute. discriminate.
Defined.

Lemma trained_model_is_loaded_back_witness :
  ∃ fs',
    (model.train_model Fixture.fit_half [0; 50; 100]%Q "delhi.h5" 1 1 ∅).2 = fs' ∧
    model.load_existing_model "delhi.h5" fs' = (inr (Some Fixture.half), fs').
Proof.
  exists Fixture.store. split; [vm_compute; reflexivity|].
  apply (trained_model_is_loaded_back Fixture.fit_half [0; 50; 100]%Q
           "delhi.h5" 1 1 ∅ Fixture.store Fixture.half
           (MinMaxScaler.Build 0 100 (1 # 100) (0 # 100))
           {| loss := [0%Q]; val_loss := [0%Q] |}).
  vm_compute. reflexivity.
Defined.

Section ForecastExtras.
Import predict.

Variable keras_fit :
  list (list Q) -> list Q -> list (list Q) -> list Q -> nat -> nat ->
  result (Model * History).

Lemma initial_window_ok_any (scaled : list Q) (window_size : nat) :
  scaled ≠ [] → ∃ w0, initial_window scaled window_size = inr w0.
Proof.
  intros Hne. unfold initial_window, Py.index.
  destruct (decide (length scaled < window_size)); [|eauto].
  destruct scaled as [|x scaled']; [congruence|]. simpl. eauto.
Qed.

(** X7: forecasts for two horizons agree on their common part.  With a
    cached model and the same series, the forecast for the shorter horizon
    is the beginning of the forecast for the longer one, and neither call
    changes the store. *)
Theorem shorter_forecast_is_prefix (fs : FS) (df : list Q)
    (model_path : string) (h1 h2 window_size epochs : nat) (m : Model) :
  cached fs model_path = Some m →
  df ≠ [] → 1 ≤ window_size → 1 ≤ h1 → h1 ≤ h2 →
  ∃ p1 p2,
    forecast_next_hours keras_fit df model_path h1 window_size epochs fs
    = (inr p1, fs) ∧
    forecast_next_hours keras_fit df model_path h2 window_size epochs fs
    = (inr p2, fs) ∧
    p1 = take h1 p2.
Proof.
  intros Hc Hne Hw Hh1 Hh12.
  destruct (fit_transform_nonempty df Hne) as (sc & Hfit & _).
  assert (model_ready keras_fit fs df model_path window_size epochs m fs)
    as Hready by (left; split; [exact Hc | reflexivity]).
  rewrite !(forecast_next_hours_ready keras_fit fs fs df model_path _
              window_size epochs m sc Hready Hfit).
  destruct (spec_forecast_ok m sc df h1 window_size Hne Hw Hh1)
    as (w0 & st1 & Hw0 & Hlen0 & Hrun1 & _ & ->).
  destruct (spec_forecast_ok m sc df h2 window_size Hne Hw ltac:(lia))
    as (w0' & st2 & Hw0' & _ & Hrun2 & _ & ->).
  assert (w0' = w0) as -> by congruence.
  exists (map (MinMaxScaler.inverse_transform1 sc) st1.2),
         (map (MinMaxScaler.inverse_transform1 sc) st2.2).
  split; [reflexivity|]. split; [reflexivity|].
  pose proof (forecast_loop_partial m window_size w0 h2 h1 st2 Hw Hlen0 Hh12 Hrun2)
    as Hpart.
  rewrite Hrun1 in Hpart. injection Hpart as Hst. rewrite Hst. simpl.
  rewrite <- fmap_take. reflexivity.
Qed.

(** X8: degenerate arguments are rejected, not answered with an empty
    forecast.  With a trained model at hand and a non-empty series, a
    horizon of 0 ends in [ValueError] (nothing to inverse-scale), and so
    does a window size of 0 with a horizon of at least 1 (the window cannot
    be given the shape the model is called with). *)
Theorem degenerate_forecast_arguments_raise (fs fs' : FS) (df : list Q)
    (model_path : string) (hours window_size epochs : nat) (m : Model) :
  df ≠ [] →
  model_ready keras_fit fs df model_path window_size epochs m fs' →
  (hours = 0 ∨ (window_size = 0 ∧ 1 ≤ hours)) →
  forecast_next_hours keras_fit df model_path hours window_size epochs fs
  = (inl "ValueError", fs').
Proof.
  intros Hne Hready Hcase.
  destruct (fit_transform_nonempty df Hne) as (sc & Hfit & _).
  rewrite (forecast_next_hours_ready keras_fit fs fs' df model_path hours
             window_size epochs m sc Hready Hfit).
  f_equal. unfold Spec.forecast.
  assert (MinMaxScaler.transform sc df
          = inr (map (MinMaxScaler.transform1 sc) df)) as ->
    by (destruct df; [congruence | reflexivity]).
  unfold rbind.
  destruct Hcase as [-> | [-> Hh]].
  - destruct (initial_window_ok_any (map (MinMaxScaler.transform1 sc) df)
                window_size) as [w0 ->];
      [destruct df; [congruence | discriminate]|].
    reflexivity.
  - unfold initial_window, Py.slice_last.
    destruct (decide (length (map (MinMaxScaler.transform1 sc) df) < 0)); [lia|].
    destruct hours as [|hours]; [lia|]. simpl.
    unfold reshape.
    destruct (decide (length (map (MinMaxScaler.transform1 sc) df) = 0))
      as [Hz|_]; [|reflexivity].
    rewrite length_map in Hz. destruct df; [congruence | discriminate Hz].
Qed.

(** X9: train on a miss, load afterwards.  When a forecast call finds no
    model and trains one, the model is cached by that call; a later call
    for the same path, on any non-empty series and with any fitting
    routine, uses that model without training and leaves the store as it
    is. *)
Theorem forecast_trains_once (fs fs' : FS) (df df2 : list Q)
    (model_path : string) (hours hours2 window_size epochs epochs2 : nat)
    (m : Model) (sc2 : MinMaxScaler.t)
    (other_fit : list (list Q) -> list Q -> list (list Q) -> list Q ->
                 nat -> nat -> result (Model * History)) :
  cached fs model_path = None →
  model_ready keras_fit fs df model_path window_size epochs m fs' →
  MinMaxScaler.fit df2 = inr sc2 →
  cached fs' model_path = Some m ∧
  forecast_next_hours other_fit df2 model_path hours2 window_size epochs2 fs'
  = (Spec.forecast m sc2 df2 hours2 window_size, fs').
Proof.
  intros Hmiss Hready Hfit2.
  assert (cached fs' model_path = Some m) as Hc.
  { destruct Hready as [[Hc _] | (_ & sc & h & Htrain & _)]; [congruence|].
    apply train_model_inv in Htrain as [_ ->].
    unfold cached. rewrite lookup_insert_eq. reflexivity. }
  split; [exact Hc|].
  apply forecast_next_hours_ready; [|exact Hfit2].
  left. split; [exact Hc | reflexivity].
Qed.

(** X10: an empty series is rejected with [ValueError] by training and by
    forecasting alike, before anything is trained or written, whether or
    not a model is cached. *)
Theorem empty_series_is_rejected (fs : FS) (model_path : string)
    (hours window_size epochs : nat) :
  model.train_model keras_fit [] model_path window_size epochs fs
  = (inl "ValueError", fs) ∧
  forecast_next_hours keras_fit [] model_path hours window_size epochs fs
  = (inl "ValueError", fs).
Proof.
  split; [reflexivity|].
  unfold forecast_next_hours, bind. rewrite load_existing_model_run.
  reflexivity.
Qed.

End ForecastExtras.

Lemma shorter_forecast_is_prefix_witness :
  ∃ p1 p2,
    predict.forecast_next_hours Fixture.fit_half [10; 20; 30]%Q "delhi.h5"
                                6 2 50 Fixture.store = (inr p1, Fixture.store) ∧
    predict.forecast_next_hours Fixture.fit_half [10; 20; 30]%Q "delhi.h5"
                                12 2 50 Fixture.store = (inr p2, Fixture.store) ∧
    p1 = take 6 p2.
Proof.
  apply (shorter_forecast_is_prefix Fixture.fit_half Fixture.store
           [10; 20; 30]%Q "delhi.h5" 6 12 2 50 Fixture.half).
  - exact store_has_model.
  - discriminate.
  - lia.
  - lia.
  - lia.
Defined.

Lemma degenerate_forecast_arguments_raise_witness :
  predict.forecast_next_hours Fixture.fit_half [10; 20; 30]%Q "delhi.h5"
                              0 2 50 Fixture.store
  = (inl "ValueError", Fixture.store).
Proof.
  apply (degenerate_forecast_arguments_raise Fixture.fit_half Fixture.store
           Fixture.store [10; 20; 30]%Q "delhi.h5" 0 2 50 Fixture.half).
  - discriminate.
  - apply store_ready.
  - left. reflexivity.
Defined.

Lemma forecast_trains_once_witness :
  ∃ sc2,
    MinMaxScaler.fit [0; 200]%Q = inr sc2 ∧
    cached Fixture.store "delhi.h5" = Some Fixture.half ∧
    predict.forecast_next_hours Fixture.fit_half [0; 200]%Q "delhi.h5"
                                3 1 1 Fixture.store
    = (Spec.forecast Fixture.half sc2 [0; 200]%Q 3 1, Fixture.store).
Proof.
  destruct (fit_nonempty 0 [200]%Q) as [sc2 Hsc2].
  exists sc2. split; [exact Hsc2|].
  apply (forecast_trains_once Fixture.fit_half ∅ Fixture.store
           [0; 50; 100]%Q [0; 200]%Q "delhi.h5" 1 3 1 1 1 Fixture.half sc2
           Fixture.fit_half).
  - vm_compute. reflexivity.
  - right. split; [vm_compute; reflexivity|].
    exists (MinMaxScaler.Build 0 100 (1 # 100) (0 # 100)),
           {| loss := [0%Q]; val_loss := [0%Q] |}.
    split; [vm_compute; reflexivity|]. split; discriminate.
  - exact Hsc2.
Defined.

(* ===================================================================== *)
(** * Further properties of the risk classifier and its endpoints         *)
(* ===================================================================== *)

Section AdviceFacts.
Import health_risk_classifier.

Lemma in_four_labels (c : string) :
  c ∈ risk_categories init ↔
  c = "Low" ∨ c = "Moderate" ∨ c = "High" ∨ c = "Hazardous".
Proof.
  unfold risk_categories, init. rewrite !elem_of_cons, elem_of_nil. tauto.
Qed.

Lemma in_known_personas (p : string) :
  p ∈ health_risk_api.known_personas ↔
  p = "children_elderly" ∨ p = "outdoor_workers" ∨ p = "general_public".
Proof.
  unfold health_risk_api.known_personas.
  rewrite !elem_of_cons, elem_of_nil. tauto.
Qed.

(** The advice lookup succeeds exactly on the table's rows and columns. *)
Lemma advice_cases (c p : string) :
  (c ∈ risk_categories init ∧ p ∈ health_risk_api.known_personas ∧
   ∃ s, generate_health_advice c p = inr s ∧ s ≠ "") ∨
  ((c ∉ risk_categories init ∨ p ∉ health_risk_api.known_personas) ∧
   generate_health_advice c p = inl "KeyError").
Proof.
  destruct (decide (c ∈ risk_categories init)) as [Hc|Hc];
    destruct (decide (p ∈ health_risk_api.known_personas)) as [Hp|Hp].
  - left. split; [exact Hc|]. split; [exact Hp|].
    apply in_four_labels in Hc. apply in_known_personas in Hp.
    destruct Hc as [-> | [-> | [-> | ->]]]; destruct Hp as [-> | [-> | ->]];
      (eexists; split; [vm_compute; reflexivity | discriminate]).
  - right. split; [right; exact Hp|].
    rewrite in_known_personas in Hp.
    apply in_four_labels in Hc.
    unfold generate_health_advice, rbind, getitem.
    destruct Hc as [-> | [-> | [-> | ->]]]; simpl;
      repeat (case_decide; [subst; exfalso; apply Hp; tauto|]); reflexivity.
  - right. split; [left; exact Hc|].
    rewrite in_four_labels in Hc.
    unfold generate_health_advice, rbind, getitem. simpl.
    repeat (case_decide; [subst; exfalso; apply Hc; tauto|]). reflexivity.
  - right. split; [left; exact Hc|].
    rewrite in_four_labels in Hc.
    unfold generate_health_advice, rbind, getitem. simpl.
    repeat (case_decide; [subst; exfalso; apply Hc; tauto|]). reflexivity.
Qed.

(** X11: the advice table is complete and closed.  For each of the four
    categories and each of the three personas [generate_health_advice]
    returns a non-empty text; for any other category or persona it raises
    [KeyError]. *)
Theorem advice_table_is_total (risk_category persona_type : string) :
  (risk_category ∈ risk_categories init →
   persona_type ∈ health_risk_api.known_personas →
   ∃ advice, generate_health_advice risk_category persona_type = inr advice ∧
             advice ≠ "") ∧
  (risk_category ∉ risk_categories init ∨
   persona_type ∉ health_risk_api.known_personas →
   generate_health_advice risk_category persona_type = inl "KeyError").
Proof.
  destruct (advice_cases risk_category persona_type)
    as [(Hc & Hp & s & Hs & Hne) | [Hout Herr]].
  - split; [intros _ _; eauto|]. intros [H|H]; contradiction.
  - split; [|intros _; exact Herr]. intros Hc Hp. destruct Hout; contradiction.
Qed.

(** X12: what a successful answer of the [/health-risk] endpoint carries:
    a known persona, an exposure within [0, 24], one of the four
    categories, the advice of the table for that category and persona,
    and as confidence the largest returned probability.  A category
    outside the four never reaches a successful answer. *)
Theorem endpoint_success_is_consistent (classifier : HealthRiskClassifier)
    (data : health_risk_api.Request) (body : health_risk_api.HealthRisk) :
  health_risk_api.predict_health_risk classifier data
  = health_risk_api.Success body →
  health_risk_api.resp_persona body ∈ health_risk_api.known_personas ∧
  (0 <= health_risk_api.resp_exposure_duration body)%Q ∧
  (health_risk_api.resp_exposure_duration body <= 24)%Q ∧
  health_risk_api.category body ∈ risk_categories init ∧
  generate_health_advice (health_risk_api.category body)
                         (health_risk_api.resp_persona body)
  = inr (health_risk_api.health_advice body) ∧
  health_risk_api.health_advice body ≠ "" ∧
  Spec.is_max (health_risk_api.confidence body)
              (Py.values (health_risk_api.probabilities body)).
Proof.
  unfold health_risk_api.predict_health_risk.
  destruct (bool_decide _) eqn:Hp; simpl; [|discriminate].
  apply bool_decide_eq_true in Hp.
  destruct (health_risk_api.exposure_in_range _) eqn:He; simpl; [|discriminate].
  apply exposure_in_range_iff in He as [He1 He2].
  unfold rbind.
  destruct (predict_risk _ _ _ _) as [e|r]; [discriminate|].
  destruct (generate_health_advice _ _) as [e|advice] eqn:Hadv; [discriminate|].
  destruct (py_max _) as [e|conf] eqn:Hconf; [discriminate|].
  intros [= <-]. simpl.
  destruct (advice_cases (risk_category r)
              (default "general_public" (health_risk_api.persona data)))
    as [(Hc & _ & s & Hs & Hne) | [_ Herr]]; [|congruence].
  assert (s = advice) as -> by congruence.
  repeat split; try assumption.
  - apply (py_max_is_max _ _ Hconf).
  - intros q Hq. apply (py_max_is_max _ _ Hconf). exact Hq.
Qed.

End AdviceFacts.

Lemma advice_table_is_total_witness :
  ∃ advice,
    health_risk_classifier.generate_health_advice "High" "outdoor_workers"
    = inr advice ∧ advice ≠ "".
Proof.
  apply (advice_table_is_total "High" "outdoor_workers").
  - apply (bool_decide_unpack _). vm_compute. exact I.
  - exact workers_are_known.
Defined.

Lemma endpoint_success_is_consistent_witness :
  ∃ body,
    health_risk_api.predict_health_risk RiskFixture.classifier
                                        RiskFixture.default_request
    = health_risk_api.Success body ∧
    health_risk_api.category body
    ∈ health_risk_classifier.risk_categories health_risk_classifier.init.
Proof.
  assert (∃ body, health_risk_api.predict_health_risk
                    RiskFixture.classifier RiskFixture.default_request
                  = health_risk_api.Success body) as [body Hb]
    by (eexists; vm_compute; reflexivity).
  exists body. split; [exact Hb|].
  apply (endpoint_success_is_consistent RiskFixture.classifier
           RiskFixture.default_request body Hb).
Defined.

Section FeatureFacts.
Import health_risk_classifier.

(** X13: the feature vector of [predict_risk] has twelve entries whatever
    the input; it depends on the forecast only through its eight named
    members, a missing member counting as its default; the ninth entry is
    the exposure; and of the three persona indicators exactly one is 1 for
    a known persona (at the persona's position), the others being 0. *)
Theorem feature_vector_shape (forecast_data forecast_data' : gmap string Q)
    (persona_type : string) (exposure_duration : Q) :
  let features := build_features forecast_data persona_type exposure_duration in
  length features = 12 ∧
  features !! 8 = Some exposure_duration ∧
  take 8 (build_features ∅ persona_type exposure_duration)
  = [100; 50; 75; 25; 60; 5; 1013; 8]%Q ∧
  ((∀ key, key ∈ ["aqi"; "pm25"; "pm10"; "temperature"; "humidity";
                  "wind_speed"; "pressure"; "visibility"] →
           forecast_data' !! key = forecast_data !! key) →
   build_features forecast_data' persona_type exposure_duration = features) ∧
  (persona_type = "children_elderly" → drop 9 features = [1; 0; 0]%Q) ∧
  (persona_type = "outdoor_workers" → drop 9 features = [0; 1; 0]%Q) ∧
  (persona_type = "general_public" → drop 9 features = [0; 0; 1]%Q).
Proof.
  cbv zeta. split; [reflexivity|]. split; [reflexivity|].
  split; [reflexivity|]. split; [|split; [|split]].
  - intros Hsame. unfold build_features, get.
    rewrite !Hsame by (rewrite !elem_of_cons; tauto). reflexivity.
  - intros ->. reflexivity.
  - intros ->. reflexivity.
  - intros ->. reflexivity.
Qed.

Lemma argmax_in_range (xs : list Q) :
  xs ≠ [] → ∃ j, Py.argmax xs = inr j ∧ j < length xs.
Proof.
  intros Hne. destruct xs as [|x xs]; [congruence|].
  destruct (Py.argmax (x :: xs)) as [e|j] eqn:Hj; [discriminate|].
  exists j. split; [reflexivity|].
  destruct (argmax_spec _ _ Hj) as (p & _ & Hp & _).
  eapply lookup_lt_Some. exact Hp.
Qed.

(** A loaded classifier raises nothing. *)
Lemma predict_risk_answers (self : HealthRiskClassifier)
    (forecast_data : gmap string Q) (persona_type : string)
    (exposure_duration : Q)
    (sc : sklearn.StandardScaler) (m : sklearn.RandomForestClassifier string)
    (ex : list Q → Shap) :
  scaler self = Some sc → length (sklearn.mean_ sc) = 12 →
  model self = Some m → sklearn.classes_ m ≠ [] →
  (∀ x, length (sklearn.predict_proba m x) = length (sklearn.classes_ m)) →
  explainer self = Some ex →
  ∃ r,
    predict_risk self forecast_data persona_type exposure_duration = inr r ∧
    risk_category r ∈ sklearn.classes_ m ∧
    features r = build_features forecast_data persona_type exposure_duration.
Proof.
  intros Hsc Hlen Hm Hcls Hcols Hex.
  unfold predict_risk. rewrite Hsc, Hm, Hex. unfold rbind at 1.
  unfold sklearn.transform.
  destruct (decide _) as [_|Hbad]; [|exfalso; apply Hbad; rewrite Hlen; reflexivity].
  unfold rbind at 1. unfold rbind at 1.
  set (x := zip_with _ _ _).
  assert (sklearn.predict_proba m x ≠ []) as Hne.
  { intros Hnil. apply (f_equal length) in Hnil. rewrite Hcols in Hnil.
    destruct (sklearn.classes_ m); [congruence | discriminate]. }
  destruct (argmax_in_range _ Hne) as (j & Hj & Hjlt).
  rewrite Hcols in Hjlt.
  destruct (lookup_lt_is_Some_2 _ _ Hjlt) as [c Hc].
  unfold sklearn.predict, rbind, Py.index. rewrite Hj, Hc.
  eexists. split; [reflexivity|]. simpl. split; [|reflexivity].
  apply list_elem_of_lookup. eauto.
Qed.

(** X14: a loaded classifier answers every request.  With a scaler fitted
    on twelve features, an explainer, and an estimator that has at least
    one class and returns one probability per class, [predict_risk] raises
    nothing, whatever the forecast, the persona and the exposure, and the
    category it returns is one of the estimator's classes. *)
Theorem loaded_classifier_always_answers (self : HealthRiskClassifier)
    (forecast_data : gmap string Q) (persona_type : string)
    (exposure_duration : Q)
    (sc : sklearn.StandardScaler) (m : sklearn.RandomForestClassifier string)
    (ex : list Q → Shap) :
  scaler self = Some sc → length (sklearn.mean_ sc) = 12 →
  model self = Some m → sklearn.classes_ m ≠ [] →
  (∀ x, length (sklearn.predict_proba m x) = length (sklearn.classes_ m)) →
  explainer self = Some ex →
  ∃ r,
    predict_risk self forecast_data persona_type exposure_duration = inr r ∧
    risk_category r ∈ sklearn.classes_ m ∧
    features r = build_features forecast_data persona_type exposure_duration.
Proof.
  intros Hsc Hlen Hm Hcls Hcols Hex.
  exact (predict_risk_answers self forecast_data persona_type exposure_duration
           sc m ex Hsc Hlen Hm Hcls Hcols Hex).
Qed.

End FeatureFacts.

Lemma feature_vector_shape_witness :
  drop 9 (health_risk_classifier.build_features ∅ "outdoor_workers" 4%Q)
  = [0; 1; 0]%Q.
Proof.
  destruct (feature_vector_shape ∅ ∅ "outdoor_workers" 4%Q)
    as (_ & _ & _ & _ & _ & H & _).
  apply H. reflexivity.
Defined.

Lemma loaded_classifier_always_answers_witness :
  ∃ r,
    health_risk_classifier.predict_risk RiskFixture.classifier ∅
                                        "astronaut" 30%Q = inr r ∧
    health_risk_classifier.risk_category r
    ∈ sklearn.classes_ RiskFixture.forest.
Proof.
  destruct (loaded_classifier_always_answers RiskFixture.classifier ∅
              "astronaut" 30%Q (RiskFixture.identity_scaler 12)
              RiskFixture.forest (fun _ => []))
    as (r & Hr & Hin & _);
    [reflexivity | reflexivity | reflexivity | discriminate
    | intros x; reflexivity | reflexivity |].
  exists r. split; assumption.
Defined.

Section HealthModelExtras.
Import health_risk_model.

Lemma select_features_missing (input_df : gmap string Q) (cols : list string)
    (c : string) :
  c ∈ cols → input_df !! c = None →
  select_features input_df cols = inl "ValueError".
Proof.
  induction cols as [|c0 cols IH]; intros Hin Hnone; [inversion Hin|].
  simpl. destruct (input_df !! c0) as [v|] eqn:Hc0; [|reflexivity].
  apply elem_of_cons in Hin as [->|Hin]; [congruence|].
  rewrite (IH Hin Hnone). reflexivity.
Qed.

Lemma select_features_present (input_df : gmap string Q) (cols : list string) :
  (∀ c, c ∈ cols → is_Some (input_df !! c)) →
  ∃ row, select_features input_df cols = inr row ∧
         Forall2 (λ c v, input_df !! c = Some v) cols row.
Proof.
  induction cols as [|c0 cols IH]; intros Hall.
  - exists []. split; [reflexivity | constructor].
  - destruct (Hall c0) as [v Hv]; [left|].
    destruct IH as (row & Hrow & Hf); [intros c Hc; apply Hall; right; exact Hc|].
    exists (v :: row). simpl. rewrite Hv, Hrow. split; [reflexivity|].
    constructor; assumption.
Qed.

(** X15: how missing inputs are reported by [predict_health_risk] once the
    model is in memory, before the scaler or the estimator is touched:
    [KeyError] when neither the exceedance ratio nor the PM2.5 forecast is
    supplied; [ValueError] when one of the eight features is still missing
    after the ratio has been filled in.  A supplied ratio is taken as it
    is, and a missing one is PM2.5 divided by 15. *)
Theorem missing_features_are_reported (self : HealthRiskModel)
    (forecast_data : gmap string Q) :
  (forecast_data !! "who_exceedance_ratio" = None →
   forecast_data !! "forecasted_pm25" = None →
   predict_loaded self forecast_data = inl "KeyError") ∧
  (∀ cols c, input_columns forecast_data = inr cols →
             c ∈ feature_columns → cols !! c = None →
             predict_loaded self forecast_data = inl "ValueError") ∧
  (∀ ratio, forecast_data !! "who_exceedance_ratio" = Some ratio →
            input_columns forecast_data = inr forecast_data) ∧
  (∀ pm25, forecast_data !! "who_exceedance_ratio" = None →
           forecast_data !! "forecasted_pm25" = Some pm25 →
           input_columns forecast_data
           = inr (<["who_exceedance_ratio" := (pm25 / 15)%Q]> forecast_data)).
Proof.
  split; [|split; [|split]].
  - intros Hr Hp. unfold predict_loaded, input_columns. rewrite Hr, Hp.
    reflexivity.
  - intros cols c Hcols Hc Hnone. unfold predict_loaded. rewrite Hcols.
    unfold rbind at 1. rewrite (select_features_missing _ _ c Hc Hnone).
    reflexivity.
  - intros ratio Hr. unfold input_columns. rewrite Hr. reflexivity.
  - intros pm25 Hr Hp. unfold input_columns. rewrite Hr, Hp. reflexivity.
Qed.

(** X16: a load that fails half way is never retried.  When the model
    file is there but the scaler file (or the encoder file before it) is
    not, the call raises [FileNotFoundError] and yet leaves the estimator
    assigned; every later call then skips loading, whatever the files on
    disk have become, and raises [AttributeError] as soon as its features
    are complete.  When the model file itself is missing the instance is
    left as it was. *)
Theorem failed_load_is_not_retried (disk : Disk) (self : HealthRiskModel)
    (forecast_data : gmap string Q)
    (m : sklearn.RandomForestClassifier nat) :
  model self = None → scaler self = None →
  (health_risk_model_pkl disk = None →
   predict_health_risk disk self forecast_data
   = (inl "FileNotFoundError", self)) ∧
  (health_risk_model_pkl disk = Some m →
   risk_label_encoder_pkl disk = None ∨ feature_scaler_pkl disk = None →
   ∃ self',
     predict_health_risk disk self forecast_data
     = (inl "FileNotFoundError", self') ∧
     model self' = Some m ∧
     ∀ disk2 forecast_data2,
       (∀ c, c ∈ feature_columns → is_Some (forecast_data2 !! c)) →
       predict_health_risk disk2 self' forecast_data2
       = (inl "AttributeError", self')).
Proof.
  intros Hm Hsc. split.
  - intros Hfile. unfold predict_health_risk, load_model.
    rewrite Hm, Hfile. reflexivity.
  - intros Hfile Hmissing.
    assert (∀ self', model self' = Some m → scaler self' = None →
              ∀ disk2 fd2,
                (∀ c, c ∈ feature_columns → is_Some (fd2 !! c)) →
                predict_health_risk disk2 self' fd2
                = (inl "AttributeError", self')) as Hstuck.
    { intros self' Hm' Hsc' disk2 fd2 Hall.
      unfold predict_health_risk. rewrite Hm'. f_equal.
      unfold predict_loaded, input_columns.
      destruct (Hall "who_exceedance_ratio") as [ratio ->];
        [unfold feature_columns; rewrite !elem_of_cons; tauto|].
      unfold rbind at 1.
      destruct (select_features_present fd2 feature_columns Hall)
        as (row & -> & _).
      unfold rbind at 1. rewrite Hsc'. reflexivity. }
    unfold predict_health_risk, load_model. rewrite Hm, Hfile.
    destruct (risk_label_encoder_pkl disk) as [le|].
    + destruct Hmissing as [Hle|Hs]; [discriminate|]. rewrite Hs.
      eexists. split; [reflexivity|]. split; [reflexivity|].
      apply Hstuck; [reflexivity | exact Hsc].
    + eexists. split; [reflexivity|]. split; [reflexivity|].
      apply Hstuck; [reflexivity | exact Hsc].
Qed.

(** X17: for an estimator whose classes are the positions 0, 1, ..., as
    fitting on the encoded labels leaves them, the returned [risk_score]
    and [confidence] are the same number. *)
Theorem risk_score_is_confidence (disk : Disk) (self0 self : HealthRiskModel)
    (forecast_data : gmap string Q) (r : RiskResult)
    (m : sklearn.RandomForestClassifier nat) (le : sklearn.LabelEncoder)
    (k : nat) :
  predict_health_risk disk self0 forecast_data = (inr r, self) →
  model self = Some m → label_encoder self = Some le →
  sklearn.classes_ m = seq 0 k →
  risk_score r = confidence r.
Proof.
  intros Hrun Hm Hle Hcls. apply predict_health_risk_loaded in Hrun.
  destruct (predict_loaded_inv _ _ _ m le Hrun Hm Hle)
    as (x & i & Hpred & _ & Hmax & Hscore & _).
  cbv zeta in *.
  apply predict_inv in Hpred as (j & Hj & Hcj).
  rewrite Hcls in Hcj. apply lookup_seq in Hcj as [-> _]. simpl in Hscore.
  destruct (argmax_spec _ _ Hj) as (p & Hp & Hlook & _).
  unfold Py.index in Hscore. rewrite Hlook in Hscore. congruence.
Qed.

End HealthModelExtras.

Lemma missing_features_are_reported_witness :
  health_risk_model.predict_loaded RiskFixture.tied_model ∅ = inl "KeyError".
Proof.
  destruct (missing_features_are_reported RiskFixture.tied_model ∅) as (H & _).
  apply H; apply lookup_empty.
Defined.

Lemma failed_load_is_not_retried_witness :
  ∃ self',
    health_risk_model.predict_health_risk
      {| health_risk_model.health_risk_model_pkl := Some RiskFixture.tied_forest;
         health_risk_model.risk_label_encoder_pkl := Some RiskFixture.encoder;
         health_risk_model.feature_scaler_pkl := None |}
      health_risk_model.init RiskFixture.example_forecast
    = (inl "FileNotFoundError", self') ∧
    health_risk_model.model self' = Some RiskFixture.tied_forest.
Proof.
  destruct (failed_load_is_not_retried
              {| health_risk_model.health_risk_model_pkl := Some RiskFixture.tied_forest;
                 health_risk_model.risk_label_encoder_pkl := Some RiskFixture.encoder;
                 health_risk_model.feature_scaler_pkl := None |}
              health_risk_model.init RiskFixture.example_forecast
              RiskFixture.tied_forest eq_refl eq_refl) as [_ H].
  destruct (H eq_refl (or_intror eq_refl)) as (self' & Hrun & Hm & _).
  exists self'. split; assumption.
Defined.

Lemma risk_score_is_confidence_witness :
  ∃ r,
    health_risk_model.predict_health_risk
      RiskFixture.no_files RiskFixture.tied_model RiskFixture.example_forecast
    = (inr r, RiskFixture.tied_model) ∧
    health_risk_model.risk_score r = health_risk_model.confidence r.
Proof.
  assert (∃ r, health_risk_model.predict_health_risk
                 RiskFixture.no_files RiskFixture.tied_model
                 RiskFixture.example_forecast
               = (inr r, RiskFixture.tied_model)) as [r Hr]
    by (eexists; vm_compute; reflexivity).
  exists r. split; [exact Hr|].
  apply (risk_score_is_confidence RiskFixture.no_files RiskFixture.tied_model
           RiskFixture.tied_model RiskFixture.example_forecast r
           RiskFixture.tied_forest RiskFixture.encoder 4 Hr);
    reflexivity.
Defined.

Section BatchFacts.
Import health_risk_classifier health_risk_api_batch.

Lemma timeline_failed (classifier : HealthRiskClassifier) (persona_type : string)
    (e : exn) (items : list (nat * gmap string Q)) :
  foldl (timeline_step classifier persona_type) (inl e) items = inl e.
Proof. induction items as [|item items IH]; [reflexivity | exact IH]. Qed.

(** What a completed loop of the batch endpoint has appended. *)
Lemma timeline_run (classifier : HealthRiskClassifier) (persona_type : string)
    (forecasts : list (gmap string Q)) (start : nat)
    (acc results : list TimelineEntry) :
  foldl (timeline_step classifier persona_type) (inr acc)
        (zip (seq start (length forecasts)) forecasts) = inr results →
  ∃ new,
    results = acc ++ new ∧ length new = length forecasts ∧
    ∀ i entry, new !! i = Some entry →
      hour entry = start + i + 1 ∧
      entry_risk_category entry ∈ risk_categories init ∧
      persona_type ∈ health_risk_api.known_personas ∧
      ∃ forecast,
        forecasts !! i = Some forecast ∧
        entry_forecast_data entry = extract_forecast_data forecast.
Proof.
  revert start acc.
  induction forecasts as [|forecast forecasts IH]; intros start acc Hrun.
  - simpl in Hrun. injection Hrun as <-. exists []. rewrite app_nil_r.
    split; [reflexivity|]. split; [reflexivity|]. intros i entry Hi. discriminate.
  - simpl in Hrun. unfold rbind in Hrun.
    destruct (predict_risk _ _ _ _) as [e|r];
      [rewrite timeline_failed in Hrun; discriminate|].
    destruct (generate_health_advice _ _) as [e|advice] eqn:Hadv;
      [rewrite timeline_failed in Hrun; discriminate|].
    destruct (py_max _) as [e|conf];
      [rewrite timeline_failed in Hrun; discriminate|].
    apply IH in Hrun as (new & -> & Hlen & Hnew).
    eexists (_ :: new). split; [rewrite <- app_assoc; reflexivity|].
    split; [simpl; lia|].
    intros [|i] entry Hi; simpl in Hi.
    + injection Hi as <-. simpl.
      destruct (advice_cases (risk_category r) persona_type)
        as [(Hc & Hp & _) | [_ Herr]]; [|congruence].
      split; [lia|]. split; [exact Hc|]. split; [exact Hp|].
      exists forecast. split; reflexivity.
    + destruct (Hnew i entry Hi) as (Hh & Hc & Hp & f & Hf & Hd).
      split; [lia|]. split; [exact Hc|]. split; [exact Hp|].
      exists f. split; assumption.
Qed.

(** X18: the batch endpoint.  An empty (or absent) list of forecasts is
    answered with status 400; a non-empty list is never answered with
    status 400, whatever the persona and the exposures, since neither is
    validated; and a successful answer has one entry per forecast, in
    order, numbered from hour 1, each with one of the four categories,
    which is only possible for a known persona (for any other the advice
    lookup fails and the answer has status 500). *)
Theorem batch_endpoint_behaviour (classifier : HealthRiskClassifier)
    (data : Request) :
  (forecasts data = [] →
   predict_batch_health_risk classifier data
   = Failure 400 "No forecast data provided") ∧
  (forecasts data ≠ [] →
   ∀ message, predict_batch_health_risk classifier data ≠ Failure 400 message) ∧
  (∀ p timeline,
     predict_batch_health_risk classifier data = Success p timeline →
     p = default "general_public" (persona data) ∧
     p ∈ health_risk_api.known_personas ∧
     length timeline = length (forecasts data) ∧
     ∀ i entry, timeline !! i = Some entry →
       hour entry = i + 1 ∧
       entry_risk_category entry ∈ risk_categories init ∧
       ∃ forecast,
         forecasts data !! i = Some forecast ∧
         entry_forecast_data entry = extract_forecast_data forecast).
Proof.
  unfold predict_batch_health_risk. split; [|split].
  - intros ->. reflexivity.
  - intros Hne message. destruct (forecasts data) as [|f fs]; [congruence|].
    destruct (foldl _ _ _); discriminate.
  - intros p timeline Hrun.
    destruct (forecasts data) as [|f fs] eqn:Hfs; [discriminate|].
    destruct (foldl _ _ _) as [e|results] eqn:Hfold; [discriminate|].
    injection Hrun as <- <-.
    apply (timeline_run classifier _ (f :: fs) 0 [] results) in Hfold
      as (new & -> & Hlen & Hnew).
    simpl app. split; [reflexivity|].
    destruct new as [|entry0 new']; [discriminate Hlen|].
    split; [exact (proj1 (proj2 (proj2 (Hnew 0 entry0 eq_refl))))|].
    split; [exact Hlen|].
    intros i entry Hi.
    destruct (Hnew i entry Hi) as (Hh & Hc & _ & forecast & Hf & Hd).
    split; [lia|]. split; [exact Hc|]. exists forecast. split; assumption.
Qed.

End BatchFacts.

Lemma batch_endpoint_behaviour_witness :
  health_risk_api_batch.predict_batch_health_risk RiskFixture.classifier
    {| health_risk_api_batch.forecasts := [];
       health_risk_api_batch.persona := Some "astronaut" |}
  = health_risk_api_batch.Failure 400 "No forecast data provided" ∧
  health_risk_api_batch.predict_batch_health_risk RiskFixture.classifier
    {| health_risk_api_batch.forecasts := [∅];
       health_risk_api_batch.persona := Some "astronaut" |}
  = health_risk_api_batch.Failure 500 "KeyError".
Proof.
  split.
  - apply (batch_endpoint_behaviour RiskFixture.classifier
             {| health_risk_api_batch.forecasts := [];
                health_risk_api_batch.persona := Some "astronaut" |}).
    reflexivity.
  - vm_compute. reflexivity.
Defined.

Section AnalyzerFacts.
Import health_risk_classifier forecast_health_analyzer.

Variable str_of : Q → string.
Variable format_1f : Q → string.

Lemma persona_mapping_known (code : Z) :
  persona_mapping code ∈ health_risk_api.known_personas.
Proof.
  apply in_known_personas. unfold persona_mapping.
  destruct code as [|[[|?|]|[|?|]|]|]; tauto.
Qed.

Lemma analyze_failed (classifier : HealthRiskClassifier) (e : exn)
    (rows : list Row) :
  foldl (analyze_row str_of format_1f classifier) (inl e) rows = inl e.
Proof. induction rows as [|row rows IH]; [reflexivity | exact IH]. Qed.

Lemma ratio_above_one (x : Q) : (1 < x / 15)%Q ↔ (15 < x)%Q.
Proof.
  unfold Qdiv. change (/ 15)%Q with (1 # 15)%Q. split; intros H; lra.
Qed.

Lemma ratio_above_two (x : Q) : (2 < x / 15)%Q ↔ (30 < x)%Q.
Proof.
  unfold Qdiv. change (/ 15)%Q with (1 # 15)%Q. split; intros H; lra.
Qed.

(** What one completed loop of the analysis has appended. *)
Lemma analyze_run (classifier : HealthRiskClassifier) (rows : list Row)
    (acc results : list Analysis) :
  foldl (analyze_row str_of format_1f classifier) (inr acc) rows = inr results →
  ∃ new,
    results = acc ++ new ∧ length new = length rows ∧
    ∀ i a, new !! i = Some a →
      forecast_hour a = length acc + i + 1 ∧
      rows !! i = Some (forecast_data a) ∧
      persona_type a = persona_mapping (persona_code (forecast_data a)) ∧
      predicted_risk a ∈ risk_categories init ∧
      result_who_exceedance_ratio a = (pm25 (forecast_data a) / 15)%Q ∧
      who_status a
      = (if Qlt_le_dec 1 (pm25 (forecast_data a) / 15)
         then "Exceeds WHO guideline" else "Within WHO guideline") ∧
      risk_factors a
      = analyze_risk_factors str_of format_1f (forecast_data a)
                             (pm25 (forecast_data a) / 15).
Proof.
  revert acc. induction rows as [|row rows IH]; intros acc Hrun.
  - simpl in Hrun. injection Hrun as <-. exists []. rewrite app_nil_r.
    split; [reflexivity|]. split; [reflexivity|]. intros i a Hi. discriminate.
  - simpl in Hrun. unfold rbind in Hrun.
    destruct (predict_risk _ _ _ _) as [e|r];
      [rewrite analyze_failed in Hrun; discriminate|].
    destruct (generate_health_advice _ _) as [e|advice] eqn:Hadv;
      [rewrite analyze_failed in Hrun; discriminate|].
    destruct (getitem persona_names _) as [e|name];
      [rewrite analyze_failed in Hrun; discriminate|].
    destruct (py_max _) as [e|conf];
      [rewrite analyze_failed in Hrun; discriminate|].
    apply IH in Hrun as (new & -> & Hlen & Hnew).
    eexists (_ :: new). split; [rewrite <- app_assoc; reflexivity|].
    split; [simpl; lia|].
    intros [|i] a Hi; simpl in Hi.
    + injection Hi as <-. simpl.
      destruct (advice_cases (risk_category r)
                  (persona_mapping (persona_code row)))
        as [(Hc & _) | [_ Herr]]; [|congruence].
      repeat split; try reflexivity; [lia | exact Hc].
    + destruct (Hnew i a Hi) as (Hh & Hrest).
      rewrite length_app in Hh. simpl in Hh. split; [lia | exact Hrest].
Qed.

(** X19: the forecast analysis.  Every persona code is mapped to one of
    the three known personas (codes 1 and 2 to the same one, any code
    outside 0..3 to the general public).  A completed analysis has one
    result per row, in order, numbered from hour 1, each with one of the
    four categories; its exceedance ratio is PM2.5 over 15 (the ratio
    column of the row is not used) and its status says the guideline is
    exceeded exactly when PM2.5 is above 15. *)
Theorem forecast_analysis_shape (classifier : HealthRiskClassifier)
    (rows : list Row) (results : list Analysis) (code : Z) :
  persona_mapping code ∈ health_risk_api.known_personas ∧
  persona_mapping 1 = persona_mapping 2 ∧
  ((code < 0 ∨ 3 < code)%Z → persona_mapping code = "general_public") ∧
  (analyze_forecast_health_risks str_of format_1f classifier rows
   = inr results →
   length results = length rows ∧
   ∀ i a, results !! i = Some a →
     forecast_hour a = i + 1 ∧
     rows !! i = Some (forecast_data a) ∧
     persona_type a = persona_mapping (persona_code (forecast_data a)) ∧
     predicted_risk a ∈ risk_categories init ∧
     result_who_exceedance_ratio a = (pm25 (forecast_data a) / 15)%Q ∧
     (who_status a = "Exceeds WHO guideline" ↔ (15 < pm25 (forecast_data a))%Q) ∧
     (who_status a = "Within WHO guideline" ↔ (pm25 (forecast_data a) <= 15)%Q)).
Proof.
  split; [apply persona_mapping_known|]. split; [reflexivity|]. split.
  - intros [H|H]; unfold persona_mapping;
      destruct code as [|[[|?|]|[|?|]|]|]; try reflexivity; lia.
  - intros Hrun. unfold analyze_forecast_health_risks in Hrun.
    apply analyze_run in Hrun as (new & -> & Hlen & Hnew). simpl.
    split; [exact Hlen|].
    intros i a Hi.
    destruct (Hnew i a Hi) as (Hh & Hrow & Hp & Hc & Hr & Hs & _).
    simpl in Hh.
    split; [exact Hh|]. split; [exact Hrow|]. split; [exact Hp|].
    split; [exact Hc|]. split; [exact Hr|].
    rewrite Hs.
    destruct (Qlt_le_dec 1 (pm25 (forecast_data a) / 15)) as [Hgt|Hle]; split.
    + split; [intros _; apply ratio_above_one; exact Hgt | reflexivity].
    + split; [discriminate|].
      intros H. apply ratio_above_one in Hgt. exfalso. lra.
    + split; [discriminate|].
      intros H. apply ratio_above_one in H. exfalso. lra.
    + split; [|reflexivity]. intros _.
      destruct (Qlt_le_dec 15 (pm25 (forecast_data a))) as [H'|H'];
        [apply ratio_above_one in H'; exfalso; lra | exact H'].
Qed.

(** A group of factors: nothing, or one factor of the given subject. *)
Lemma group_names (name : string) (l : list Factor) :
  (l = [] ∨ ∃ x, l = [x] ∧ factor x = name) →
  map factor l `sublist_of` [name] ∧
  ∀ other, other ≠ name → other ∉ map factor l.
Proof.
  intros [-> | (x & -> & <-)]; simpl; split.
  - apply sublist_nil_l.
  - intros other _ Hin. inversion Hin.
  - reflexivity.
  - intros other Hne Hin. apply list_elem_of_singleton in Hin. congruence.
Qed.

(** The factors, subject by subject. *)
Lemma risk_factors_by_subject (row : Row) (ratio : Q) :
  ∃ pm trend wind hum who,
    analyze_risk_factors str_of format_1f row ratio
    = pm ++ trend ++ wind ++ hum ++ who ∧
    ((pm = [] ∧ (pm25 row <= 35)%Q) ∨
     ((35 < pm25 row)%Q ∧ ∃ x, pm = [x] ∧ factor x = "PM2.5")) ∧
    (trend = [] ∨ ∃ x, trend = [x] ∧ factor x = "AQI Trend") ∧
    (wind = [] ∨ ∃ x, wind = [x] ∧ factor x = "Wind Speed") ∧
    (hum = [] ∨ ∃ x, hum = [x] ∧ factor x = "Humidity") ∧
    ((who = [] ∧ (ratio <= 1)%Q) ∨
     ((1 < ratio)%Q ∧
      ∃ x, who = [x] ∧ factor x = "WHO Guideline" ∧
           ((2 < ratio)%Q → level x = "Critical"))).
Proof.
  unfold analyze_risk_factors.
  set (pm_hazardous := {| factor := "PM2.5"; level := "Hazardous" |}).
  set (pm_high := {| factor := "PM2.5"; level := "High" |}).
  set (pm_moderate := {| factor := "PM2.5"; level := "Moderate" |}).
  set (worsening := {| factor := "AQI Trend"; level := "Worsening" |}).
  set (improving := {| factor := "AQI Trend"; level := "Improving" |}).
  set (poor_wind := {| factor := "Wind Speed" |}).
  set (humid := {| factor := "Humidity" |}).
  set (critical := {| factor := "WHO Guideline"; level := "Critical" |}).
  set (warning := {| factor := "WHO Guideline"; level := "Warning" |}).
  exists (if Qlt_le_dec 150 (pm25 row) then [pm_hazardous]
          else if Qlt_le_dec 75 (pm25 row) then [pm_high]
          else if Qlt_le_dec 35 (pm25 row) then [pm_moderate] else []),
         (if decide (2 < aqi_trend row)%Z then [worsening]
          else if decide (aqi_trend row < -2)%Z then [improving] else []),
         (if Qlt_le_dec (wind_speed row) 3 then [poor_wind] else []),
         (if Qlt_le_dec 80 (humidity row) then [humid] else []),
         (if Qlt_le_dec 2 ratio then [critical]
          else if Qlt_le_dec 1 ratio then [warning] else []).
  split; [|split; [|split; [|split; [|split]]]].
  - destruct (Qlt_le_dec 150 (pm25 row));
      [|destruct (Qlt_le_dec 75 (pm25 row));
        [|destruct (Qlt_le_dec 35 (pm25 row))]];
      (destruct (decide (2 < aqi_trend row)%Z);
         [|destruct (decide (aqi_trend row < -2)%Z)]);
      destruct (Qlt_le_dec (wind_speed row) 3);
      destruct (Qlt_le_dec 80 (humidity row));
      (destruct (Qlt_le_dec 2 ratio); [|destruct (Qlt_le_dec 1 ratio)]);
      reflexivity.
  - destruct (Qlt_le_dec 150 (pm25 row));
      [|destruct (Qlt_le_dec 75 (pm25 row));
        [|destruct (Qlt_le_dec 35 (pm25 row))]].
    + right. split; [lra | eauto].
    + right. split; [lra | eauto].
    + right. split; [lra | eauto].
    + left. split; [reflexivity | assumption].
  - destruct (decide (2 < aqi_trend row)%Z);
      [|destruct (decide (aqi_trend row < -2)%Z)]; eauto.
  - destruct (Qlt_le_dec (wind_speed row) 3); eauto.
  - destruct (Qlt_le_dec 80 (humidity row)); eauto.
  - destruct (Qlt_le_dec 2 ratio); [|destruct (Qlt_le_dec 1 ratio)].
    + right. split; [lra|]. exists critical. repeat split.
    + right. split; [assumption|]. exists warning.
      split; [reflexivity|]. split; [reflexivity|]. intros H. exfalso. lra.
    + left. split; [reflexivity | assumption].
Qed.

(** X20: the risk factors of an analysed row.  At most one factor is
    reported per subject, in the fixed order PM2.5, AQI Trend, Wind Speed,
    Humidity, WHO Guideline.  With the ratio the analysis passes (PM2.5
    over 15): a PM2.5 factor is reported exactly when PM2.5 is above 35,
    and then the WHO factor is reported too, at level Critical; for PM2.5
    of at most 15 neither of the two is reported. *)
Theorem risk_factors_are_consistent (row : Row) :
  let factors :=
    analyze_risk_factors str_of format_1f row (pm25 row / 15)%Q in
  (map factor factors
     `sublist_of` ["PM2.5"; "AQI Trend"; "Wind Speed"; "Humidity";
                   "WHO Guideline"]) ∧
  ("PM2.5" ∈ map factor factors ↔ (35 < pm25 row)%Q) ∧
  ((35 < pm25 row)%Q →
   ∃ who, who ∈ factors ∧ factor who = "WHO Guideline" ∧
          level who = "Critical") ∧
  ((pm25 row <= 15)%Q →
   ("PM2.5" ∉ map factor factors) ∧ ("WHO Guideline" ∉ map factor factors)).
Proof.
  cbv zeta.
  destruct (risk_factors_by_subject row (pm25 row / 15))
    as (pm & trend & wind & hum & who & -> & Hpm & Htrend & Hwind & Hhum & Hwho).
  destruct (group_names "AQI Trend" trend Htrend) as [St Nt].
  destruct (group_names "Wind Speed" wind Hwind) as [Sw Nw].
  destruct (group_names "Humidity" hum Hhum) as [Sh Nh].
  assert (pm = [] ∨ ∃ x, pm = [x] ∧ factor x = "PM2.5") as Hpm'
    by (destruct Hpm as [[-> _] | [_ ?]]; eauto).
  assert (who = [] ∨ ∃ x, who = [x] ∧ factor x = "WHO Guideline") as Hwho'
    by (destruct Hwho as [[-> _] | [_ (x & ? & ? & _)]]; eauto).
  destruct (group_names "PM2.5" pm Hpm') as [Sp Np].
  destruct (group_names "WHO Guideline" who Hwho') as [So No].
  rewrite !map_app.
  pose proof (ratio_above_one (pm25 row)) as H1.
  pose proof (ratio_above_two (pm25 row)) as H2.
  split; [|split; [|split]].
  - change ["PM2.5"; "AQI Trend"; "Wind Speed"; "Humidity"; "WHO Guideline"]
      with (["PM2.5"] ++ ["AQI Trend"] ++ ["Wind Speed"] ++ ["Humidity"]
            ++ ["WHO Guideline"]).
    repeat apply sublist_app; assumption.
  - rewrite !elem_of_app. split.
    + intros [H|[H|[H|[H|H]]]].
      * destruct Hpm as [[-> _] | [Hgt _]]; [inversion H | exact Hgt].
      * exfalso. exact (Nt "PM2.5" ltac:(discriminate) H).
      * exfalso. exact (Nw "PM2.5" ltac:(discriminate) H).
      * exfalso. exact (Nh "PM2.5" ltac:(discriminate) H).
      * exfalso. exact (No "PM2.5" ltac:(discriminate) H).
    + intros Hgt. left.
      destruct Hpm as [[_ Hle] | [_ (x & -> & Hx)]]; [exfalso; lra|].
      simpl. rewrite Hx. left.
  - intros Hgt.
    destruct Hwho as [[_ Hle] | [_ (x & -> & Hx & Hcrit)]].
    + exfalso. assert (15 < pm25 row)%Q as H15 by lra.
      apply H1 in H15. lra.
    + exists x. split; [|split; [exact Hx|]].
      * rewrite !elem_of_app. do 4 right. left.
      * apply Hcrit. apply H2. lra.
  - intros Hle. rewrite !elem_of_app. split.
    + intros [H|[H|[H|[H|H]]]].
      * destruct Hpm as [[-> _] | [Hgt _]]; [inversion H | lra].
      * exact (Nt "PM2.5" ltac:(discriminate) H).
      * exact (Nw "PM2.5" ltac:(discriminate) H).
      * exact (Nh "PM2.5" ltac:(discriminate) H).
      * exact (No "PM2.5" ltac:(discriminate) H).
    + intros [H|[H|[H|[H|H]]]].
      * exact (Np "WHO Guideline" ltac:(discriminate) H).
      * exact (Nt "WHO Guideline" ltac:(discriminate) H).
      * exact (Nw "WHO Guideline" ltac:(discriminate) H).
      * exact (Nh "WHO Guideline" ltac:(discriminate) H).
      * destruct Hwho as [[-> _] | [Hgt _]]; [inversion H|].
        apply H1 in Hgt. lra.
Qed.

End AnalyzerFacts.

Lemma forecast_analysis_shape_witness :
  ∃ results,
    forecast_health_analyzer.analyze_forecast_health_risks
      (λ _, "") (λ _, "") RiskFixture.classifier
      [forecast_health_analyzer.Build_Row 42 150 8 5 75 6 2.8 1 "High"]
    = inr results ∧
    length results = 1.
Proof.
  assert (∃ results,
            forecast_health_analyzer.analyze_forecast_health_risks
              (λ _, "") (λ _, "") RiskFixture.classifier
              [forecast_health_analyzer.Build_Row 42 150 8 5 75 6 2.8 1 "High"]
            = inr results) as [results Hr]
    by (eexists; vm_compute; reflexivity).
  exists results. split; [exact Hr|].
  destruct (forecast_analysis_shape (λ _, "") (λ _, "") RiskFixture.classifier
              [forecast_health_analyzer.Build_Row 42 150 8 5 75 6 2.8 1 "High"]
              results 1%Z) as (_ & _ & _ & H).
  exact (proj1 (H Hr)).
Defined.

Lemma risk_factors_are_consistent_witness :
  ∃ who,
    who ∈ forecast_health_analyzer.analyze_risk_factors (λ _, "") (λ _, "")
            (forecast_health_analyzer.Build_Row 42 150 8 5 75 6 2.8 1 "High")
            (42 / 15)%Q ∧
    forecast_health_analyzer.factor who = "WHO Guideline" ∧
    forecast_health_analyzer.level who = "Critical".
Proof.
  destruct (risk_factors_are_consistent (λ _, "") (λ _, "")
              (forecast_health_analyzer.Build_Row 42 150 8 5 75 6 2.8 1 "High"))
    as (_ & _ & H & _).
  apply H. simpl. reflexivity.
Defined.

Section StorageFacts.
Import health_risk_classifier classifier_storage.

Variable tree_explainer :
  option (sklearn.RandomForestClassifier string) → result (list Q → Shap).

(** X21: saving and loading a classifier.  Loading a path that holds no
    pickle raises [FileNotFoundError] and leaves the object as it was.
    Loading what [save_model] wrote gives an object with the saved
    estimator, scaler, feature names, categories and personas, whatever
    the loading object held before, and with the explainer built from the
    saved estimator; so a classifier whose explainer is that one gets
    itself back, and predicts as before. *)
Theorem classifier_save_load_round_trip (self other : HealthRiskClassifier)
    (filepath : string) (files : gmap string ModelData) (ex : list Q → Shap) :
  (files !! filepath = None →
   load_model tree_explainer other filepath files
   = (inl "FileNotFoundError", other)) ∧
  (tree_explainer (model self) = inr ex →
   load_model tree_explainer other filepath (save_model self filepath files)
   = (inr tt,
      {| model := model self; scaler := scaler self; explainer := Some ex;
         feature_names := feature_names self;
         risk_categories := risk_categories self;
         personas := personas self |}) ∧
   (explainer self = Some ex →
    load_model tree_explainer other filepath (save_model self filepath files)
    = (inr tt, self))).
Proof.
  split.
  - intros Hnone. unfold load_model. rewrite Hnone. reflexivity.
  - intros Hex.
    assert (load_model tree_explainer other filepath
              (save_model self filepath files)
            = (inr tt,
               {| model := model self; scaler := scaler self;
                  explainer := Some ex;
                  feature_names := feature_names self;
                  risk_categories := risk_categories self;
                  personas := personas self |})) as Hload.
    { unfold load_model, save_model. rewrite lookup_insert_eq.
      unfold setup_explainability. simpl. rewrite Hex. reflexivity. }
    split; [exact Hload|].
    intros Hself. rewrite Hload. destruct self; simpl in *. subst. reflexivity.
Qed.

End StorageFacts.

Lemma classifier_save_load_round_trip_witness :
  classifier_storage.load_model
    (λ _, inr (λ _, [])) health_risk_classifier.init "aeroguard.pkl"
    (classifier_storage.save_model RiskFixture.classifier "aeroguard.pkl" ∅)
  = (inr tt, RiskFixture.classifier).
Proof.
  destruct (classifier_save_load_round_trip (λ _, inr (λ _, []))
              RiskFixture.classifier health_risk_classifier.init
              "aeroguard.pkl" ∅ (λ _, [])) as [_ H].
  destruct (H eq_refl) as [_ Hself]. apply Hself. reflexivity.
Defined.

Section IntegrationFacts.
Import health_risk_classifier aqi_health_integration.

Variable current_aqi : string → option (gmap string Q).

Variable classifier : HealthRiskClassifier.
Variable sc : sklearn.StandardScaler.
Variable m : sklearn.RandomForestClassifier string.
Variable ex : list Q → Shap.
Hypothesis scaler_loaded : scaler classifier = Some sc.
Hypothesis scaler_width : length (sklearn.mean_ sc) = 12.
Hypothesis model_loaded : model classifier = Some m.
Hypothesis classes_nonempty : sklearn.classes_ m ≠ [].
Hypothesis one_column_per_class :
  ∀ x, length (sklearn.predict_proba m x) = length (sklearn.classes_ m).
Hypothesis classes_are_labels :
  ∀ c, c ∈ sklearn.classes_ m → c ∈ risk_categories init.
Hypothesis explainer_loaded : explainer classifier = Some ex.
Hypothesis categories_fixed :
  risk_categories classifier = risk_categories init.

(** The inner loop completes for a known persona. *)
Lemma scenarios_run (aqi_data : gmap string Q) (persona_key : string)
    (hours : list Q) (acc : list Scenario) :
  persona_key ∈ health_risk_api.known_personas →
  ∃ new,
    foldl (scenario_step classifier aqi_data persona_key) (inr acc) hours
    = inr (acc ++ new) ∧
    map exposure_hours new = hours ∧
    ∀ s, s ∈ new →
      scenario_risk_category s ∈ risk_categories init ∧
      generate_health_advice (scenario_risk_category s) persona_key
      = inr (health_advice s) ∧
      health_advice s ≠ "".
Proof.
  intros Hp. revert acc. induction hours as [|h hours IH]; intros acc.
  - exists []. rewrite app_nil_r. split; [reflexivity|]. split; [reflexivity|].
    intros s Hs. inversion Hs.
  - simpl. unfold rbind.
    destruct (predict_risk_answers classifier aqi_data persona_key h sc m ex
                scaler_loaded scaler_width model_loaded classes_nonempty
                one_column_per_class explainer_loaded) as (r & Hr & Hin & _).
    rewrite Hr.
    destruct (advice_cases (risk_category r) persona_key)
      as [(Hc & _ & advice & Hadv & Hne) | [[Hout|Hout] _]];
      [| exfalso; apply Hout, classes_are_labels, Hin | contradiction].
    rewrite Hadv.
    destruct (predict_risk_inv _ _ _ _ _ m Hr model_loaded) as (x & _ & Hprobs & _).
    rewrite categories_fixed, (dict_of_zip_nodup _ _ fixed_labels_nodup) in Hprobs.
    assert (∃ conf, py_max (Py.values (risk_probabilities r)) = inr conf)
      as [conf Hconf].
    { rewrite Hprobs.
      destruct (sklearn.predict_proba m x) as [|p ps] eqn:Hpp.
      - exfalso. pose proof (one_column_per_class x) as Hl.
        rewrite Hpp in Hl. destruct (sklearn.classes_ m); [congruence | discriminate].
      - simpl. eauto. }
    rewrite Hconf.
    destruct (IH (acc ++
                  [{| exposure_hours := h;
                      scenario_risk_category := risk_category r;
                      confidence := conf;
                      health_advice := advice;
                      probabilities := risk_probabilities r |}]))
      as (new & Hrun & Hmap & Hall).
    eexists (_ :: new). split; [rewrite Hrun, <- app_assoc; reflexivity|].
    split; [simpl; rewrite Hmap; reflexivity|].
    intros s Hs. apply elem_of_cons in Hs as [->|Hs]; [|exact (Hall s Hs)].
    simpl. repeat split; assumption.
Qed.

(** X22: the integration with a loaded classifier whose classes are among
    the four labels.  [analyze_health_risks] raises nothing, whatever the
    AQI service returns: it reports the three personas in their fixed
    order, each with its three exposure scenarios, every scenario with one
    of the four categories and the advice of the table; when the service
    gives nothing, the fallback data stand in, which are the values
    [predict_risk] assumes for missing members anyway. *)
Theorem integration_analysis_is_complete (loc : string) :
  ∃ analysis,
    analyze_health_risks current_aqi classifier loc = inr analysis ∧
    location analysis = loc ∧
    analysis_current_aqi analysis = get_current_aqi_data current_aqi loc ∧
    Py.keys (health_risks analysis)
    = ["children_elderly"; "outdoor_workers"; "general_public"] ∧
    (∀ key info risks,
       Py.dict_get personas key = Some info →
       Py.dict_get (health_risks analysis) key = Some risks →
       persona_name risks = name info ∧
       map exposure_hours (scenarios risks) = exposure_scenarios info ∧
       ∀ s, s ∈ scenarios risks →
         scenario_risk_category s ∈ risk_categories init ∧
         generate_health_advice (scenario_risk_category s) key
         = inr (health_advice s) ∧
         health_advice s ≠ "") ∧
    (current_aqi loc = None →
     ∀ persona_type exposure,
       build_features (analysis_current_aqi analysis) persona_type exposure
       = build_features ∅ persona_type exposure).
Proof.
  set (aqi_data := get_current_aqi_data current_aqi loc).
  destruct (scenarios_run aqi_data "children_elderly" [2; 4; 6]%Q [])
    as (s1 & H1 & M1 & A1); [apply in_known_personas; tauto|].
  destruct (scenarios_run aqi_data "outdoor_workers" [4; 6; 8]%Q [])
    as (s2 & H2 & M2 & A2); [apply in_known_personas; tauto|].
  destruct (scenarios_run aqi_data "general_public" [1; 3; 6]%Q [])
    as (s3 & H3 & M3 & A3); [apply in_known_personas; tauto|].
  simpl app in H1, H2, H3.
  exists {| location := loc;
            analysis_current_aqi := aqi_data;
            health_risks :=
              [("children_elderly",
                {| persona_name := "Children / Elderly";
                   persona_icon := "👶👴"; scenarios := s1 |});
               ("outdoor_workers",
                {| persona_name := "Outdoor Workers / Athletes";
                   persona_icon := "👷🏃"; scenarios := s2 |});
               ("general_public",
                {| persona_name := "General Public";
                   persona_icon := "👥"; scenarios := s3 |})] |}.
  split.
  { unfold analyze_health_risks, personas. fold aqi_data.
    cbn [foldl]. unfold persona_step. cbn [exposure_scenarios name icon].
    unfold rbind at 4. rewrite H1. unfold rbind at 4.
    unfold rbind at 3. rewrite H2. unfold rbind at 3.
    unfold rbind at 2. rewrite H3. unfold rbind at 2.
    unfold rbind. reflexivity. }
  cbn [location analysis_current_aqi health_risks].
  split; [reflexivity|]. split; [reflexivity|]. split; [reflexivity|]. split.
  - intros key info risks Hinfo Hrisks.
    unfold personas in Hinfo. cbn [Py.dict_get] in Hinfo, Hrisks.
    destruct (decide ("children_elderly" = key)) as [<-|_].
    { injection Hinfo as <-. injection Hrisks as <-.
      split; [reflexivity|]. split; [exact M1 | exact A1]. }
    destruct (decide ("outdoor_workers" = key)) as [<-|_].
    { injection Hinfo as <-. injection Hrisks as <-.
      split; [reflexivity|]. split; [exact M2 | exact A2]. }
    destruct (decide ("general_public" = key)) as [<-|_]; [|discriminate].
    injection Hinfo as <-. injection Hrisks as <-.
    split; [reflexivity|]. split; [exact M3 | exact A3].
  - intros Hnone persona_type exposure. unfold aqi_data, get_current_aqi_data.
    rewrite Hnone. reflexivity.
Qed.

End IntegrationFacts.

Lemma forest_classes_are_labels (c : string) :
  c ∈ sklearn.classes_ RiskFixture.forest →
  c ∈ health_risk_classifier.risk_categories health_risk_classifier.init.
Proof.
  intros Hc. apply in_four_labels.
  change (sklearn.classes_ RiskFixture.forest)
    with ["Hazardous"; "High"; "Low"; "Moderate"] in Hc.
  rewrite !elem_of_cons, elem_of_nil in Hc. tauto.
Qed.

Lemma integration_analysis_is_complete_witness :
  ∃ analysis,
    aqi_health_integration.analyze_health_risks
      (λ _, None) RiskFixture.classifier "vashi" = inr analysis ∧
    Py.keys (aqi_health_integration.health_risks analysis)
    = ["children_elderly"; "outdoor_workers"; "general_public"].
Proof.
  destruct (integration_analysis_is_complete (λ _, None)
              RiskFixture.classifier (RiskFixture.identity_scaler 12)
              RiskFixture.forest (λ _, [])
              eq_refl eq_refl eq_refl
              ltac:(discriminate) (λ _, eq_refl) forest_classes_are_labels
              eq_refl eq_refl "vashi")
    as (analysis & Hrun & _ & _ & Hkeys & _).
  exists analysis. split; assumption.
Defined.
